(** * Exchange Online DDG runbook: parsing, retry and reconciliation engine

    A shallow embedding of [ddlcreate_new_exchange_online_runbook_enhanced.ps1]
    and the properties of its department parser, its retry executor
    ([Invoke-ExchangeOperation]), the per-department reconciliation loop and
    the summary report.

    Conventions of the embedding.
    - PowerShell strings are [string]s: characters are restricted to the
      Latin-1 range, on which .NET's [\s] class and [Char.IsWhiteSpace]
      coincide.
    - [int] values are [Z]; 32-bit overflow is out of reach of the counters
      and lengths of the script and is not modelled.
    - [$null] is [None]; a hashtable literal is a record whose absent keys
      are [None].
    - Hyphens of PowerShell names are written as underscores. *)

From Stdlib Require Import ZArith List Lia Bool Ascii String QArith Qround Lqa.
From Stdlib Require Import DecimalString.
From Equations Require Import Equations.
Import ListNotations.

Local Open Scope string_scope.
Local Open Scope Z_scope.

(* ===================================================================== *)
(** ** Characters and .NET string primitives *)
(* ===================================================================== *)

Definition code (c : ascii) : Z := Z.of_N (N_of_ascii c).

Definition in_range (lo hi : Z) (c : ascii) : bool :=
  (lo <=? code c) && (code c <=? hi).

(** [[0-9]] *)
Definition is_digit (c : ascii) : bool := in_range 48 57 c.

(** [[A-Z]] as the operators [-match] / [-notmatch] see it: they compile the
    pattern with [RegexOptions.IgnoreCase], so the class also accepts
    [a]..[z]. *)
Definition is_AZ_ignorecase (c : ascii) : bool :=
  in_range 65 90 c || in_range 97 122 c.

(** [\s], and [Char.IsWhiteSpace], on Latin-1: TAB..CR, space, NEL, NBSP. *)
Definition is_space (c : ascii) : bool :=
  in_range 9 13 c || (code c =? 32) || (code c =? 133) || (code c =? 160).

(** [.] without [RegexOptions.Singleline]: anything but a line feed. *)
Definition is_dot (c : ascii) : bool := negb (code c =? 10).

Definition is_dash (c : ascii) : bool := code c =? 45.
Definition is_newline (c : ascii) : bool := code c =? 10.

Definition Length (s : string) : Z := Z.of_nat (String.length s).

(** A terminating error: the text of [$_.Exception.Message]. *)
Definition exn := string.

(** Stands for the message of the [ArgumentOutOfRangeException] that
    [Substring] raises, as PowerShell wraps it. The text of the host
    differs with its version and quotes the method name; this short form
    only names it, and nothing below depends on its characters. *)
Definition Substring_out_of_range : exn :=
  "Exception calling Substring: Index and length must refer to a location within the string.".

(** [s.Substring(startIndex, length)]: raises [ArgumentOutOfRangeException]
    unless [0 <= startIndex], [0 <= length] and
    [startIndex + length <= s.Length]. *)
Definition Substring (s : string) (startIndex len : Z) : exn + string :=
  if (startIndex <? 0) || (len <? 0) || (Length s <? startIndex + len)
  then inl Substring_out_of_range
  else inr (String.substring (Z.to_nat startIndex) (Z.to_nat len) s).

Fixpoint TrimStart (s : string) : string :=
  match s with
  | EmptyString => EmptyString
  | String c s' => if is_space c then TrimStart s' else s
  end.

(** [TrimEnd]: a character is kept when it is not white space or when
    something is kept after it. *)
Fixpoint TrimEnd (s : string) : string :=
  match s with
  | EmptyString => EmptyString
  | String c s' =>
      match TrimEnd s' with
      | EmptyString => if is_space c then EmptyString else String c EmptyString
      | t => String c t
      end
  end.

Definition Trim (s : string) : string := TrimEnd (TrimStart s).

Fixpoint all_space (s : string) : bool :=
  match s with
  | EmptyString => true
  | String c s' => is_space c && all_space s'
  end.

(** Every character of [s] is in the class [p]. *)
Fixpoint all_in (p : ascii -> bool) (s : string) : bool :=
  match s with
  | EmptyString => true
  | String c s' => p c && all_in p s'
  end.

(** [[string]::IsNullOrWhiteSpace] on a non-null string. *)
Definition IsNullOrWhiteSpace (s : string) : bool := all_space s.

(** String interpolation of an [int]. *)
Definition string_of_Z (z : Z) : string := NilZero.string_of_int (Z.to_int z).

(* ===================================================================== *)
(** ** Regular expressions of the [-match] operator *)
(* ===================================================================== *)

Module Regex.

Inductive re : Type :=
| Void
| Eps
| Class (p : ascii -> bool)
| Cat (r1 r2 : re)
| Alt (r1 r2 : re)
| Star (r : re).

(** [r+] and [r{n}] *)
Definition Plus (r : re) : re := Cat r (Star r).

Fixpoint Rep (n : nat) (r : re) : re :=
  match n with
  | O => Eps
  | S n' => Cat r (Rep n' r)
  end.

Fixpoint nullable (r : re) : bool :=
  match r with
  | Void => false
  | Eps => true
  | Class _ => false
  | Cat r1 r2 => nullable r1 && nullable r2
  | Alt r1 r2 => nullable r1 || nullable r2
  | Star _ => true
  end.

(** Brzozowski derivative *)
Fixpoint deriv (c : ascii) (r : re) : re :=
  match r with
  | Void => Void
  | Eps => Void
  | Class p => if p c then Eps else Void
  | Cat r1 r2 =>
      if nullable r1
      then Alt (Cat (deriv c r1) r2) (deriv c r2)
      else Cat (deriv c r1) r2
  | Alt r1 r2 => Alt (deriv c r1) (deriv c r2)
  | Star r1 => Cat (deriv c r1) (Star r1)
  end.

(** Does the whole of [s] belong to the language of [r]? *)
Fixpoint accepts (r : re) (s : string) : bool :=
  match s with
  | EmptyString => nullable r
  | String c s' => accepts (deriv c r) s'
  end.

(** [s -match '^r$']: [^] anchors at the start; [$] (no
    [RegexOptions.Multiline]) holds at the very end and also just before a
    final line feed. *)
Definition match_anchored (r : re) (s : string) : bool :=
  accepts (Cat r (Alt Eps (Class is_newline))) s.

(** The language of a regular expression, as a relation. *)
Inductive lang : re -> string -> Prop :=
| lang_eps : lang Eps EmptyString
| lang_class p c : p c = true -> lang (Class p) (String c EmptyString)
| lang_cat r1 r2 s1 s2 : lang r1 s1 -> lang r2 s2 -> lang (Cat r1 r2) (s1 ++ s2)
| lang_alt_l r1 r2 s : lang r1 s -> lang (Alt r1 r2) s
| lang_alt_r r1 r2 s : lang r2 s -> lang (Alt r1 r2) s
| lang_star_nil r : lang (Star r) EmptyString
| lang_star_cons r s1 s2 :
    lang r s1 -> lang (Star r) s2 -> lang (Star r) (s1 ++ s2).

End Regex.

Import Regex.

(** ['^[0-9]{5}\s+.+\s+-\s+[A-Z]{3}$'] without its anchors *)
Definition department_pattern : re :=
  Cat (Rep 5 (Class is_digit))
 (Cat (Plus (Class is_space))
 (Cat (Plus (Class is_dot))
 (Cat (Plus (Class is_space))
 (Cat (Class is_dash)
 (Cat (Plus (Class is_space))
      (Rep 3 (Class is_AZ_ignorecase))))))).

(** ['^[0-9]{5}$'] and ['^[A-Z]{3}$'] without their anchors *)
Definition number_pattern : re := Rep 5 (Class is_digit).
Definition country_pattern : re := Rep 3 (Class is_AZ_ignorecase).

(* ===================================================================== *)
(** ** [Test-DepartmentFormat] *)
(* ===================================================================== *)

Record FormatValidation : Type := mkFormatValidation {
  IsValid : bool;
  fv_Error : option string
}.

Definition Test_DepartmentFormat (DepartmentName : string) : FormatValidation :=
  if Length DepartmentName <? 13 then
    {| IsValid := false;
       fv_Error := Some "Department name too short (minimum 13 characters required)" |}
  else if negb (match_anchored department_pattern DepartmentName) then
    {| IsValid := false;
       fv_Error := Some "Invalid format. Expected: '12345 Department Name - USA'" |}
  else
    {| IsValid := true; fv_Error := None |}.

(* ===================================================================== *)
(** ** [Get-DepartmentComponents] *)
(* ===================================================================== *)

Record Components : Type := mkComponents {
  Success : bool;
  Number : option string;
  Name : option string;
  CountryCode : option string;
  Error : option string
}.

(** The three fields computed by the [try] block. *)
Record Parsed : Type := mkParsed {
  deptNum : string;
  deptName : string;
  countryCode : string
}.

(** Sequencing of statements that may [throw]. *)
Definition bind_exn {A B} (m : exn + A) (k : A -> exn + B) : exn + B :=
  match m with
  | inl e => inl e
  | inr a => k a
  end.

Notation "x <-! m ; k" := (bind_exn m (fun x => k))
  (at level 61, m at next level, right associativity).

Definition throw_if {A} (b : bool) (msg : exn) (k : exn + A) : exn + A :=
  if b then inl msg else k.

(** The body of the [try] block, lines 64 to 89. *)
Definition parse_body (DepartmentName : string) : exn + Parsed :=
  deptNum <-! Substring DepartmentName 0 5 ;
  throw_if (negb (match_anchored number_pattern deptNum))
    "Invalid department number: must be exactly 5 digits" (
  countryCode <-! Substring DepartmentName (Length DepartmentName - 3) 3 ;
  throw_if (negb (match_anchored country_pattern countryCode))
    "Invalid country code: must be exactly 3 uppercase letters" (
  let startPos := 6 in
  let endPos := Length DepartmentName - 7 in
  let nameLength := endPos - startPos in
  throw_if (nameLength <=? 0) "Empty department name detected" (
  raw <-! Substring DepartmentName startPos nameLength ;
  let deptName := Trim raw in
  throw_if (IsNullOrWhiteSpace deptName) "Department name is empty after parsing" (
  inr {| deptNum := deptNum; deptName := deptName; countryCode := countryCode |})))).

Definition Get_DepartmentComponents (DepartmentName : string) : Components :=
  match parse_body DepartmentName with
  | inr p =>
      {| Success := true;
         Number := Some (deptNum p);
         Name := Some (deptName p);
         CountryCode := Some (countryCode p);
         Error := None |}
  | inl msg =>
      {| Success := false;
         Number := None;
         Name := None;
         CountryCode := None;
         Error := Some msg |}
  end.

(** What the [catch] block returns. *)
Definition parse_failure (msg : string) : Components :=
  {| Success := false; Number := None; Name := None; CountryCode := None;
     Error := Some msg |}.

(** Lines 262 and 263: [+] on a [$null] operand reads it as the empty
    string. *)
Definition str (o : option string) : string :=
  match o with
  | Some s => s
  | None => EmptyString
  end.

Definition groupName_of (c : Components) : string :=
  str (Number c) ++ str (CountryCode c).

Definition displayName_of (c : Components) : string :=
  str (Name c) ++ " - " ++ str (CountryCode c).

(* ===================================================================== *)
(** ** [New-RecipientFilter] *)
(* ===================================================================== *)

Definition New_RecipientFilter (DepartmentNumber CountryCode : string) : string :=
  "((RecipientTypeDetails -eq 'UserMailbox' -or RecipientTypeDetails -eq 'MailUser') " ++
  "-and Department -like '" ++ DepartmentNumber ++ "*' " ++
  "-and Department -like '*" ++ CountryCode ++ "' " ++
  "-and Name -notlike 'SystemMailbox*' " ++
  "-and Name -notlike 'CAS_*' " ++
  "-and Name -notlike 'HealthMailbox*' " ++
  "-and Name -notlike 'DiscoverySearchMailbox*' " ++
  "-and RecipientTypeDetails -ne 'SharedMailbox' " ++
  "-and RecipientTypeDetails -ne 'RoomMailbox' " ++
  "-and RecipientTypeDetails -ne 'EquipmentMailbox' " ++
  "-and RecipientTypeDetails -ne 'PublicFolder' " ++
  "-and RecipientTypeDetails -ne 'ArbitrationMailbox')".

(* ===================================================================== *)
(** ** Remote cmdlets, events and the monad of the script *)
(* ===================================================================== *)

(** What a directory cmdlet returns: an object with its recipient type. *)
Record Recipient : Type := mkRecipient {
  RecipientTypeDetails : string
}.

(** The Exchange Online cmdlets issued inside the loop, with their named
    arguments. *)
Inductive Call : Type :=
| Get_Recipient (Identity : string)
| Get_DynamicDistributionGroup (Identity : string)
| Set_DynamicDistributionGroup (Identity DisplayName RecipientFilter : string)
| New_DynamicDistributionGroup
    (Name Alias DisplayName RecipientFilter IncludedRecipients : string).

(** A cmdlet that changes the directory. *)
Definition mutating (c : Call) : bool :=
  match c with
  | Get_Recipient _ | Get_DynamicDistributionGroup _ => false
  | Set_DynamicDistributionGroup _ _ _ => true
  | New_DynamicDistributionGroup _ _ _ _ _ => true
  end.

(** What a run does, in order.  [EvAttempt] marks one evaluation
    [& $Operation] by the retry executor and carries the value of
    [$attempt]. *)
Inductive Event : Type :=
| EvAttempt (OperationName : string) (attempt : Z)
| EvCall (c : Call)
| EvSleep (Seconds : Z)
| EvOutput (line : string).

Definition is_call (e : Event) : bool :=
  match e with EvCall _ => true | _ => false end.

Definition is_mutating_call (e : Event) : bool :=
  match e with EvCall c => mutating c | _ => false end.

Definition is_attempt (e : Event) : bool :=
  match e with EvAttempt _ _ => true | _ => false end.

Definition calls (t : list Event) : list Event := filter is_call t.
Definition attempts (t : list Event) : nat := List.length (filter is_attempt t).

(** A script block [{ ... }] handed to the retry executor: run on the
    tenant, it returns a value (possibly [$null]) or throws, and issues
    cmdlets. *)
Definition ScriptBlock (W T : Type) : Type :=
  W -> (exn + option T) * W * list Call.

(** A statement over a state [S]: it returns or throws, leaves a state and
    emits events. *)
Definition M (S A : Type) : Type := S -> (exn + A) * S * list Event.

Definition ret {S A} (a : A) : M S A := fun s => (inr a, s, []).

Definition bind {S A B} (m : M S A) (k : A -> M S B) : M S B :=
  fun s =>
    match m s with
    | (inl e, s1, t1) => (inl e, s1, t1)
    | (inr a, s1, t1) =>
        match k a s1 with
        | (r, s2, t2) => (r, s2, (t1 ++ t2)%list)
        end
    end.

Definition try_catch {S A} (body : M S A) (handler : exn -> M S A) : M S A :=
  fun s =>
    match body s with
    | (inr a, s1, t1) => (inr a, s1, t1)
    | (inl e, s1, t1) =>
        match handler e s1 with
        | (r, s2, t2) => (r, s2, (t1 ++ t2)%list)
        end
    end.

Definition emit {S} (e : Event) : M S unit := fun s => (inr tt, s, [e]).
Definition get {S} : M S S := fun s => (inr s, s, []).
Definition modify {S} (f : S -> S) : M S unit := fun s => (inr tt, f s, []).

Declare Scope script_scope.
Delimit Scope script_scope with script.
Notation "x <- m ;; k" := (bind m (fun x => k))
  (at level 61, m at next level, right associativity) : script_scope.
Notation "m ;; k" := (bind m (fun _ => k))
  (at level 61, right associativity) : script_scope.

(** [Write-TimestampedOutput]: the line written, without the clock reading
    that prefixes it. *)
Definition Write_TimestampedOutput {S} (Message : string) : M S unit :=
  emit (EvOutput Message).

(* ===================================================================== *)
(** ** [Invoke-ExchangeOperation] *)
(* ===================================================================== *)

Record OperationResult (T : Type) : Type := mkOperationResult {
  op_Success : bool;
  Result : option T;
  op_Error : option string
}.
Arguments mkOperationResult {T}.
Arguments op_Success {T}.
Arguments Result {T}.
Arguments op_Error {T}.

(** Member access on what [Invoke-ExchangeOperation] returned; a property
    of [$null] is [$null], which [if] and [-not] read as false.

    The lines the function writes with [Write-TimestampedOutput] go to its
    own output stream, next to the hashtable it returns; its callers read
    the value only through [.Success], [.Result] and [.Error], which member
    enumeration resolves on the hashtable. The model returns the hashtable
    and keeps the lines as events. *)
Definition Success_of {T} (r : option (OperationResult T)) : bool :=
  match r with Some x => op_Success x | None => false end.
Definition Result_of {T} (r : option (OperationResult T)) : option T :=
  match r with Some x => Result x | None => None end.
Definition Error_of {T} (r : option (OperationResult T)) : option string :=
  match r with Some x => op_Error x | None => None end.

(** The line of the [catch] block, line 150. *)
Definition failed_attempt_line (attempt : Z) (OperationName : string) (msg : exn)
  : string :=
  "  Attempt " ++ string_of_Z attempt ++ " failed for " ++ OperationName
  ++ " : " ++ msg.

Section Retry.

(** The state the operations act on, and what [Start-Sleep] lets happen
    to it. *)
Context {World : Type}.
Variable Start_Sleep : Z -> World -> World.

(** The [while ($attempt -le $MaxRetries)] loop, lines 140 to 161, from the
    current value of [$attempt]. In the [catch] block [$attempt++] comes
    before [Start-Sleep -Seconds (2 * $attempt)]: the sleep is computed from
    the incremented counter. *)
Equations? retry_loop {T} (Operation : ScriptBlock World T)
    (OperationName : string) (MaxRetries attempt : Z) (w : World)
  : option (OperationResult T) * World * list Event
  by wf (Z.to_nat (MaxRetries + 1 - attempt)) lt :=
retry_loop Operation OperationName MaxRetries attempt w
  with Z_le_gt_dec attempt MaxRetries := {
  | right _ => (None, w, [])
  | left _ with Operation w := {
    | (inr result, w1, cs) =>
        (Some {| op_Success := true; Result := result; op_Error := None |},
         w1, EvAttempt OperationName attempt :: map EvCall cs)
    | (inl msg, w1, cs) with Z.eq_dec attempt MaxRetries := {
      | left _ =>
          (Some {| op_Success := false; Result := None; op_Error := Some msg |},
           w1,
           (EvAttempt OperationName attempt :: map EvCall cs ++
            [EvOutput (failed_attempt_line attempt OperationName msg)])%list)
      | right _ =>
          match retry_loop Operation OperationName MaxRetries (attempt + 1)
                  (Start_Sleep (2 * (attempt + 1)) w1) with
          | (r, w2, t2) =>
              (r, w2,
               (EvAttempt OperationName attempt :: map EvCall cs ++
                [EvOutput (failed_attempt_line attempt OperationName msg);
                 EvSleep (2 * (attempt + 1))] ++ t2)%list)
          end } } }.
Proof. lia. Qed.

(** [$attempt = 1] and the [while] loop; falling out of the loop returns
    nothing. *)
Definition Invoke_ExchangeOperation {T} (Operation : ScriptBlock World T)
    (OperationName : string) (MaxRetries : Z)
  : M World (option (OperationResult T)) :=
  fun w =>
    match retry_loop Operation OperationName MaxRetries 1 w with
    | (r, w', t) => (inr r, w', t)
    end.

End Retry.

(* ===================================================================== *)
(** ** Attempts of the retry executor *)
(* ===================================================================== *)

Definition is_sleep (e : Event) : bool :=
  match e with EvSleep _ => true | _ => false end.

(** The attempts and the sleeps of a run, in order. *)
Definition schedule (t : list Event) : list Event :=
  filter (fun e => is_attempt e || is_sleep e) t.

Definition well_formed {T} (r : OperationResult T) : Prop :=
  (op_Success r = true /\ op_Error r = None) \/
  (op_Success r = false /\ Result r = None /\ exists msg, op_Error r = Some msg).

Definition success_of {T} (result : option T) : OperationResult T :=
  {| op_Success := true; Result := result; op_Error := None |}.

Definition failure_of {T} (msg : exn) : OperationResult T :=
  {| op_Success := false; Result := None; op_Error := Some msg |}.

Section Attempts.

Context {World T : Type}.
Variable Start_Sleep : Z -> World -> World.
Variable Operation : ScriptBlock World T.

(** The tenant in which attempt [a + i] runs, when attempt [a] runs in [w]
    and the attempts [a], ..., [a + i - 1] are followed by the sleeps of
    the executor. *)
Fixpoint world_from (a : Z) (w : World) (i : nat) : World :=
  match i with
  | O => w
  | S i' =>
      world_from (a + 1)
        (Start_Sleep (2 * (a + 1)) (snd (fst (Operation w)))) i'
  end.

(** Attempts [a], ..., [a + i - 1] throw. *)
Fixpoint fails_from (a : Z) (w : World) (i : nat) : bool :=
  match i with
  | O => true
  | S i' =>
      match Operation w with
      | (inl _, w1, _) =>
          fails_from (a + 1) (Start_Sleep (2 * (a + 1)) w1) i'
      | (inr _, _, _) => false
      end
  end.

(** What attempt number [n] (from 1) returns or throws, and the tenant it
    leaves. *)
Definition outcome_of_attempt (w : World) (n : nat) : exn + option T :=
  fst (fst (Operation (world_from 1 w (n - 1)))).

Definition world_after_attempt (w : World) (n : nat) : World :=
  snd (fst (Operation (world_from 1 w (n - 1)))).

End Attempts.

(* ===================================================================== *)
(** ** The reconciliation loop *)
(* ===================================================================== *)

(** [$stats] *)
Record Stats : Type := mkStats {
  Created : Z;
  Updated : Z;
  Skipped : Z;
  ValidationErrors : Z;
  ProcessingErrors : Z;
  TotalProcessed : Z
}.

Definition initial_stats : Stats :=
  {| Created := 0; Updated := 0; Skipped := 0;
     ValidationErrors := 0; ProcessingErrors := 0; TotalProcessed := 0 |}.

Definition incr_Created (s : Stats) : Stats :=
  {| Created := Created s + 1; Updated := Updated s; Skipped := Skipped s;
     ValidationErrors := ValidationErrors s;
     ProcessingErrors := ProcessingErrors s;
     TotalProcessed := TotalProcessed s |}.
Definition incr_Updated (s : Stats) : Stats :=
  {| Created := Created s; Updated := Updated s + 1; Skipped := Skipped s;
     ValidationErrors := ValidationErrors s;
     ProcessingErrors := ProcessingErrors s;
     TotalProcessed := TotalProcessed s |}.
Definition incr_Skipped (s : Stats) : Stats :=
  {| Created := Created s; Updated := Updated s; Skipped := Skipped s + 1;
     ValidationErrors := ValidationErrors s;
     ProcessingErrors := ProcessingErrors s;
     TotalProcessed := TotalProcessed s |}.
Definition incr_ValidationErrors (s : Stats) : Stats :=
  {| Created := Created s; Updated := Updated s; Skipped := Skipped s;
     ValidationErrors := ValidationErrors s + 1;
     ProcessingErrors := ProcessingErrors s;
     TotalProcessed := TotalProcessed s |}.
Definition incr_ProcessingErrors (s : Stats) : Stats :=
  {| Created := Created s; Updated := Updated s; Skipped := Skipped s;
     ValidationErrors := ValidationErrors s;
     ProcessingErrors := ProcessingErrors s + 1;
     TotalProcessed := TotalProcessed s |}.
Definition incr_TotalProcessed (s : Stats) : Stats :=
  {| Created := Created s; Updated := Updated s; Skipped := Skipped s;
     ValidationErrors := ValidationErrors s;
     ProcessingErrors := ProcessingErrors s;
     TotalProcessed := TotalProcessed s + 1 |}.

(** One element of [$processedDepartments]: a hashtable with the keys
    [Department] and [Status] and, by status, [Error], [GroupName] and
    [DisplayName], or [Reason]. *)
Record Entry : Type := mkEntry {
  Department : string;
  Status : string;
  e_Error : option string;
  e_GroupName : option string;
  e_DisplayName : option string;
  e_Reason : option string
}.

Definition error_entry (dept status : string) (err : option string) : Entry :=
  {| Department := dept; Status := status; e_Error := err;
     e_GroupName := None; e_DisplayName := None; e_Reason := None |}.

Definition success_entry (dept status groupName displayName : string) : Entry :=
  {| Department := dept; Status := status; e_Error := None;
     e_GroupName := Some groupName; e_DisplayName := Some displayName;
     e_Reason := None |}.

Definition skipped_entry (dept reason : string) : Entry :=
  {| Department := dept; Status := "Skipped"; e_Error := None;
     e_GroupName := None; e_DisplayName := None; e_Reason := Some reason |}.

(** The outcome counters of [$stats]. *)
Inductive Bucket : Type :=
| BCreated | BUpdated | BSkipped | BValidationErrors | BProcessingErrors.

Definition Bucket_eqb (a b : Bucket) : bool :=
  match a, b with
  | BCreated, BCreated | BUpdated, BUpdated | BSkipped, BSkipped
  | BValidationErrors, BValidationErrors
  | BProcessingErrors, BProcessingErrors => true
  | _, _ => false
  end.

Definition read (b : Bucket) (s : Stats) : Z :=
  match b with
  | BCreated => Created s
  | BUpdated => Updated s
  | BSkipped => Skipped s
  | BValidationErrors => ValidationErrors s
  | BProcessingErrors => ProcessingErrors s
  end.

Definition bump (b : Bucket) : Stats -> Stats :=
  match b with
  | BCreated => incr_Created
  | BUpdated => incr_Updated
  | BSkipped => incr_Skipped
  | BValidationErrors => incr_ValidationErrors
  | BProcessingErrors => incr_ProcessingErrors
  end.

Definition sum_of_buckets (s : Stats) : Z :=
  Created s + Updated s + Skipped s + ValidationErrors s + ProcessingErrors s.

(** The entries of [$processedDepartments] with one of the given statuses. *)
Definition has_status (statuses : list string) (e : Entry) : bool :=
  existsb (String.eqb (Status e)) statuses.

Definition count_status (statuses : list string) (l : list Entry) : Z :=
  Z.of_nat (List.length (filter (has_status statuses) l)).

(** The statuses the loop writes, by the counter it increments with them. *)
Definition statuses_of (b : Bucket) : list string :=
  match b with
  | BCreated => ["Created"]
  | BUpdated => ["Updated"]
  | BSkipped => ["Skipped"]
  | BValidationErrors => ["ValidationError"; "ParsingError"]
  | BProcessingErrors => ["CreateError"; "UpdateError"; "UnexpectedError"]
  end.

(** The department reached the dry-run gate: it is valid and it parses. *)
Definition reaches_gate (deptname : string) : bool :=
  IsValid (Test_DepartmentFormat deptname)
  && Success (Get_DepartmentComponents deptname).

Section Engine.

Context {World : Type}.

(** The tenant: what a cmdlet returns or throws, and the state it leaves. *)
Variable exchange : Call -> World -> (exn + option Recipient) * World.
Variable Start_Sleep : Z -> World -> World.

(** The script block [{ cmdlet ... }] handed to the retry executor. *)
Definition cmdlet (c : Call) : ScriptBlock World Recipient :=
  fun w =>
    match exchange c w with
    | (r, w') => (r, w', [c])
    end.

(** The variables of the script, next to the tenant. *)
Record Script : Type := mkScript {
  world : World;
  stats : Stats;
  processedDepartments : list Entry
}.

(** The state after an outcome: the tenant left by the cmdlets, one
    counter incremented, one entry appended. *)
Definition recorded (b : Bucket) (e : Entry) (w : World) (s : Script)
  : Script :=
  {| world := w; stats := bump b (stats s);
     processedDepartments := (processedDepartments s ++ [e])%list |}.

(** The state after [$stats.TotalProcessed++]. *)
Definition counted (s : Script) : Script :=
  {| world := world s; stats := incr_TotalProcessed (stats s);
     processedDepartments := processedDepartments s |}.

Definition processing_line (Count : Z) (deptname : string) (s : Script)
  : Event :=
  EvOutput ("Processing department ("
            ++ string_of_Z (TotalProcessed (stats (counted s))) ++ "/"
            ++ string_of_Z Count ++ "): " ++ deptname).

Definition parsed_line (c : Components) : Event :=
  EvOutput ("  Parsed - Number: " ++ str (Number c) ++ ", Name: '"
            ++ str (Name c) ++ "', Country: " ++ str (CountryCode c)).

Definition target_line (c : Components) : Event :=
  EvOutput ("  Target Group - Name: " ++ groupName_of c ++ ", Display: "
            ++ displayName_of c).

Definition set_world (w : World) (s : Script) : Script :=
  {| world := w; stats := stats s;
     processedDepartments := processedDepartments s |}.

Definition update_stats (f : Stats -> Stats) : M Script unit :=
  modify (fun s => {| world := world s; stats := f (stats s);
                      processedDepartments := processedDepartments s |}).

(** [$processedDepartments += @{...}] *)
Definition record_entry (e : Entry) : M Script unit :=
  modify (fun s => {| world := world s; stats := stats s;
                      processedDepartments :=
                        (processedDepartments s ++ [e])%list |}).

(** A statement of [Invoke-ExchangeOperation] run from the script: it
    acts on the tenant only. *)
Definition on_world {A} (m : M World A) : M Script A :=
  fun s =>
    match m (world s) with
    | (r, w', t) => (r, set_world w' s, t)
    end.

Definition Invoke {T} (OperationName : string) (Operation : ScriptBlock World T)
    (MaxRetries : Z) : M Script (option (OperationResult T)) :=
  on_world (Invoke_ExchangeOperation Start_Sleep Operation OperationName MaxRetries).

(** [$existingRecipient] and [$existingDDG]: the [Result] of the two
    lookups, each run through the retry executor with two attempts, and the
    tenant they leave. *)
Definition existing_recipient (groupName : string) (w : World)
  : option Recipient * World :=
  match Invoke_ExchangeOperation Start_Sleep
          (cmdlet (Get_Recipient groupName))
          "Check Existing Recipient" 2 w with
  | (inr r, w', _) => (Result_of r, w')
  | (inl _, w', _) => (None, w')
  end.

Definition existing_DDG (groupName : string) (w : World)
  : option Recipient * World :=
  match Invoke_ExchangeOperation Start_Sleep
          (cmdlet (Get_DynamicDistributionGroup groupName))
          "Check Existing DDG" 2 w with
  | (inr r, w', _) => (Result_of r, w')
  | (inl _, w', _) => (None, w')
  end.

Local Open Scope script_scope.

Definition type_of (r : Recipient) : string := RecipientTypeDetails r.

(** Lines 293 to 331: a recipient of that name exists. *)
Definition update_or_skip (MaxRetries : Z)
    (deptname groupName displayName recipientFilter : string)
    (existingRecipient : Recipient) : M Script unit :=
  Write_TimestampedOutput
    ("  Found existing recipient: " ++ groupName ++ " ("
     ++ type_of existingRecipient ++ ")") ;;
  existingDDGResult <-
    Invoke "Check Existing DDG"
      (cmdlet (Get_DynamicDistributionGroup groupName)) 2 ;;
  let existingDDG := Result_of existingDDGResult in
  match existingDDG with
  | Some _ =>
      Write_TimestampedOutput ("  Updating existing DDG: " ++ groupName) ;;
      updateResult <-
        Invoke "Update DDG"
          (cmdlet (Set_DynamicDistributionGroup groupName displayName
                     recipientFilter)) MaxRetries ;;
      if Success_of updateResult then
        Write_TimestampedOutput ("  SUCCESS: Updated DDG " ++ groupName) ;;
        update_stats incr_Updated ;;
        record_entry (success_entry deptname "Updated" groupName displayName)
      else
        Write_TimestampedOutput
          ("  ERROR: Failed to update DDG " ++ groupName ++ " : "
           ++ str (Error_of updateResult)) ;;
        update_stats incr_ProcessingErrors ;;
        record_entry (error_entry deptname "UpdateError" (Error_of updateResult))
  | None =>
      Write_TimestampedOutput
        ("  SKIPPING: " ++ groupName ++ " already exists as "
         ++ type_of existingRecipient) ;;
      update_stats incr_Skipped ;;
      record_entry
        (skipped_entry deptname ("Exists as " ++ type_of existingRecipient))
  end.

(** Lines 332 to 363: nothing of that name was returned. *)
Definition create (MaxRetries : Z)
    (deptname groupName displayName recipientFilter : string) : M Script unit :=
  Write_TimestampedOutput ("  Creating new DDG: " ++ groupName) ;;
  createResult <-
    Invoke "Create DDG"
      (cmdlet (New_DynamicDistributionGroup groupName groupName displayName
                 recipientFilter "MailboxUsers, MailUsers")) MaxRetries ;;
  if Success_of createResult then
    Write_TimestampedOutput ("  SUCCESS: Created DDG " ++ groupName) ;;
    update_stats incr_Created ;;
    record_entry (success_entry deptname "Created" groupName displayName)
  else
    Write_TimestampedOutput
      ("  ERROR: Failed to create DDG " ++ groupName ++ " : "
       ++ str (Error_of createResult)) ;;
    update_stats incr_ProcessingErrors ;;
    record_entry (error_entry deptname "CreateError" (Error_of createResult)).

(** The [try] block, lines 275 to 364. *)
Definition reconcile (MaxRetries : Z)
    (deptname groupName displayName recipientFilter : string) : M Script unit :=
  existingRecipientResult <-
    Invoke "Check Existing Recipient" (cmdlet (Get_Recipient groupName)) 2 ;;
  let existingRecipient := Result_of existingRecipientResult in
  match existingRecipient with
  | Some r =>
      update_or_skip MaxRetries deptname groupName displayName recipientFilter r
  | None =>
      create MaxRetries deptname groupName displayName recipientFilter
  end.

(** The [catch] block, lines 365 to 373. *)
Definition unexpected (deptname : string) (msg : exn) : M Script unit :=
  Write_TimestampedOutput
    ("  UNEXPECTED ERROR processing department '" ++ deptname ++ "': " ++ msg) ;;
  update_stats incr_ProcessingErrors ;;
  record_entry (error_entry deptname "UnexpectedError" (Some msg)).

(** The body of [foreach ($dept in $depts)], lines 228 to 373; a
    [continue] ends the body. *)
Definition process_department (WhatIf : bool) (MaxRetries : Z) (Count : Z)
    (deptname : string) : M Script unit :=
  update_stats incr_TotalProcessed ;;
  s <- get ;;
  Write_TimestampedOutput
    ("Processing department (" ++ string_of_Z (TotalProcessed (stats s)) ++ "/"
     ++ string_of_Z Count ++ "): " ++ deptname) ;;
  let formatValidation := Test_DepartmentFormat deptname in
  if negb (IsValid formatValidation) then
    Write_TimestampedOutput
      ("  VALIDATION ERROR: " ++ str (fv_Error formatValidation)) ;;
    update_stats incr_ValidationErrors ;;
    record_entry
      (error_entry deptname "ValidationError" (fv_Error formatValidation))
  else
  let components := Get_DepartmentComponents deptname in
  if negb (Success components) then
    Write_TimestampedOutput ("  PARSING ERROR: " ++ str (Error components)) ;;
    update_stats incr_ValidationErrors ;;
    record_entry (error_entry deptname "ParsingError" (Error components))
  else
  Write_TimestampedOutput
    ("  Parsed - Number: " ++ str (Number components) ++ ", Name: '"
     ++ str (Name components) ++ "', Country: "
     ++ str (CountryCode components)) ;;
  let groupName := groupName_of components in
  let displayName := displayName_of components in
  let recipientFilter :=
    New_RecipientFilter (str (Number components)) (str (CountryCode components)) in
  Write_TimestampedOutput
    ("  Target Group - Name: " ++ groupName ++ ", Display: " ++ displayName) ;;
  if WhatIf then
    Write_TimestampedOutput ("  WHAT-IF: Would process group " ++ groupName)
  else
    try_catch
      (reconcile MaxRetries deptname groupName displayName recipientFilter)
      (unexpected deptname).

(** [foreach ($dept in $depts) { ... }] *)
Fixpoint process_departments (WhatIf : bool) (MaxRetries : Z) (Count : Z)
    (depts : list string) : M Script unit :=
  match depts with
  | [] => ret tt
  | deptname :: rest =>
      process_department WhatIf MaxRetries Count deptname ;;
      process_departments WhatIf MaxRetries Count rest
  end.

(** Lines 214 to 374: the counters are reset and every department is
    processed. *)
Definition run_loop (WhatIf : bool) (MaxRetries : Z) (depts : list string)
    (w : World) : (exn + unit) * Script * list Event :=
  process_departments WhatIf MaxRetries (Z.of_nat (List.length depts)) depts
    {| world := w; stats := initial_stats; processedDepartments := [] |}.

End Engine.

(* ===================================================================== *)
(** ** The summary report *)
(* ===================================================================== *)

(** Round half to even, the default of [[math]::Round]. *)
Definition round_half_even (q : Q) : Z :=
  let f := Qfloor q in
  match Qcompare (q - inject_Z f) (1 # 2) with
  | Lt => f
  | Gt => f + 1
  | Eq => if Z.even f then f else f + 1
  end.

(** [[math]::Round(q, 2)], the quotient being taken exactly. *)
Definition Math_Round_2 (q : Q) : Q :=
  inject_Z (round_half_even (q * 100)) / 100.

(** The value has two decimal places and is within half a hundredth of
    [exact]. *)
Definition rounded_to_2_places (r exact : Q) : Prop :=
  exists k : Z,
    (r == inject_Z k / 100)%Q /\
    (- (1 # 200) <= r - exact)%Q /\ (r - exact <= 1 # 200)%Q.

Record Summary : Type := mkSummary {
  successCount : Z;
  totalErrors : Z;
  successRate : Q;
  errorRate : Q;
  exitCode : Z
}.

(** Lines 390 to 393 and 437. *)
Definition Report (s : Stats) : Summary :=
  let successCount := Created s + Updated s in
  let totalErrors := ValidationErrors s + ProcessingErrors s in
  {| successCount := successCount;
     totalErrors := totalErrors;
     successRate :=
       if TotalProcessed s >? 0
       then Math_Round_2
              ((inject_Z successCount / inject_Z (TotalProcessed s)) * 100)
       else 0%Q;
     errorRate :=
       if TotalProcessed s >? 0
       then Math_Round_2
              ((inject_Z totalErrors / inject_Z (TotalProcessed s)) * 100)
       else 0%Q;
     exitCode := if totalErrors =? 0 then 0 else 1 |}.

(* ===================================================================== *)
(** ** A small tenant to run the script on *)
(* ===================================================================== *)

Module Tenant.

(** The recipients by name with their type, and the number of cmdlets
    that will still fail before the service answers again. *)
Record Directory : Type := mkDirectory {
  recipients : list (string * string);
  outage : nat
}.

Fixpoint find (name : string) (l : list (string * string)) : option string :=
  match l with
  | [] => None
  | (n, ty) :: l' => if String.eqb n name then Some ty else find name l'
  end.

Definition DDG : string := "DynamicDistributionGroup".

Definition answer (c : Call) (d : Directory) : (exn + option Recipient) * Directory :=
  match c with
  | Get_Recipient Identity =>
      (inr (option_map mkRecipient (find Identity (recipients d))), d)
  | Get_DynamicDistributionGroup Identity =>
      match find Identity (recipients d) with
      | Some ty =>
          if String.eqb ty DDG then (inr (Some (mkRecipient ty)), d)
          else (inr None, d)
      | None => (inr None, d)
      end
  | Set_DynamicDistributionGroup Identity _ _ =>
      match find Identity (recipients d) with
      | Some ty =>
          if String.eqb ty DDG then (inr None, d)
          else (inl "The operation couldn't be performed because object couldn't be found.", d)
      | None =>
          (inl "The operation couldn't be performed because object couldn't be found.", d)
      end
  | New_DynamicDistributionGroup Name _ _ _ _ =>
      match find Name (recipients d) with
      | Some _ => (inl "The object already exists.", d)
      | None =>
          (inr (Some (mkRecipient DDG)),
           {| recipients := (Name, DDG) :: recipients d; outage := outage d |})
      end
  end.

Definition exchange (c : Call) (d : Directory)
  : (exn + option Recipient) * Directory :=
  match outage d with
  | O => answer c d
  | S n =>
      (inl "The service is unavailable.",
       {| recipients := recipients d; outage := n |})
  end.

Definition Start_Sleep (Seconds : Z) (d : Directory) : Directory := d.

Definition empty : Directory := {| recipients := []; outage := 0 |}.

End Tenant.

(** The first lookup of the loop for the group name ["12345USA"], as a
    script block on the small tenant. *)
Definition lookup_12345USA : ScriptBlock Tenant.Directory Recipient :=
  cmdlet Tenant.exchange (Get_Recipient "12345USA").

(** A tenant where ["12345USA"] is a user mailbox and the next [outage]
    cmdlets fail. *)
Definition mailbox_12345USA (outage : nat) : Tenant.Directory :=
  {| Tenant.recipients := [("12345USA", "UserMailbox")];
     Tenant.outage := outage |}.

(** The variables of the script after a dry run over one department. *)
Definition one_department (deptname : string) (w : Tenant.Directory)
  : @Script Tenant.Directory :=
  snd (fst (run_loop Tenant.exchange Tenant.Start_Sleep true 3 [deptname] w)).

(* ===================================================================== *)
(** ** The timeline of a run of the retry executor *)
(* ===================================================================== *)

(** [n] attempts numbered from [a], each but the last followed by a sleep
    of twice the number of the next attempt. *)
Fixpoint timeline (name : string) (a : Z) (n : nat) : list Event :=
  match n with
  | O => []
  | S n' =>
      EvAttempt name a ::
      match n' with
      | O => []
      | S _ => EvSleep (2 * (a + 1)) :: timeline name (a + 1) n'
      end
  end.

Definition seconds (e : Event) : Z :=
  match e with EvSleep d => d | _ => 0 end.

(** The seconds slept in a run. *)
Definition total_sleep (t : list Event) : Z :=
  fold_right (fun e acc => seconds e + acc) 0 t.

Definition is_output (e : Event) : bool :=
  match e with EvOutput _ => true | _ => false end.

(** The lines written in a run. *)
Definition outputs (t : list Event) : nat := List.length (filter is_output t).

(* ===================================================================== *)
(** ** The shape of a recorded entry *)
(* ===================================================================== *)

(** What an entry of [$processedDepartments] holds, by its status: the
    keys the loop writes with that status, computed from the department the
    entry names. *)
Definition well_formed_entry (e : Entry) : Prop :=
  let v := Test_DepartmentFormat (Department e) in
  let c := Get_DepartmentComponents (Department e) in
  (In (Status e) ["Created"; "Updated"] /\
   reaches_gate (Department e) = true /\
   e_GroupName e = Some (groupName_of c) /\
   e_DisplayName e = Some (displayName_of c) /\
   e_Error e = None /\ e_Reason e = None) \/
  (Status e = "Skipped" /\
   reaches_gate (Department e) = true /\
   (exists ty, e_Reason e = Some ("Exists as " ++ ty)) /\
   e_GroupName e = None /\ e_DisplayName e = None /\ e_Error e = None) \/
  (Status e = "ValidationError" /\
   IsValid v = false /\ e_Error e = fv_Error v /\
   e_GroupName e = None /\ e_DisplayName e = None /\ e_Reason e = None) \/
  (Status e = "ParsingError" /\
   IsValid v = true /\ Success c = false /\ e_Error e = Error c /\
   e_GroupName e = None /\ e_DisplayName e = None /\ e_Reason e = None) \/
  (In (Status e) ["CreateError"; "UpdateError"] /\
   reaches_gate (Department e) = true /\
   e_GroupName e = None /\ e_DisplayName e = None /\ e_Reason e = None).

(** The entries the [try] block records, with the counter it increments. *)
Definition reconcile_entry (deptname groupName displayName : string)
    (b : Bucket) (e : Entry) : Prop :=
  (b = BCreated /\ e = success_entry deptname "Created" groupName displayName) \/
  (b = BUpdated /\ e = success_entry deptname "Updated" groupName displayName) \/
  (b = BSkipped /\ exists ty, e = skipped_entry deptname ("Exists as " ++ ty)) \/
  (b = BProcessingErrors /\
   exists err, e = error_entry deptname "CreateError" err \/
               e = error_entry deptname "UpdateError" err).

(** The departments that leave an entry. *)
Definition leaves_entry (WhatIf : bool) (deptname : string) : bool :=
  negb (WhatIf && reaches_gate deptname).

(** The statuses the loop writes. *)
Definition seven_statuses : list string :=
  ["Created"; "Updated"; "Skipped"; "ValidationError"; "ParsingError";
   "CreateError"; "UpdateError"].

(* ===================================================================== *)
(** ** Ends of a string *)
(* ===================================================================== *)

Definition first_char (s : string) : option ascii :=
  match s with
  | EmptyString => None
  | String c _ => Some c
  end.

Fixpoint last_char (s : string) : option ascii :=
  match s with
  | EmptyString => None
  | String c EmptyString => Some c
  | String _ s' => last_char s'
  end.

Definition is_space_at (o : option ascii) : bool :=
  match o with
  | Some c => is_space c
  | None => false
  end.

Definition ends_with_line_feed (s : string) : bool :=
  match last_char s with
  | Some c => is_newline c
  | None => false
  end.

(** The messages a failed parse can carry. *)
Definition empty_name_detected : string := "Empty department name detected".
Definition empty_after_parsing : string := "Department name is empty after parsing".
Definition invalid_number : string :=
  "Invalid department number: must be exactly 5 digits".
Definition invalid_country : string :=
  "Invalid country code: must be exactly 3 uppercase letters".

(* ===================================================================== *)
(** ** Wildcards and comparisons that ignore case *)
(* ===================================================================== *)

(** The operators [-like], [-match] and [-in] compare letters without
    their case. The patterns of the script are ASCII, so folding [A]..[Z]
    is all that matters here. *)
Definition lower (c : ascii) : ascii :=
  if in_range 65 90 c then ascii_of_N (N_of_ascii c + 32) else c.

Fixpoint prefix_ci (p s : string) : bool :=
  match p, s with
  | EmptyString, _ => true
  | String a p', String b s' => Ascii.eqb (lower a) (lower b) && prefix_ci p' s'
  | String _ _, EmptyString => false
  end.

(** [s -like '*p*'] for a [p] without wildcards, and the unanchored
    [s -match 'p'] for a literal [p]. *)
Fixpoint contains_ci (p s : string) : bool :=
  prefix_ci p s ||
  match s with
  | EmptyString => false
  | String _ s' => contains_ci p s'
  end.

(** [a -eq b] on strings. *)
Definition eq_ci (a b : string) : bool :=
  prefix_ci a b && (String.length a =? String.length b)%nat.

(** [a -in @(...)] *)
Definition in_ci (a : string) (l : list string) : bool := existsb (eq_ci a) l.

(* ===================================================================== *)
(** ** The listing of departments *)
(* ===================================================================== *)

(** What [Get-Recipient -ResultSize Unlimited] returns for one recipient,
    as far as the pipeline reads it. *)
Record ListedRecipient : Type := mkListedRecipient {
  Listed_Department : option string;
  Listed_RecipientTypeDetails : string
}.

(** The comparisons of strings the pipeline leaves to the host. [-eq] and
    [-ne] compare with the rules of the invariant culture, without case;
    [Select-Object -Unique] compares with the rules of the current culture,
    with case. Culture rules ignore some characters (a soft hyphen alone
    compares equal to the empty string) and identify others, so neither is
    the comparison of the characters one by one: like the cmdlets, they
    are what the host makes them. *)
Record Comparisons : Type := mkComparisons {
  (** [$a -eq $b] *)
  op_eq : string -> string -> bool;
  (** [Select-Object -Unique]: the incoming value against a value kept *)
  unique_comparer : string -> string -> bool
}.

(** The comparisons of the host on strings of unaccented letters, digits,
    spaces and dashes: character by character, [-eq] without the case. *)
Definition plain : Comparisons :=
  {| op_eq := eq_ci; unique_comparer := String.eqb |}.

(** [$_.RecipientTypeDetails -match "UserMailbox|MailUser"]: one of the two
    words occurs in the text, whatever the case of the unaccented
    letters. *)
Definition match_UserMailbox_or_MailUser (RecipientTypeDetails : string)
  : bool :=
  contains_ci "UserMailbox" RecipientTypeDetails
  || contains_ci "MailUser" RecipientTypeDetails.

(** The [Where-Object] block, lines 188 to 192. [$null -ne ""] holds and
    [$null -ne $null] does not. *)
Definition Where_Object (host : Comparisons) (r : ListedRecipient) : bool :=
  match Listed_Department r with
  | Some d =>
      negb (op_eq host d "")
      && match_UserMailbox_or_MailUser (Listed_RecipientTypeDetails r)
  | None => false
  end.

(** [Select-Object -Unique]: the values kept so far are [uniques]; an
    incoming value is kept unless it compares equal to one of them. *)
Fixpoint Select_Unique_from (host : Comparisons) (uniques l : list string)
  : list string :=
  match l with
  | [] => uniques
  | x :: l' =>
      if existsb (unique_comparer host x) uniques
      then Select_Unique_from host uniques l'
      else Select_Unique_from host (uniques ++ [x]) l'
  end.

Definition Select_Unique (host : Comparisons) (l : list string)
  : list string :=
  Select_Unique_from host [] l.

(** The pipeline of lines 187 to 193 on the recipients returned. *)
Definition departments_of (host : Comparisons) (rs : list ListedRecipient)
  : list string :=
  Select_Unique host
    (map (fun r => str (Listed_Department r)) (filter (Where_Object host) rs)).

(** What a pipeline leaves in a variable: nothing is [$null]. *)
Definition pipeline_value {A} (l : list A) : option (list A) :=
  match l with
  | [] => None
  | _ => Some l
  end.

(** [$depts.Count] and the elements [foreach] visits. *)
Definition elements {A} (v : option (list A)) : list A :=
  match v with
  | Some l => l
  | None => []
  end.

(* ===================================================================== *)
(** ** The text of the summary report *)
(* ===================================================================== *)

Definition rule : string :=
  "========================================================================================".

(** Lines 401 and 411: the entries listed as errors and as successes. *)
Definition errorDepartments (ps : list Entry) : list Entry :=
  filter (fun e => contains_ci "Error" (Status e)) ps.

Definition successDepartments (ps : list Entry) : list Entry :=
  filter (fun e => in_ci (Status e) ["Created"; "Updated"]) ps.

Definition error_line (e : Entry) : Event :=
  EvOutput ("  • " ++ Department e ++ " - " ++ Status e ++ ": "
            ++ str (e_Error e)).

Definition success_line (e : Entry) : Event :=
  EvOutput ("  • " ++ Status e ++ ": " ++ str (e_GroupName e) ++ " ("
            ++ str (e_DisplayName e) ++ ")").

Section SummaryReport.

(** The text PowerShell prints for a rate, and the text read off the clock
    at line 418. *)
Variable show_rate : Q -> string.
Variable completed_at : string.

(** Lines 377 to 420. Line 419 subtracts [$startTime], which the script
    never assigns, from a date: the subtraction fails, the statement is
    abandoned with an error record and no line is written; the script goes
    on with line 420. *)
Definition summary_report (Count : Z) (st : Stats) (ps : list Entry)
  : list Event :=
  let rep := Report st in
  ([EvOutput rule;
    EvOutput "EXCHANGE ONLINE DDG AUTOMATION SUMMARY REPORT";
    EvOutput rule;
    EvOutput "EXECUTION RESULTS:";
    EvOutput ("  ✓ Created: " ++ string_of_Z (Created st)
              ++ " new Dynamic Distribution Groups");
    EvOutput ("  ✓ Updated: " ++ string_of_Z (Updated st)
              ++ " existing Dynamic Distribution Groups");
    EvOutput ("  ⚠ Skipped: " ++ string_of_Z (Skipped st)
              ++ " (name conflicts with other recipient types)");
    EvOutput ("  ✗ Validation Errors: " ++ string_of_Z (ValidationErrors st)
              ++ " (format/parsing failures)");
    EvOutput ("  ✗ Processing Errors: " ++ string_of_Z (ProcessingErrors st)
              ++ " (Exchange operation failures)");
    EvOutput "";
    EvOutput "STATISTICS:";
    EvOutput ("  Total Departments Found: " ++ string_of_Z Count);
    EvOutput ("  Total Departments Processed: "
              ++ string_of_Z (TotalProcessed st));
    EvOutput ("  Success Rate: " ++ show_rate (successRate rep) ++ "% ("
              ++ string_of_Z (successCount rep) ++ "/"
              ++ string_of_Z (TotalProcessed st) ++ ")");
    EvOutput ("  Error Rate: " ++ show_rate (errorRate rep) ++ "% ("
              ++ string_of_Z (totalErrors rep) ++ "/"
              ++ string_of_Z (TotalProcessed st) ++ ")")]
   ++ (if totalErrors rep >? 0
       then EvOutput "" :: EvOutput "DETAILED ERROR REPORT:"
            :: map error_line (errorDepartments ps)
       else [])
   ++ (if successCount rep >? 0
       then EvOutput "" :: EvOutput "SUCCESSFUL OPERATIONS:"
            :: map success_line (successDepartments ps)
       else [])
   ++ [EvOutput rule;
       EvOutput ("Runbook Completed at " ++ completed_at);
       EvOutput rule])%list.

End SummaryReport.

(* ===================================================================== *)
(** ** The script from its first line to [exit] *)
(* ===================================================================== *)

(** What the script does around the events of the loop. *)
Inductive Step : Type :=
| Ran (e : Event)
| Transcript_started (Path : string)
| Transcript_stopped
| Disconnected
| Written (line : string).

Definition is_Disconnected (s : Step) : bool :=
  match s with Disconnected => true | _ => false end.
Definition is_Transcript_started (s : Step) : bool :=
  match s with Transcript_started _ => true | _ => false end.
Definition is_Transcript_stopped (s : Step) : bool :=
  match s with Transcript_stopped => true | _ => false end.
Definition ran_call (s : Step) : bool :=
  match s with Ran e => is_call e | _ => false end.
Definition ran_attempt (s : Step) : bool :=
  match s with Ran e => is_attempt e | _ => false end.
Definition ran_attempt_of (name : string) (s : Step) : bool :=
  match s with
  | Ran (EvAttempt n _) => String.eqb n name
  | _ => false
  end.

Definition count_steps (p : Step -> bool) (l : list Step) : nat :=
  List.length (filter p l).

(** [Write-TimestampedOutput] of several lines. *)
Definition log (lines : list string) : list Step :=
  map (fun l => Ran (EvOutput l)) lines.

(** How [$WhatIf] is interpolated. *)
Definition show_switch (b : bool) : string := if b then "True" else "False".

(** What the caller of [Invoke-ExchangeOperation] holds. *)
Definition returned {A} (r : exn + option A) : option A :=
  match r with
  | inr x => x
  | inl _ => None
  end.

Section Main.

Context {World : Type}.
Variable exchange : Call -> World -> (exn + option Recipient) * World.
Variable Start_Sleep : Z -> World -> World.
Variable Connect_ExchangeOnline : string -> World -> (exn + unit) * World.
Variable Get_Recipient_Unlimited : World -> (exn + list ListedRecipient) * World.
Variable host : Comparisons.
Variable Disconnect_ExchangeOnline : World -> (exn + unit) * World.
Variable show_rate : Q -> string.
Variable completed_at : string.

(** [$logFile]: its name is read off the clock. *)
Variable logFile : string.

(** [{ Connect-ExchangeOnline -ManagedIdentity -Organization ... }] *)
Definition connection_block (Organization : string) : ScriptBlock World unit :=
  fun w =>
    match Connect_ExchangeOnline Organization w with
    | (inl e, w') => (inl e, w', [])
    | (inr _, w') => (inr None, w', [])
    end.

(** The script block of lines 186 to 194. *)
Definition departments_block : ScriptBlock World (list string) :=
  fun w =>
    match Get_Recipient_Unlimited w with
    | (inl e, w') => (inl e, w', [])
    | (inr rs, w') => (inr (pipeline_value (departments_of host rs)), w', [])
    end.

Record Outcome : Type := mkOutcome {
  exit_code : Z;
  tenant : World;
  script : option (@Script World);
  steps : list Step
}.

Definition parameters_line (OrganizationDomain : string) (WhatIf : bool)
    (MaxRetries : Z) : string :=
  "Parameters: Organization=" ++ OrganizationDomain ++ ", WhatIf="
  ++ show_switch WhatIf ++ ", MaxRetries=" ++ string_of_Z MaxRetries.

Definition fatal_connection_line (MaxRetries : Z) (err : option string)
  : string :=
  "FATAL ERROR: Failed to connect to Exchange Online after "
  ++ string_of_Z MaxRetries ++ " attempts: " ++ str err.

Definition fatal_departments_line (err : option string) : string :=
  "FATAL ERROR: Failed to retrieve departments: " ++ str err.

Definition found_line (Count : Z) : string :=
  "Found " ++ string_of_Z Count ++ " unique departments to process".

Definition disconnect_line (d : exn + unit) : string :=
  match d with
  | inr _ => "Successfully disconnected from Exchange Online"
  | inl e => "Warning: Error during Exchange Online disconnect: " ++ e
  end.

Definition main (OrganizationDomain : string) (WhatIf : bool)
    (LogPath : string) (MaxRetries : Z) (w : World) : Outcome :=
  let transcript := negb (String.eqb LogPath "") in
  let start :=
    ((if transcript then [Transcript_started logFile] else [])
     ++ log [rule;
             "Exchange Online DDG Creation Runbook Started (Enhanced Version)";
             parameters_line OrganizationDomain WhatIf MaxRetries;
             rule])%list in
  let stop := if transcript then [Transcript_stopped] else [] in
  match Invoke_ExchangeOperation Start_Sleep
          (connection_block OrganizationDomain)
          "Exchange Connection" MaxRetries w with
  | (r1, w1, t1) =>
  let connectionResult := returned r1 in
  if negb (Success_of connectionResult) then
    {| exit_code := 1; tenant := w1; script := None;
       steps :=
         (start ++ map Ran t1
          ++ log [fatal_connection_line MaxRetries (Error_of connectionResult)]
          ++ stop)%list |}
  else
  match Invoke_ExchangeOperation Start_Sleep departments_block
          "Get Departments" MaxRetries w1 with
  | (r2, w2, t2) =>
  let getDepartmentsResult := returned r2 in
  let before :=
    (start ++ map Ran t1
     ++ log [String.append "Successfully connected to Exchange Online: "
               OrganizationDomain;
             "Retrieving departments from Exchange recipients..."]
     ++ map Ran t2)%list in
  if negb (Success_of getDepartmentsResult) then
    match Disconnect_ExchangeOnline w2 with
    | (_, w3) =>
        {| exit_code := 1; tenant := w3; script := None;
           steps :=
             (before
              ++ log [fatal_departments_line (Error_of getDepartmentsResult)]
              ++ [Disconnected] ++ stop)%list |}
    end
  else
  let depts := elements (Result_of getDepartmentsResult) in
  let Count := Z.of_nat (List.length depts) in
  if Count =? 0 then
    match Disconnect_ExchangeOnline w2 with
    | (_, w3) =>
        {| exit_code := 0; tenant := w3; script := None;
           steps :=
             (before
              ++ log ["No departments found with valid recipients. Exiting gracefully."]
              ++ [Disconnected] ++ stop)%list |}
    end
  else
  match run_loop exchange Start_Sleep WhatIf MaxRetries depts w2 with
  | (_, s, t3) =>
  let rep := Report (stats s) in
  match Disconnect_ExchangeOnline (world s) with
  | (d, w4) =>
      {| exit_code := exitCode rep; tenant := w4; script := Some s;
         steps :=
           (before
            ++ log [found_line Count]
            ++ map Ran t3
            ++ map Ran (summary_report show_rate completed_at
                          Count (stats s) (processedDepartments s))
            ++ [Disconnected]
            ++ log [disconnect_line d]
            ++ (if transcript
                then [Transcript_stopped;
                      Written (String.append "Log file saved to: " logFile)]
                else []))%list |}
  end
  end
  end
  end.

(** [$connectionResult] and [$getDepartmentsResult], with the tenant each
    leaves and the events of its executor. *)
Definition connection (OrganizationDomain : string) (MaxRetries : Z)
    (w : World) :=
  Invoke_ExchangeOperation Start_Sleep (connection_block OrganizationDomain)
    "Exchange Connection" MaxRetries w.

Definition listing (MaxRetries : Z) (w1 : World) :=
  Invoke_ExchangeOperation Start_Sleep departments_block
    "Get Departments" MaxRetries w1.

End Main.

(* ===================================================================== *)
(** ** A small office to run the whole script on *)
(* ===================================================================== *)

Module Office.

(** What [Get-Recipient -ResultSize Unlimited] returns there. *)
Definition staff : list ListedRecipient :=
  [ {| Listed_Department := Some "12345 Finance - USA";
       Listed_RecipientTypeDetails := "UserMailbox" |};
    {| Listed_Department := Some "bad";
       Listed_RecipientTypeDetails := "MailUser" |};
    {| Listed_Department := Some "12345 Finance - USA";
       Listed_RecipientTypeDetails := "UserMailbox" |};
    {| Listed_Department := None;
       Listed_RecipientTypeDetails := "UserMailbox" |};
    {| Listed_Department := Some "";
       Listed_RecipientTypeDetails := "UserMailbox" |};
    {| Listed_Department := Some "99999 Rooms - USA";
       Listed_RecipientTypeDetails := "RoomMailbox" |} ].

(** A cmdlet that answers [a] unless the service is out. *)
Definition guarded {A} (a : A) (d : Tenant.Directory)
  : (exn + A) * Tenant.Directory :=
  match Tenant.outage d with
  | O => (inr a, d)
  | S n =>
      (inl "The service is unavailable.",
       {| Tenant.recipients := Tenant.recipients d; Tenant.outage := n |})
  end.

Definition Connect_ExchangeOnline (Organization : string) := guarded tt.
Definition Get_Recipient_Unlimited := guarded staff.
Definition Disconnect_ExchangeOnline (d : Tenant.Directory)
  : (exn + unit) * Tenant.Directory := (inr tt, d).

(** An account that may connect and may not read the recipients. *)
Definition Get_Recipient_denied (d : Tenant.Directory)
  : (exn + list ListedRecipient) * Tenant.Directory :=
  (inl "Access is denied.", d).

(** An office with meeting rooms only. *)
Definition rooms : list ListedRecipient :=
  [ {| Listed_Department := Some "99999 Rooms - USA";
       Listed_RecipientTypeDetails := "RoomMailbox" |} ].

(** The script with a given [Get-Recipient -ResultSize Unlimited]. *)
Definition run_with
    (Get_Recipient :
       Tenant.Directory -> (exn + list ListedRecipient) * Tenant.Directory)
    (WhatIf : bool) (LogPath : string) (MaxRetries : Z)
    (d : Tenant.Directory) : Outcome :=
  main Tenant.exchange Tenant.Start_Sleep Connect_ExchangeOnline
    Get_Recipient plain Disconnect_ExchangeOnline
    (fun _ => "") "" "DDG_Automation.log"
    "contoso.onmicrosoft.com" WhatIf LogPath MaxRetries d.

Definition run : bool -> string -> Z -> Tenant.Directory -> Outcome :=
  run_with Get_Recipient_Unlimited.

End Office.

(* ===================================================================== *)
(** ** Strings *)
(* ===================================================================== *)

Lemma append_empty_r (s : string) : s ++ "" = s.
Proof. induction s as [|c s IH]; simpl; [reflexivity | now rewrite IH]. Qed.

Lemma append_assoc (s1 s2 s3 : string) : (s1 ++ s2) ++ s3 = s1 ++ (s2 ++ s3).
Proof. induction s1 as [|c s1 IH]; simpl; [reflexivity | now rewrite IH]. Qed.

Lemma Length_append (s1 s2 : string) : Length (s1 ++ s2) = Length s1 + Length s2.
Proof.
  unfold Length. induction s1 as [|c s1 IH]; simpl String.length; [reflexivity|].
  rewrite !Nat2Z.inj_succ. lia.
Qed.

Lemma Length_nonneg (s : string) : 0 <= Length s.
Proof. unfold Length. lia. Qed.

Lemma Length_cons (c : ascii) (s : string) : Length (String c s) = 1 + Length s.
Proof. unfold Length. simpl String.length. lia. Qed.

Lemma append_eq_empty (s1 s2 : string) :
  s1 ++ s2 = "" -> s1 = "" /\ s2 = "".
Proof. destruct s1; simpl; [auto | discriminate]. Qed.

Lemma append_eq_cons (s1 s2 s : string) (c : ascii) :
  s1 ++ s2 = String c s ->
  (s1 = "" /\ s2 = String c s) \/ (exists s1', s1 = String c s1' /\ s = s1' ++ s2).
Proof.
  destruct s1 as [|c1 s1]; simpl; intros H.
  - left; auto.
  - right. injection H as -> <-. now exists s1.
Qed.

Lemma substring_whole (s : string) :
  String.substring 0 (String.length s) s = s.
Proof. induction s as [|c s IH]; simpl; [reflexivity | now rewrite IH]. Qed.

Lemma substring_prefix (s1 s2 : string) :
  String.substring 0 (String.length s1) (s1 ++ s2) = s1.
Proof.
  induction s1 as [|c s1 IH]; simpl.
  - now destruct s2.
  - now rewrite IH.
Qed.

Lemma substring_skip (s1 s2 : string) (m : nat) :
  String.substring (String.length s1) m (s1 ++ s2) = String.substring 0 m s2.
Proof. induction s1 as [|c s1 IH]; simpl; [reflexivity | exact IH]. Qed.

(* ===================================================================== *)
(** ** The matcher decides the language *)
(* ===================================================================== *)

Module RegexFacts.

Lemma nullable_lang (r : re) : nullable r = true <-> lang r "".
Proof.
  induction r as [| |p|r1 IH1 r2 IH2|r1 IH1 r2 IH2|r IH]; simpl.
  - split; [discriminate | inversion 1].
  - split; [constructor | reflexivity].
  - split; [discriminate | inversion 1].
  - rewrite andb_true_iff, IH1, IH2. split.
    + intros [H1 H2]. change "" with ("" ++ ""). now constructor.
    + inversion 1 as [| |? ? s1 s2 H1 H2 E0 E| | | |]; subst.
      apply append_eq_empty in E as [-> ->]. auto.
  - rewrite orb_true_iff, IH1, IH2. split.
    + intros [H|H]; [now apply lang_alt_l | now apply lang_alt_r].
    + inversion 1; subst; auto.
  - split; [constructor | reflexivity].
Qed.

Lemma star_cons_inv (r : re) (c : ascii) (s : string) :
  lang (Star r) (String c s) ->
  exists s1 s2, s = s1 ++ s2 /\ lang r (String c s1) /\ lang (Star r) s2.
Proof.
  intros H. remember (Star r) as r0 eqn:Er. remember (String c s) as s0 eqn:Es.
  revert c s Es.
  induction H as [| | | | | |r' s1 s2 H1 _ H2 IH2]; try discriminate.
  injection Er as ->. intros c s Es.
  apply append_eq_cons in Es as [[-> ->] | (s1' & -> & ->)].
  - now apply IH2.
  - now exists s1', s2.
Qed.

Lemma deriv_sound (c : ascii) (r : re) :
  forall s, lang (deriv c r) s -> lang r (String c s).
Proof.
  induction r as [| |p|r1 IH1 r2 IH2|r1 IH1 r2 IH2|r IH]; simpl; intros s H.
  - inversion H.
  - inversion H.
  - destruct (p c) eqn:Ep; inversion H; subst. now constructor.
  - assert (Hcat : forall t, lang (Cat (deriv c r1) r2) t ->
                             lang (Cat r1 r2) (String c t)).
    { intros t Ht. inversion Ht as [| |? ? s1 s2 H1 H2| | | |]; subst.
      change (String c (s1 ++ s2)) with (String c s1 ++ s2).
      constructor; auto. }
    destruct (nullable r1) eqn:En.
    + inversion H; subst; [now apply Hcat|].
      change (String c s) with ("" ++ String c s).
      constructor; [now apply nullable_lang | auto].
    + now apply Hcat.
  - inversion H; subst; [apply lang_alt_l | apply lang_alt_r]; auto.
  - inversion H as [| |? ? s1 s2 H1 H2| | | |]; subst.
    change (String c (s1 ++ s2)) with (String c s1 ++ s2).
    constructor; auto.
Qed.

Lemma deriv_complete (c : ascii) (r : re) :
  forall s, lang r (String c s) -> lang (deriv c r) s.
Proof.
  induction r as [| |p|r1 IH1 r2 IH2|r1 IH1 r2 IH2|r IH]; simpl; intros s H.
  - inversion H.
  - inversion H.
  - inversion H as [|? ? Hp| | | | |]; subst. rewrite Hp. constructor.
  - inversion H as [| |? ? s1 s2 H1 H2 E0 E| | | |]; subst.
    apply append_eq_cons in E as [[-> ->] | (s1' & -> & ->)].
    + apply nullable_lang in H1. rewrite H1. apply lang_alt_r. auto.
    + destruct (nullable r1); [apply lang_alt_l|]; constructor; auto.
  - inversion H; subst; [apply lang_alt_l | apply lang_alt_r]; auto.
  - apply star_cons_inv in H as (s1 & s2 & -> & H1 & H2).
    constructor; auto.
Qed.

Lemma accepts_lang (r : re) (s : string) : accepts r s = true <-> lang r s.
Proof.
  revert r. induction s as [|c s IH]; intros r; simpl.
  - apply nullable_lang.
  - rewrite IH. split; [apply deriv_sound | apply deriv_complete].
Qed.

Lemma lang_Rep_class (p : ascii -> bool) (n : nat) (s : string) :
  lang (Rep n (Class p)) s <-> String.length s = n /\ all_in p s = true.
Proof.
  revert s. induction n as [|n IH]; intros s; simpl.
  - split.
    + inversion 1. auto.
    + intros [H _]. destruct s; [constructor | discriminate].
  - split.
    + inversion 1 as [| |? ? s1 s2 H1 H2| | | |]; subst.
      inversion H1; subst. apply IH in H2 as [<- H2]. simpl.
      rewrite H2. split; [reflexivity | now rewrite andb_true_r].
    + intros [Hl Ha]. destruct s as [|c s]; [discriminate|].
      simpl in Ha. apply andb_true_iff in Ha as [Hc Ha].
      injection Hl as Hl.
      change (String c s) with (String c "" ++ s).
      constructor; [now constructor | apply IH; auto].
Qed.

Lemma lang_Star_class (p : ascii -> bool) (s : string) :
  lang (Star (Class p)) s -> all_in p s = true.
Proof.
  intros H. remember (Star (Class p)) as r eqn:Er.
  induction H as [| | | | | |r' s1 s2 H1 _ H2 IH2]; try discriminate.
  - reflexivity.
  - injection Er as ->. inversion H1; subst. simpl.
    rewrite IH2 by reflexivity. now rewrite andb_true_r.
Qed.

Lemma lang_Plus_class (p : ascii -> bool) (s : string) :
  lang (Plus (Class p)) s -> 1 <= Length s /\ all_in p s = true.
Proof.
  unfold Plus. inversion 1 as [| |? ? s1 s2 H1 H2| | | |]; subst.
  inversion H1; subst. apply lang_Star_class in H2.
  simpl. rewrite Length_cons. pose proof (Length_nonneg s2).
  split; [lia|]. rewrite H2. now rewrite andb_true_r.
Qed.

(** [^r$] holds of [s] when [s], or [s] without a final line feed, is a
    word of [r]. *)
Lemma match_anchored_iff (r : re) (s : string) :
  match_anchored r s = true <->
  lang r s \/ exists s', s = s' ++ String "010" "" /\ lang r s'.
Proof.
  unfold match_anchored. rewrite accepts_lang. split.
  - inversion 1 as [| |? ? s1 s2 H1 H2| | | |]; subst.
    inversion H2 as [| | |? ? ? H3|? ? ? H3| |]; subst.
    + inversion H3; subst. left. now rewrite append_empty_r.
    + inversion H3 as [|? c Hc| | | | |]; subst. right. exists s1. split; [|assumption].
      unfold is_newline, code in Hc. apply Z.eqb_eq in Hc.
      assert (Hn : N_of_ascii c = 10%N) by lia.
      now rewrite <- (ascii_N_embedding c), Hn.
  - intros [H | (s' & -> & H)].
    + rewrite <- (append_empty_r s). constructor; [assumption|].
      apply lang_alt_l. constructor.
    + constructor; [assumption|]. apply lang_alt_r. now constructor.
Qed.

End RegexFacts.

(* ===================================================================== *)
(** ** The validator and the parser *)
(* ===================================================================== *)

Import RegexFacts.

Lemma String_length_append (s1 s2 : string) :
  String.length (s1 ++ s2) = (String.length s1 + String.length s2)%nat.
Proof. induction s1 as [|c s1 IH]; simpl; [reflexivity | now rewrite IH]. Qed.

(** A word of the department pattern is five digits, at least five more
    characters, and three letters. *)
Lemma department_pattern_shape (s : string) :
  lang department_pattern s ->
  exists d mid c,
    s = d ++ mid ++ c /\
    String.length d = 5%nat /\ all_in is_digit d = true /\
    5 <= Length mid /\
    String.length c = 3%nat /\ all_in is_AZ_ignorecase c = true.
Proof.
  unfold department_pattern. intros H.
  inversion H as [| |? ? d s1 Hd H1| | | |]; subst; clear H.
  inversion H1 as [| |? ? w1 s2 Hw1 H2| | | |]; subst; clear H1.
  inversion H2 as [| |? ? t s3 Ht H3| | | |]; subst; clear H2.
  inversion H3 as [| |? ? w2 s4 Hw2 H4| | | |]; subst; clear H3.
  inversion H4 as [| |? ? da s5 Hda H5| | | |]; subst; clear H4.
  inversion H5 as [| |? ? w3 c Hw3 Hc| | | |]; subst; clear H5.
  apply (proj1 (lang_Rep_class is_digit 5 d)) in Hd as [Hd1 Hd2].
  apply (proj1 (lang_Rep_class is_AZ_ignorecase 3 c)) in Hc as [Hc1 Hc2].
  apply lang_Plus_class in Hw1 as [Hw1 _].
  apply lang_Plus_class in Ht as [Ht _].
  apply lang_Plus_class in Hw2 as [Hw2 _].
  apply lang_Plus_class in Hw3 as [Hw3 _].
  inversion Hda; subst.
  exists d, (w1 ++ t ++ w2 ++ String c0 "" ++ w3), c.
  repeat split; auto.
  - now rewrite !append_assoc.
  - rewrite !Length_append, Length_cons.
    change (Length "") with 0. lia.
Qed.

Lemma Length_String_length (s : string) (n : nat) :
  String.length s = n -> Length s = Z.of_nat n.
Proof. unfold Length. now intros ->. Qed.

(** What [Test-DepartmentFormat] accepts. *)
Lemma Test_DepartmentFormat_valid (s : string) :
  IsValid (Test_DepartmentFormat s) = true <->
  13 <= Length s /\ match_anchored department_pattern s = true.
Proof.
  unfold Test_DepartmentFormat.
  destruct (Length s <? 13) eqn:El; simpl.
  - apply Z.ltb_lt in El. split; [discriminate | lia].
  - apply Z.ltb_ge in El.
    destruct (match_anchored department_pattern s); simpl;
      split; auto; try discriminate. intros [_ ?]; discriminate.
Qed.

(** The first two steps of the parser on five digits, a middle part and
    three letters. *)
Lemma parse_body_shape (d mid c : string) :
  String.length d = 5%nat -> all_in is_digit d = true ->
  String.length c = 3%nat -> all_in is_AZ_ignorecase c = true ->
  let s := d ++ mid ++ c in
  parse_body s =
    throw_if (Length s - 7 - 6 <=? 0) "Empty department name detected" (
      raw <-! Substring s 6 (Length s - 7 - 6) ;
      throw_if (IsNullOrWhiteSpace (Trim raw))
        "Department name is empty after parsing"
        (inr {| deptNum := d; deptName := Trim raw; countryCode := c |})).
Proof.
  intros Hd Hda Hc Hca s.
  assert (Ls : Length s = 8 + Length mid).
  { unfold s. rewrite !Length_append.
    rewrite (Length_String_length _ _ Hd), (Length_String_length _ _ Hc). lia. }
  pose proof (Length_nonneg mid) as Hm.
  unfold parse_body.
  assert (E1 : Substring s 0 5 = inr d).
  { unfold Substring.
    replace ((0 <? 0) || (5 <? 0) || (Length s <? 0 + 5)) with false
      by (symmetry; rewrite !orb_false_iff; repeat split;
          apply Z.ltb_ge; lia).
    f_equal. change (Z.to_nat 5) with 5%nat. rewrite <- Hd.
    apply substring_prefix. }
  rewrite E1. simpl bind_exn.
  assert (M1 : match_anchored number_pattern d = true).
  { apply match_anchored_iff. left. now apply lang_Rep_class. }
  rewrite M1. simpl throw_if.
  assert (E2 : Substring s (Length s - 3) 3 = inr c).
  { unfold Substring.
    replace ((Length s - 3 <? 0) || (3 <? 0) || (Length s <? Length s - 3 + 3))
      with false
      by (symmetry; rewrite !orb_false_iff; repeat split;
          apply Z.ltb_ge; lia).
    f_equal. change (Z.to_nat 3) with 3%nat.
    replace (Z.to_nat (Length s - 3)) with (String.length (d ++ mid)).
    - unfold s. rewrite <- append_assoc, substring_skip, <- Hc.
      apply substring_whole.
    - rewrite String_length_append, Hd. unfold Length in *. lia. }
  rewrite E2. simpl bind_exn.
  assert (M2 : match_anchored country_pattern c = true).
  { apply match_anchored_iff. left. now apply lang_Rep_class. }
  rewrite M2. reflexivity.
Qed.

Lemma substring_prefix_le (s1 s2 : string) :
  forall n, (n <= String.length s1)%nat ->
            String.substring 0 n (s1 ++ s2) = String.substring 0 n s1.
Proof.
  induction s1 as [|c s1 IH]; intros n Hn.
  - assert (n = 0%nat) as -> by (simpl in Hn; lia). now destruct s2.
  - destruct n as [|n]; [reflexivity|]. simpl. rewrite IH; [reflexivity|].
    simpl in Hn. lia.
Qed.

(** On the canonical form [NNNNN text - CCC], with single spaces, the name
    the parser returns is cut from [text] without its last character. *)
Lemma parse_body_canonical (d text c : string) :
  String.length d = 5%nat -> all_in is_digit d = true ->
  String.length c = 3%nat -> all_in is_AZ_ignorecase c = true ->
  parse_body (d ++ " " ++ text ++ " - " ++ c) =
    throw_if (Length text - 1 <=? 0) "Empty department name detected" (
      let raw := String.substring 0 (String.length text - 1) text in
      throw_if (IsNullOrWhiteSpace (Trim raw))
        "Department name is empty after parsing"
        (inr {| deptNum := d; deptName := Trim raw; countryCode := c |})).
Proof.
  intros Hd Hda Hc Hca.
  replace (d ++ " " ++ text ++ " - " ++ c)
    with (d ++ (" " ++ text ++ " - ") ++ c)
    by (now rewrite !append_assoc).
  rewrite parse_body_shape by assumption.
  assert (L : Length (d ++ (" " ++ text ++ " - ") ++ c) = Length text + 12).
  { rewrite !Length_append, (Length_String_length _ _ Hd),
      (Length_String_length _ _ Hc). change (Length " ") with 1.
    change (Length " - ") with 3. lia. }
  rewrite L. replace (Length text + 12 - 7 - 6) with (Length text - 1) by lia.
  destruct (Length text - 1 <=? 0) eqn:En; [reflexivity|].
  apply Z.leb_gt in En. cbn [throw_if].
  assert (E : Substring (d ++ (" " ++ text ++ " - ") ++ c) 6 (Length text - 1)
              = inr (String.substring 0 (String.length text - 1) text)).
  { unfold Substring. rewrite L.
    replace ((6 <? 0) || (Length text - 1 <? 0)
             || (Length text + 12 <? 6 + (Length text - 1))) with false
      by (symmetry; rewrite !orb_false_iff; repeat split;
          apply Z.ltb_ge; lia).
    f_equal.
    replace (d ++ (" " ++ text ++ " - ") ++ c)
      with ((d ++ " ") ++ text ++ " - " ++ c)
      by (now rewrite !append_assoc).
    replace (Z.to_nat 6) with (String.length (d ++ " "))
      by (rewrite String_length_append, Hd; reflexivity).
    rewrite substring_skip.
    replace (Z.to_nat (Length text - 1)) with (String.length text - 1)%nat
      by (unfold Length; lia).
    apply substring_prefix_le. lia. }
  rewrite E. reflexivity.
Qed.

(** A successful parse has a positive name span. *)
Lemma parse_needs_14 (s : string) :
  Success (Get_DepartmentComponents s) = true -> 14 <= Length s.
Proof.
  unfold Get_DepartmentComponents, parse_body.
  destruct (Substring s 0 5) as [e|d]; simpl; [discriminate|].
  destruct (match_anchored number_pattern d); simpl; [|discriminate].
  destruct (Substring s (Length s - 3) 3) as [e|c]; simpl; [discriminate|].
  destruct (match_anchored country_pattern c); simpl; [|discriminate].
  destruct (Length s - 7 - 6 <=? 0) eqn:En; simpl; [discriminate|].
  intros _. apply Z.leb_gt in En. lia.
Qed.

Example parse_14_characters :
  Get_DepartmentComponents "12345 XY - ABC"
  = {| Success := true; Number := Some "12345"; Name := Some "X";
       CountryCode := Some "ABC"; Error := None |}.
Proof. reflexivity. Qed.

Example too_short_is_invalid :
  Test_DepartmentFormat "12345 X - AB"
  = {| IsValid := false;
       fv_Error :=
         Some "Department name too short (minimum 13 characters required)" |}.
Proof. reflexivity. Qed.

(** C9. Every department string of exactly 13 characters that passes
    [Test-DepartmentFormat] is rejected by [Get-DepartmentComponents] with
    the empty-name error, its name span [Length - 7 - 6] being 0; and a
    string that parses has at least 14 characters. *)
Theorem C9_minimum_length_never_parses (s : string)
    (Hlen : Length s = 13)
    (Hvalid : IsValid (Test_DepartmentFormat s) = true) :
  Length s - 7 - 6 = 0 /\
  Get_DepartmentComponents s = parse_failure "Empty department name detected" /\
  (forall s', Success (Get_DepartmentComponents s') = true -> 14 <= Length s').
Proof.
  split; [lia|]. split; [|exact parse_needs_14].
  apply Test_DepartmentFormat_valid in Hvalid as [_ Hm].
  apply match_anchored_iff in Hm as [Hm | (s' & -> & Hm)];
    apply department_pattern_shape in Hm
      as (d & mid & c & E & Hd & Hda & Hmid & Hc & Hca).
  - subst s. unfold Get_DepartmentComponents.
    rewrite parse_body_shape by assumption.
    rewrite Hlen. reflexivity.
  - exfalso. subst s'. rewrite !Length_append in Hlen.
    rewrite (Length_String_length _ _ Hd), (Length_String_length _ _ Hc) in Hlen.
    rewrite Length_cons in Hlen. change (Length "") with 0 in Hlen. lia.
Qed.

Lemma C9_witness :
  Length "12345 X - ABC" = 13 /\
  IsValid (Test_DepartmentFormat "12345 X - ABC") = true /\
  Get_DepartmentComponents "12345 X - ABC"
    = parse_failure "Empty department name detected".
Proof.
  split; [reflexivity|]. split; [reflexivity|].
  exact (proj1 (proj2 (C9_minimum_length_never_parses "12345 X - ABC"
                         eq_refl eq_refl))).
Defined.

(** C1. On ["10023 Accounts Payable - USA"] the parser returns the number
    and the country code of the claim but the name ["Accounts Payabl"]: the
    span it cuts ends one character early, so the display name is
    ["Accounts Payabl - USA"]. *)
Theorem C1_accounts_payable_loses_last_letter :
  let c := Get_DepartmentComponents "10023 Accounts Payable - USA" in
  IsValid (Test_DepartmentFormat "10023 Accounts Payable - USA") = true /\
  c = {| Success := true; Number := Some "10023";
         Name := Some "Accounts Payabl"; CountryCode := Some "USA";
         Error := None |} /\
  groupName_of c = "10023USA" /\
  displayName_of c = "Accounts Payabl - USA" /\
  displayName_of c <> "Accounts Payable - USA".
Proof.
  cbv zeta. repeat split; try reflexivity.
  vm_compute. discriminate.
Qed.

(* ===================================================================== *)
(** ** The retry executor *)
(* ===================================================================== *)

Lemma schedule_app (t1 t2 : list Event) :
  schedule (t1 ++ t2) = (schedule t1 ++ schedule t2)%list.
Proof. apply filter_app. Qed.

Lemma schedule_calls (cs : list Call) : schedule (map EvCall cs) = [].
Proof. induction cs; simpl; auto. Qed.

Lemma schedule_failed_attempt (name line : string) (a d : Z)
    (cs : list Call) (t2 : list Event) :
  schedule (EvAttempt name a :: map EvCall cs ++
            [EvOutput line; EvSleep d] ++ t2)
  = EvAttempt name a :: EvSleep d :: schedule t2.
Proof.
  change (EvAttempt name a :: ?l) with ([EvAttempt name a] ++ l)%list.
  now rewrite !schedule_app, schedule_calls.
Qed.

Lemma attempts_app (t1 t2 : list Event) :
  attempts (t1 ++ t2) = (attempts t1 + attempts t2)%nat.
Proof. unfold attempts. now rewrite filter_app, length_app. Qed.

Lemma attempts_calls (cs : list Call) : attempts (map EvCall cs) = 0%nat.
Proof. unfold attempts. induction cs; simpl; auto. Qed.

Section RetryFacts.

Context {World T : Type}.
Variable Start_Sleep : Z -> World -> World.
Variable Operation : ScriptBlock World T.
Variable OperationName : string.
Variable MaxRetries : Z.

Local Abbreviation loop :=
  (retry_loop Start_Sleep Operation OperationName MaxRetries).

Lemma retry_loop_done (attempt : Z) (w : World) :
  attempt > MaxRetries -> loop attempt w = (None, w, []).
Proof.
  intros H. simp retry_loop.
  destruct (Z_le_gt_dec attempt MaxRetries); [lia | reflexivity].
Qed.

Lemma retry_loop_success (attempt : Z) (w w1 : World) result cs :
  attempt <= MaxRetries ->
  Operation w = (inr result, w1, cs) ->
  loop attempt w
  = (Some (success_of result), w1,
     EvAttempt OperationName attempt :: map EvCall cs).
Proof.
  intros H Hop. simp retry_loop.
  destruct (Z_le_gt_dec attempt MaxRetries); [|lia].
  simpl. rewrite Hop. reflexivity.
Qed.

Lemma retry_loop_last (attempt : Z) (w w1 : World) msg cs :
  attempt = MaxRetries ->
  Operation w = (inl msg, w1, cs) ->
  loop attempt w
  = (Some (failure_of msg), w1,
     (EvAttempt OperationName attempt :: map EvCall cs ++
      [EvOutput (failed_attempt_line attempt OperationName msg)])%list).
Proof.
  intros H Hop. simp retry_loop.
  destruct (Z_le_gt_dec attempt MaxRetries); [|lia].
  simpl. rewrite Hop. simpl.
  destruct (Z.eq_dec attempt MaxRetries); [reflexivity | lia].
Qed.

Lemma retry_loop_again (attempt : Z) (w w1 : World) msg cs :
  attempt < MaxRetries ->
  Operation w = (inl msg, w1, cs) ->
  loop attempt w
  = match loop (attempt + 1) (Start_Sleep (2 * (attempt + 1)) w1) with
    | (r, w2, t2) =>
        (r, w2,
         (EvAttempt OperationName attempt :: map EvCall cs ++
          [EvOutput (failed_attempt_line attempt OperationName msg);
           EvSleep (2 * (attempt + 1))] ++ t2)%list)
    end.
Proof.
  intros H Hop.
  rewrite (retry_loop_equation_1 Start_Sleep T Operation OperationName
             MaxRetries attempt w).
  destruct (Z_le_gt_dec attempt MaxRetries); [|lia].
  simpl. rewrite Hop. simpl.
  destruct (Z.eq_dec attempt MaxRetries); [lia | reflexivity].
Qed.

(** While attempts remain, the loop starts with an attempt. *)
Lemma retry_loop_starts (attempt : Z) (w : World) :
  attempt <= MaxRetries ->
  exists t, snd (loop attempt w) = EvAttempt OperationName attempt :: t.
Proof.
  intros H. destruct (Operation w) as [[[msg|result] w1] cs] eqn:Hop.
  - destruct (Z.eq_dec attempt MaxRetries) as [E|E].
    + rewrite (retry_loop_last _ _ _ _ _ E Hop). simpl. eauto.
    + rewrite (retry_loop_again attempt w w1 msg cs) by (lia || assumption).
      destruct (loop (attempt + 1) _) as [[r w2] t2]. simpl. eauto.
  - rewrite (retry_loop_success _ _ _ _ _ H Hop). simpl. eauto.
Qed.

(** Attempts [attempt], ..., [attempt + i - 1] throw and attempt
    [attempt + i] returns: the loop returns that value after [i + 1]
    attempts. *)
Lemma retry_loop_succeeds (i : nat) :
  forall (attempt : Z) (w w' : World) result cs,
    attempt + Z.of_nat i <= MaxRetries ->
    fails_from Start_Sleep Operation attempt w i = true ->
    Operation (world_from Start_Sleep Operation attempt w i)
      = (inr result, w', cs) ->
    exists t,
      loop attempt w = (Some (success_of result), w', t) /\
      attempts t = S i.
Proof.
  induction i as [|i IH]; intros attempt w w' result cs Hle Hf Hop;
    cbn [fails_from world_from] in *.
  - rewrite (retry_loop_success attempt w w' result cs) by (lia || assumption).
    eexists. split; [reflexivity|].
    unfold attempts. simpl. fold (attempts (map EvCall cs)).
    now rewrite attempts_calls.
  - destruct (Operation w) as [[[msg|r0] w1] cs1] eqn:Hw; [|discriminate].
    cbn [fst snd] in Hop.
    destruct (IH (attempt + 1) _ w' result cs ltac:(lia) Hf Hop)
      as (t & Ht & Ha).
    rewrite (retry_loop_again attempt w w1 msg cs1) by (lia || assumption).
    rewrite Ht. eexists. split; [reflexivity|].
    change (EvAttempt OperationName attempt :: ?l)
      with ([EvAttempt OperationName attempt] ++ l)%list.
    rewrite !attempts_app, attempts_calls, Ha. reflexivity.
Qed.

(** Attempts [attempt], ..., [MaxRetries] all throw: the loop returns the
    failure of the last one. *)
Lemma retry_loop_exhausts (i : nat) :
  forall (attempt : Z) (w w' : World) msg cs,
    attempt + Z.of_nat i = MaxRetries ->
    fails_from Start_Sleep Operation attempt w i = true ->
    Operation (world_from Start_Sleep Operation attempt w i)
      = (inl msg, w', cs) ->
    exists t,
      loop attempt w = (Some (failure_of msg), w', t) /\
      attempts t = S i.
Proof.
  induction i as [|i IH]; intros attempt w w' msg cs Hle Hf Hop;
    cbn [fails_from world_from] in *.
  - rewrite (retry_loop_last attempt w w' msg cs) by (lia || assumption).
    eexists. split; [reflexivity|].
    change (EvAttempt OperationName attempt :: ?l)
      with ([EvAttempt OperationName attempt] ++ l)%list.
    rewrite !attempts_app, attempts_calls. reflexivity.
  - destruct (Operation w) as [[[msg1|r0] w1] cs1] eqn:Hw; [|discriminate].
    cbn [fst snd] in Hop.
    destruct (IH (attempt + 1) _ w' msg cs ltac:(lia) Hf Hop)
      as (t & Ht & Ha).
    rewrite (retry_loop_again attempt w w1 msg1 cs1) by (lia || assumption).
    rewrite Ht. eexists. split; [reflexivity|].
    change (EvAttempt OperationName attempt :: ?l)
      with ([EvAttempt OperationName attempt] ++ l)%list.
    rewrite !attempts_app, attempts_calls, Ha. reflexivity.
Qed.

(** With an attempt left the loop returns a record. *)
Lemma retry_loop_returns (n : nat) :
  forall (attempt : Z) (w : World),
    attempt <= MaxRetries -> MaxRetries - attempt = Z.of_nat n ->
    exists r w' t, loop attempt w = (Some r, w', t) /\ well_formed r.
Proof.
  induction n as [|n IH]; intros attempt w Hle Hn;
    destruct (Operation w) as [[[msg|result] w1] cs] eqn:Hop.
  - rewrite (retry_loop_last attempt w w1 msg cs) by (lia || assumption).
    do 3 eexists. split; [reflexivity|]. right. simpl. eauto.
  - rewrite (retry_loop_success attempt w w1 result cs) by (lia || assumption).
    do 3 eexists. split; [reflexivity|]. left. simpl. auto.
  - rewrite (retry_loop_again attempt w w1 msg cs) by (lia || assumption).
    destruct (IH (attempt + 1) (Start_Sleep (2 * (attempt + 1)) w1)
                ltac:(lia) ltac:(lia)) as (r & w' & t & E & Hwf).
    rewrite E. do 3 eexists. split; [reflexivity | assumption].
  - rewrite (retry_loop_success attempt w w1 result cs) by (lia || assumption).
    do 3 eexists. split; [reflexivity|]. left. simpl. auto.
Qed.

(** After attempt [attempt + i] has thrown with attempts left, the schedule
    goes on with a sleep of twice the next attempt number and then that
    attempt. *)
Lemma retry_loop_backoff (i : nat) :
  forall (attempt : Z) (w : World),
    attempt + Z.of_nat i < MaxRetries ->
    fails_from Start_Sleep Operation attempt w (S i) = true ->
    exists pre post,
      schedule (snd (loop attempt w))
      = (pre ++
         [EvAttempt OperationName (attempt + Z.of_nat i);
          EvSleep (2 * (attempt + Z.of_nat i + 1));
          EvAttempt OperationName (attempt + Z.of_nat i + 1)] ++ post)%list.
Proof.
  induction i as [|i IH]; intros attempt w Hlt Hf;
    cbn [fails_from] in Hf;
    (destruct (Operation w) as [[[msg|r0] w1] cs] eqn:Hop; [|discriminate]);
    rewrite (retry_loop_again attempt w w1 msg cs) by (lia || assumption).
  - destruct (retry_loop_starts (attempt + 1)
                (Start_Sleep (2 * (attempt + 1)) w1) ltac:(lia)) as (t' & Ht').
    destruct (loop (attempt + 1) _) as [[r w2] t2].
    cbn [snd] in *. subst t2.
    exists [], (schedule t').
    rewrite schedule_failed_attempt, Z.add_0_r. reflexivity.
  - destruct (IH (attempt + 1) (Start_Sleep (2 * (attempt + 1)) w1)
                ltac:(lia) Hf) as (pre & post & E).
    destruct (loop (attempt + 1) _) as [[r w2] t2].
    cbn [snd] in *.
    exists (EvAttempt OperationName attempt
            :: EvSleep (2 * (attempt + 1)) :: pre), post.
    rewrite schedule_failed_attempt, E.
    replace (attempt + Z.of_nat (S i)) with (attempt + 1 + Z.of_nat i) by lia.
    reflexivity.
Qed.

End RetryFacts.

(** C4 (as amended). When attempts 1, ..., [n] have thrown and
    [n < MaxRetries], the executor sleeps [2 * (n + 1)] seconds between
    attempt [n] and attempt [n + 1]: [$attempt] is incremented before the
    sleep is computed, so the sleeps are 4, 6, 8, ... after attempts
    1, 2, 3, ... *)
Theorem C4_backoff_is_twice_the_next_attempt {World T : Type}
    (Start_Sleep : Z -> World -> World) (Operation : ScriptBlock World T)
    (OperationName : string) (MaxRetries : Z) (w : World) (n : nat)
    (Hn : (1 <= n)%nat)
    (Hleft : Z.of_nat n < MaxRetries)
    (Hfail : fails_from Start_Sleep Operation 1 w n = true) :
  exists pre post,
    schedule (snd (Invoke_ExchangeOperation Start_Sleep Operation
                     OperationName MaxRetries w))
    = (pre ++
       [EvAttempt OperationName (Z.of_nat n);
        EvSleep (2 * (Z.of_nat n + 1));
        EvAttempt OperationName (Z.of_nat n + 1)] ++ post)%list.
Proof.
  destruct n as [|i]; [lia|].
  destruct (retry_loop_backoff Start_Sleep Operation OperationName MaxRetries
              i 1 w ltac:(lia) Hfail) as (pre & post & E).
  exists pre, post. unfold Invoke_ExchangeOperation.
  destruct (retry_loop _ _ _ _ _ _) as [[r w'] t]. cbn [snd] in *.
  rewrite E. replace (Z.of_nat (S i)) with (1 + Z.of_nat i) by lia.
  reflexivity.
Qed.

Lemma C4_witness :
  exists pre post,
    schedule (snd (Invoke_ExchangeOperation Tenant.Start_Sleep lookup_12345USA
                     "Check Existing Recipient" 3 (mailbox_12345USA 3)))
    = (pre ++
       [EvAttempt "Check Existing Recipient" 2;
        EvSleep 6;
        EvAttempt "Check Existing Recipient" 3] ++ post)%list.
Proof.
  exact (C4_backoff_is_twice_the_next_attempt Tenant.Start_Sleep
           lookup_12345USA "Check Existing Recipient" 3 (mailbox_12345USA 3)
           2 (le_S _ _ (le_n 1)) eq_refl eq_refl).
Defined.

(** C4, as stated, fails: with three attempts allowed and a lookup that
    keeps throwing, attempt 1 fails with attempts left, and the executor
    then sleeps 4 seconds, not [2 * 1]; no sleep of 2 seconds occurs in the
    run. *)
Lemma C4_counterexample :
  let t := snd (Invoke_ExchangeOperation Tenant.Start_Sleep lookup_12345USA
                  "Check Existing Recipient" 3 (mailbox_12345USA 3)) in
  fails_from Tenant.Start_Sleep lookup_12345USA 1 (mailbox_12345USA 3) 1 = true /\
  schedule t
  = [EvAttempt "Check Existing Recipient" 1; EvSleep 4;
     EvAttempt "Check Existing Recipient" 2; EvSleep 6;
     EvAttempt "Check Existing Recipient" 3] /\
  ~ In (EvSleep (2 * 1)) t.
Proof.
  cbv zeta. split; [reflexivity|]. split; [reflexivity|].
  vm_compute. intuition discriminate.
Qed.

(** C6. With [MaxRetries >= 1]: if attempts 1, ..., [k - 1] throw and
    attempt [k <= MaxRetries] returns, the executor returns that value as a
    success after exactly [k] evaluations of the operation; if all
    [MaxRetries] attempts throw, it returns a failure with the message of
    the last one. *)
Theorem C6_retry_outcome {World T : Type}
    (Start_Sleep : Z -> World -> World) (Operation : ScriptBlock World T)
    (OperationName : string) (MaxRetries : Z) (w : World)
    (HM : 1 <= MaxRetries) :
  (forall (k : nat) (result : option T),
      (1 <= k)%nat -> Z.of_nat k <= MaxRetries ->
      fails_from Start_Sleep Operation 1 w (k - 1) = true ->
      outcome_of_attempt Start_Sleep Operation w k = inr result ->
      exists t,
        Invoke_ExchangeOperation Start_Sleep Operation OperationName MaxRetries w
        = (inr (Some (success_of result)),
           world_after_attempt Start_Sleep Operation w k, t) /\
        attempts t = k) /\
  (forall msg : exn,
      fails_from Start_Sleep Operation 1 w (Z.to_nat MaxRetries - 1) = true ->
      outcome_of_attempt Start_Sleep Operation w (Z.to_nat MaxRetries) = inl msg ->
      exists t,
        Invoke_ExchangeOperation Start_Sleep Operation OperationName MaxRetries w
        = (inr (Some (failure_of msg)),
           world_after_attempt Start_Sleep Operation w (Z.to_nat MaxRetries), t) /\
        attempts t = Z.to_nat MaxRetries).
Proof.
  unfold outcome_of_attempt, world_after_attempt, Invoke_ExchangeOperation.
  split.
  - intros k result Hk Hle Hf Ho.
    destruct (Operation (world_from Start_Sleep Operation 1 w (k - 1)))
      as [[o w'] cs] eqn:Hop. cbn [fst snd] in *. subst o.
    destruct (retry_loop_succeeds Start_Sleep Operation OperationName
                MaxRetries (k - 1) 1 w w' result cs ltac:(lia) Hf Hop)
      as (t & -> & Ha).
    exists t. split; [reflexivity | lia].
  - intros msg Hf Ho.
    destruct (Operation (world_from Start_Sleep Operation 1 w
                           (Z.to_nat MaxRetries - 1)))
      as [[o w'] cs] eqn:Hop. cbn [fst snd] in *. subst o.
    destruct (retry_loop_exhausts Start_Sleep Operation OperationName
                MaxRetries (Z.to_nat MaxRetries - 1) 1 w w' msg cs
                ltac:(lia) Hf Hop)
      as (t & -> & Ha).
    exists t. split; [reflexivity | lia].
Qed.

Lemma C6_witness :
  (exists t,
      Invoke_ExchangeOperation Tenant.Start_Sleep lookup_12345USA
        "Check Existing Recipient" 3 (mailbox_12345USA 1)
      = (inr (Some (success_of (Some (mkRecipient "UserMailbox")))),
         mailbox_12345USA 0, t) /\
      attempts t = 2%nat) /\
  (exists t,
      Invoke_ExchangeOperation Tenant.Start_Sleep lookup_12345USA
        "Check Existing Recipient" 3 (mailbox_12345USA 5)
      = (inr (Some (failure_of "The service is unavailable.")),
         mailbox_12345USA 2, t) /\
      attempts t = 3%nat).
Proof.
  split.
  - exact (proj1 (C6_retry_outcome Tenant.Start_Sleep lookup_12345USA
                    "Check Existing Recipient" 3 (mailbox_12345USA 1)
                    ltac:(discriminate))
             2%nat (Some (mkRecipient "UserMailbox"))
             (le_S _ _ (le_n 1)) ltac:(discriminate) eq_refl eq_refl).
  - exact (proj2 (C6_retry_outcome Tenant.Start_Sleep lookup_12345USA
                    "Check Existing Recipient" 3 (mailbox_12345USA 5)
                    ltac:(discriminate))
             "The service is unavailable." eq_refl eq_refl).
Defined.

(** C10. With [MaxRetries <= 0] the loop body never runs: the executor
    returns nothing ([$null]), evaluates the operation zero times and leaves
    the tenant alone. With [MaxRetries >= 1] it returns a record that is a
    success carrying [Result] or a failure carrying [Error]. *)
Theorem C10_result_needs_one_attempt {World T : Type}
    (Start_Sleep : Z -> World -> World) (Operation : ScriptBlock World T)
    (OperationName : string) (MaxRetries : Z) (w : World) :
  (MaxRetries <= 0 ->
   Invoke_ExchangeOperation Start_Sleep Operation OperationName MaxRetries w
   = (inr None, w, [])) /\
  (1 <= MaxRetries ->
   exists r w' t,
     Invoke_ExchangeOperation Start_Sleep Operation OperationName MaxRetries w
     = (inr (Some r), w', t) /\ well_formed r).
Proof.
  unfold Invoke_ExchangeOperation. split; intros H.
  - now rewrite retry_loop_done by lia.
  - destruct (retry_loop_returns Start_Sleep Operation OperationName MaxRetries
                (Z.to_nat (MaxRetries - 1)) 1 w ltac:(lia) ltac:(lia))
      as (r & w' & t & -> & Hwf).
    now exists r, w', t.
Qed.

Lemma C10_witness :
  Invoke_ExchangeOperation Tenant.Start_Sleep lookup_12345USA
    "Check Existing Recipient" 0 (mailbox_12345USA 0)
  = (inr None, mailbox_12345USA 0, []) /\
  exists r w' t,
    Invoke_ExchangeOperation Tenant.Start_Sleep lookup_12345USA
      "Check Existing Recipient" 1 (mailbox_12345USA 0)
    = (inr (Some r), w', t) /\ well_formed r.
Proof.
  split.
  - exact (proj1 (C10_result_needs_one_attempt Tenant.Start_Sleep
                    lookup_12345USA "Check Existing Recipient" 0
                    (mailbox_12345USA 0)) ltac:(discriminate)).
  - exact (proj2 (C10_result_needs_one_attempt Tenant.Start_Sleep
                    lookup_12345USA "Check Existing Recipient" 1
                    (mailbox_12345USA 0)) ltac:(discriminate)).
Defined.

(* ===================================================================== *)
(** ** One department *)
(* ===================================================================== *)

Section EngineFacts.

Context {World : Type}.
Variable exchange : Call -> World -> (exn + option Recipient) * World.
Variable Start_Sleep : Z -> World -> World.

Local Abbreviation retry c name MaxRetries w :=
  (retry_loop Start_Sleep (cmdlet exchange c) name MaxRetries 1 w).

Ltac run :=
  cbv [bind ret emit modify get update_stats record_entry try_catch
       Write_TimestampedOutput Invoke on_world Invoke_ExchangeOperation
       recorded set_world];
  cbn [world stats processedDepartments app bump fst snd].

Lemma run_create (MaxRetries : Z)
    (deptname groupName displayName recipientFilter : string) (s : Script) :
  create exchange Start_Sleep MaxRetries deptname groupName displayName
    recipientFilter s
  = match retry (New_DynamicDistributionGroup groupName groupName displayName
                   recipientFilter "MailboxUsers, MailUsers")
            "Create DDG" MaxRetries (world s) with
    | (r, w', t) =>
        if Success_of r then
          (inr tt,
           recorded BCreated
             (success_entry deptname "Created" groupName displayName) w' s,
           (EvOutput ("  Creating new DDG: " ++ groupName) :: t ++
            [EvOutput ("  SUCCESS: Created DDG " ++ groupName)])%list)
        else
          (inr tt,
           recorded BProcessingErrors
             (error_entry deptname "CreateError" (Error_of r)) w' s,
           (EvOutput ("  Creating new DDG: " ++ groupName) :: t ++
            [EvOutput ("  ERROR: Failed to create DDG " ++ groupName ++ " : "
                       ++ str (Error_of r))])%list)
    end.
Proof.
  unfold create. run.
  destruct (retry _ _ _ _) as [[r w'] t].
  destruct (Success_of r); run; reflexivity.
Qed.

Lemma run_update_or_skip (MaxRetries : Z)
    (deptname groupName displayName recipientFilter : string)
    (existingRecipient : Recipient) (s : Script) :
  update_or_skip exchange Start_Sleep MaxRetries deptname groupName displayName
    recipientFilter existingRecipient s
  = match retry (Get_DynamicDistributionGroup groupName)
            "Check Existing DDG" 2 (world s) with
    | (r2, w2, t2) =>
        match Result_of r2 with
        | Some _ =>
            match retry (Set_DynamicDistributionGroup groupName displayName
                           recipientFilter)
                    "Update DDG" MaxRetries w2 with
            | (r3, w3, t3) =>
                if Success_of r3 then
                  (inr tt,
                   recorded BUpdated
                     (success_entry deptname "Updated" groupName displayName)
                     w3 s,
                   (EvOutput ("  Found existing recipient: " ++ groupName
                              ++ " (" ++ type_of existingRecipient ++ ")")
                    :: t2 ++
                    EvOutput ("  Updating existing DDG: " ++ groupName)
                    :: t3 ++
                    [EvOutput ("  SUCCESS: Updated DDG " ++ groupName)])%list)
                else
                  (inr tt,
                   recorded BProcessingErrors
                     (error_entry deptname "UpdateError" (Error_of r3)) w3 s,
                   (EvOutput ("  Found existing recipient: " ++ groupName
                              ++ " (" ++ type_of existingRecipient ++ ")")
                    :: t2 ++
                    EvOutput ("  Updating existing DDG: " ++ groupName)
                    :: t3 ++
                    [EvOutput ("  ERROR: Failed to update DDG " ++ groupName
                               ++ " : " ++ str (Error_of r3))])%list)
            end
        | None =>
            (inr tt,
             recorded BSkipped
               (skipped_entry deptname
                  ("Exists as " ++ type_of existingRecipient)) w2 s,
             (EvOutput ("  Found existing recipient: " ++ groupName
                        ++ " (" ++ type_of existingRecipient ++ ")")
              :: t2 ++
              [EvOutput ("  SKIPPING: " ++ groupName ++ " already exists as "
                         ++ type_of existingRecipient)])%list)
        end
    end.
Proof.
  unfold update_or_skip. run.
  destruct (retry _ _ _ _) as [[r2 w2] t2].
  destruct (Result_of r2); run; [|reflexivity].
  destruct (retry _ _ _ _) as [[r3 w3] t3].
  destruct (Success_of r3); run; reflexivity.
Qed.

Lemma run_reconcile (MaxRetries : Z)
    (deptname groupName displayName recipientFilter : string) (s : Script) :
  reconcile exchange Start_Sleep MaxRetries deptname groupName displayName
    recipientFilter s
  = match retry (Get_Recipient groupName)
            "Check Existing Recipient" 2 (world s) with
    | (r1, w1, t1) =>
        match
          match Result_of r1 with
          | Some existingRecipient =>
              update_or_skip exchange Start_Sleep MaxRetries deptname groupName
                displayName recipientFilter existingRecipient (set_world w1 s)
          | None =>
              create exchange Start_Sleep MaxRetries deptname groupName
                displayName recipientFilter (set_world w1 s)
          end
        with
        | (r, s', t) => (r, s', (t1 ++ t)%list)
        end
    end.
Proof.
  unfold reconcile. run.
  destruct (retry _ _ _ _) as [[r1 w1] t1].
  destruct (Result_of r1); reflexivity.
Qed.

Lemma run_process_department (WhatIf : bool) (MaxRetries Count : Z)
    (deptname : string) (s : Script) :
  process_department exchange Start_Sleep WhatIf MaxRetries Count deptname s
  = let v := Test_DepartmentFormat deptname in
    let c := Get_DepartmentComponents deptname in
    if negb (IsValid v) then
      (inr tt,
       recorded BValidationErrors
         (error_entry deptname "ValidationError" (fv_Error v))
         (world s) (counted s),
       [processing_line Count deptname s;
        EvOutput ("  VALIDATION ERROR: " ++ str (fv_Error v))])
    else if negb (Success c) then
      (inr tt,
       recorded BValidationErrors
         (error_entry deptname "ParsingError" (Error c))
         (world s) (counted s),
       [processing_line Count deptname s;
        EvOutput ("  PARSING ERROR: " ++ str (Error c))])
    else if WhatIf then
      (inr tt, counted s,
       [processing_line Count deptname s; parsed_line c; target_line c;
        EvOutput ("  WHAT-IF: Would process group " ++ groupName_of c)])
    else
      match
        try_catch
          (reconcile exchange Start_Sleep MaxRetries deptname (groupName_of c)
             (displayName_of c)
             (New_RecipientFilter (str (Number c)) (str (CountryCode c))))
          (unexpected deptname) (counted s)
      with
      | (r, s', t) =>
          (r, s',
           processing_line Count deptname s :: parsed_line c :: target_line c
           :: t)
      end.
Proof.
  unfold process_department. cbv zeta.
  destruct (IsValid (Test_DepartmentFormat deptname)); cbn [negb];
    [|run; reflexivity].
  destruct (Success (Get_DepartmentComponents deptname)); cbn [negb];
    [|run; reflexivity].
  destruct WhatIf; [run; reflexivity|].
  cbv [bind ret emit modify get update_stats Write_TimestampedOutput].
  cbn [world stats processedDepartments app].
  fold (counted s).
  destruct (try_catch _ _ _) as [[r s'] t]. reflexivity.
Qed.

(** The cmdlets of a run of the executor on [{ cmdlet c }] are calls of
    [c]. *)
Lemma retry_calls (c : Call) (name : string) (MaxRetries : Z) (n : nat) :
  forall (attempt : Z) (w : World),
    MaxRetries + 1 - attempt <= Z.of_nat n ->
    forall e, In e (snd (retry_loop Start_Sleep (cmdlet exchange c) name
                           MaxRetries attempt w)) ->
              is_call e = true -> e = EvCall c.
Proof.
  induction n as [|n IH]; intros attempt w Hn e.
  - rewrite retry_loop_done by lia. intros [].
  - destruct (Z_le_gt_dec attempt MaxRetries) as [Hle|Hgt];
      [|rewrite retry_loop_done by lia; intros []].
    destruct (cmdlet exchange c w) as [[[msg|result] w1] cs] eqn:Hop;
      assert (Hcs : cs = [c])
        by (unfold cmdlet in Hop; destruct (exchange c w);
            now injection Hop as _ _ <-);
      subst cs.
    + destruct (Z.eq_dec attempt MaxRetries) as [E|E].
      * rewrite (retry_loop_last _ _ _ _ _ _ _ _ _ E Hop). cbn.
        intros [<-|[<-|[<-|[]]]]; now try discriminate.
      * rewrite (retry_loop_again _ _ _ _ attempt w w1 msg [c])
          by (lia || assumption).
        specialize (IH (attempt + 1) (Start_Sleep (2 * (attempt + 1)) w1)
                      ltac:(lia) e).
        destruct (retry_loop _ _ _ _ (attempt + 1) _) as [[r w2] t2].
        cbn [snd map app] in *.
        intros [<-|[<-|[<-|[<-|H]]]]; try discriminate; auto.
    + rewrite (retry_loop_success _ _ _ _ _ _ _ _ _ Hle Hop). cbn.
      intros [<-|[<-|[]]]; now try discriminate.
Qed.

Lemma retry_calls_1 (c : Call) (name : string) (MaxRetries : Z) (w : World) :
  forall e, In e (snd (retry c name MaxRetries w)) ->
            is_call e = true -> e = EvCall c.
Proof.
  apply (retry_calls c name MaxRetries (Z.to_nat MaxRetries)). lia.
Qed.

(** With an attempt allowed, the executor issues the cmdlet. *)
Lemma retry_issues_call (c : Call) (name : string) (MaxRetries : Z) (w : World) :
  1 <= MaxRetries -> In (EvCall c) (snd (retry c name MaxRetries w)).
Proof.
  intros HM.
  destruct (cmdlet exchange c w) as [[[msg|result] w1] cs] eqn:Hop;
    assert (Hcs : cs = [c])
      by (unfold cmdlet in Hop; destruct (exchange c w);
          now injection Hop as _ _ <-);
    subst cs.
  - destruct (Z.eq_dec 1 MaxRetries) as [E|E].
    + rewrite (retry_loop_last _ _ _ _ _ _ _ _ _ E Hop). cbn. auto.
    + rewrite (retry_loop_again _ _ _ _ 1 w w1 msg [c]) by (lia || assumption).
      destruct (retry_loop _ _ _ _ (1 + 1) _) as [[r w2] t2]. cbn. auto.
  - rewrite (retry_loop_success _ _ _ _ _ _ _ _ _ HM Hop). cbn. auto.
Qed.

(** A first lookup that throws on both of its attempts is read as "no
    recipient": the department goes on to the create branch, its outcome is
    [Created] or [CreateError], and [New-DynamicDistributionGroup] is
    issued. *)
Lemma failed_lookup_runs_create (MaxRetries Count : Z) (deptname : string)
    (s : Script) :
  let c := Get_DepartmentComponents deptname in
  reaches_gate deptname = true ->
  1 <= MaxRetries ->
  fails_from Start_Sleep (cmdlet exchange (Get_Recipient (groupName_of c)))
    1 (world s) 2 = true ->
  exists b e w' t,
    process_department exchange Start_Sleep false MaxRetries Count deptname s
    = (inr tt, recorded b e w' (counted s), t) /\
    In (Status e) ["Created"; "CreateError"] /\
    In (EvCall (New_DynamicDistributionGroup (groupName_of c) (groupName_of c)
                  (displayName_of c)
                  (New_RecipientFilter (str (Number c)) (str (CountryCode c)))
                  "MailboxUsers, MailUsers")) t.
Proof.
  cbv zeta. intros Hgate HM Hf.
  unfold reaches_gate in Hgate. apply andb_true_iff in Hgate as [Hv Hp].
  set (g := groupName_of (Get_DepartmentComponents deptname)) in *.
  rewrite run_process_department. cbv zeta. rewrite Hv, Hp. cbn [negb].
  unfold try_catch. rewrite run_reconcile. fold g. cbn [world counted].
  assert (Hnone : exists msg w1 t1,
             retry (Get_Recipient g) "Check Existing Recipient" 2 (world s)
             = (Some (failure_of msg), w1, t1)).
  { cbn [fails_from] in Hf.
    destruct (cmdlet exchange (Get_Recipient g) (world s))
      as [[[m1|] w1] cs1] eqn:H1; [|discriminate].
    destruct (cmdlet exchange (Get_Recipient g) (Start_Sleep (2 * (1 + 1)) w1))
      as [[[m2|] w2] cs2] eqn:H2; [|discriminate].
    destruct (retry_loop_exhausts Start_Sleep
                (cmdlet exchange (Get_Recipient g))
                "Check Existing Recipient" 2 1 1 (world s) w2 m2 cs2)
      as (t & Ht & _).
    - reflexivity.
    - cbn [fails_from]. now rewrite H1.
    - cbn [world_from]. rewrite H1. exact H2.
    - now exists m2, w2, t. }
  destruct Hnone as (msg & w1 & t1 & ->). cbn [Result_of failure_of Result].
  rewrite run_create. cbn [world set_world].
  pose proof (retry_issues_call
                (New_DynamicDistributionGroup g g
                   (displayName_of (Get_DepartmentComponents deptname))
                   (New_RecipientFilter
                      (str (Number (Get_DepartmentComponents deptname)))
                      (str (CountryCode (Get_DepartmentComponents deptname))))
                   "MailboxUsers, MailUsers")
                "Create DDG" MaxRetries w1 HM) as Hcall.
  destruct (retry _ "Create DDG" _ _) as [[r2 w2] t2]. cbn [snd] in Hcall.
  destruct (Success_of r2).
  - exists BCreated. do 3 eexists. split; [reflexivity|].
    split; [cbn; auto|].
    do 3 right. apply in_or_app. right. right. apply in_or_app. now left.
  - exists BProcessingErrors. do 3 eexists. split; [reflexivity|].
    split; [cbn; auto|].
    do 3 right. apply in_or_app. right. right. apply in_or_app. now left.
Qed.

(** The [try] block always ends with one outcome, and never throws: every
    cmdlet runs inside the retry executor, which catches. *)
Lemma reconcile_outcome (MaxRetries : Z)
    (deptname groupName displayName recipientFilter : string) (s : Script) :
  exists b e w' t,
    reconcile exchange Start_Sleep MaxRetries deptname groupName displayName
      recipientFilter s
    = (inr tt, recorded b e w' s, t) /\
    Department e = deptname /\ In (Status e) (statuses_of b).
Proof.
  rewrite run_reconcile.
  destruct (retry _ _ _ _) as [[r1 w1] t1].
  destruct (Result_of r1) as [obj|].
  - rewrite run_update_or_skip. cbn [world set_world].
    destruct (retry _ _ _ _) as [[r2 w2] t2].
    destruct (Result_of r2).
    + destruct (retry _ _ _ _) as [[r3 w3] t3].
      destruct (Success_of r3).
      * exists BUpdated. do 3 eexists. split; [reflexivity|]. cbn. auto.
      * exists BProcessingErrors. do 3 eexists. split; [reflexivity|].
        cbn. auto.
    + exists BSkipped. do 3 eexists. split; [reflexivity|]. cbn. auto.
  - rewrite run_create. cbn [world set_world].
    destruct (retry _ _ _ _) as [[r2 w2] t2].
    destruct (Success_of r2).
    + exists BCreated. do 3 eexists. split; [reflexivity|]. cbn. auto.
    + exists BProcessingErrors. do 3 eexists. split; [reflexivity|].
      cbn. auto.
Qed.

(** One department: it is counted; past the dry-run gate nothing else
    changes; otherwise one outcome is recorded. *)
Lemma process_department_outcome (WhatIf : bool) (MaxRetries Count : Z)
    (deptname : string) (s : Script) :
  exists s' t,
    process_department exchange Start_Sleep WhatIf MaxRetries Count deptname s
    = (inr tt, s', t) /\
    if WhatIf && reaches_gate deptname then s' = counted s
    else exists b e w',
        s' = recorded b e w' (counted s) /\
        Department e = deptname /\ In (Status e) (statuses_of b).
Proof.
  rewrite run_process_department. cbv zeta. unfold reaches_gate.
  destruct (IsValid (Test_DepartmentFormat deptname)); cbn [negb andb].
  2:{ rewrite andb_false_r. do 2 eexists. split; [reflexivity|].
      exists BValidationErrors. do 2 eexists. split; [reflexivity|].
      cbn. auto. }
  destruct (Success (Get_DepartmentComponents deptname)); cbn [negb andb].
  2:{ rewrite andb_false_r. do 2 eexists. split; [reflexivity|].
      exists BValidationErrors. do 2 eexists. split; [reflexivity|].
      cbn. auto. }
  destruct WhatIf; cbn [andb].
  - do 2 eexists. split; reflexivity.
  - unfold try_catch.
    destruct (reconcile_outcome MaxRetries deptname
                (groupName_of (Get_DepartmentComponents deptname))
                (displayName_of (Get_DepartmentComponents deptname))
                (New_RecipientFilter
                   (str (Number (Get_DepartmentComponents deptname)))
                   (str (CountryCode (Get_DepartmentComponents deptname))))
                (counted s))
      as (b & e & w' & t & -> & Hd & Hs).
    do 2 eexists. split; [reflexivity|]. now exists b, e, w'.
Qed.

(** A property kept by every department is kept by the loop, which never
    throws. *)
Lemma process_departments_invariant (P : @Script World -> Prop)
    (WhatIf : bool) (MaxRetries Count : Z) :
  (forall deptname s,
      P s ->
      P (snd (fst (process_department exchange Start_Sleep WhatIf MaxRetries
                     Count deptname s)))) ->
  forall depts s,
    P s ->
    exists s' t,
      process_departments exchange Start_Sleep WhatIf MaxRetries Count depts s
      = (inr tt, s', t) /\ P s'.
Proof.
  intros Hstep depts. induction depts as [|d rest IH]; intros s Hs.
  - exists s, []. split; [reflexivity | assumption].
  - cbn [process_departments]. unfold bind.
    specialize (Hstep d s Hs).
    destruct (process_department_outcome WhatIf MaxRetries Count d s)
      as (s1 & t1 & E & _).
    rewrite E in *. cbn [fst snd] in Hstep.
    destruct (IH s1 Hstep) as (s' & t' & -> & Hs').
    do 2 eexists. split; [reflexivity | assumption].
Qed.

End EngineFacts.

(* ===================================================================== *)
(** ** Counters and statuses *)
(* ===================================================================== *)

Lemma count_status_snoc (l : list string) (ps : list Entry) (e : Entry) :
  count_status l (ps ++ [e])
  = count_status l ps + (if has_status l e then 1 else 0).
Proof.
  unfold count_status. rewrite filter_app, length_app. cbn [filter].
  destruct (has_status l e); cbn [List.length]; lia.
Qed.

Lemma has_status_of (b b' : Bucket) (e : Entry) :
  In (Status e) (statuses_of b) ->
  has_status (statuses_of b') e = Bucket_eqb b b'.
Proof.
  unfold has_status. intros H.
  destruct b; cbn in H; intuition;
    match goal with E : _ = Status e |- _ => rewrite <- E end;
    destruct b'; reflexivity.
Qed.

Lemma read_bump (b b' : Bucket) (st : Stats) :
  read b' (bump b st) = read b' st + (if Bucket_eqb b b' then 1 else 0).
Proof. destruct b, b'; cbn; lia. Qed.

Lemma read_incr_TotalProcessed (b : Bucket) (st : Stats) :
  read b (incr_TotalProcessed st) = read b st.
Proof. now destruct b. Qed.

Lemma TotalProcessed_bump (b : Bucket) (st : Stats) :
  TotalProcessed (bump b st) = TotalProcessed st.
Proof. now destruct b. Qed.

Lemma sum_of_buckets_bump (b : Bucket) (st : Stats) :
  sum_of_buckets (bump b st) = sum_of_buckets st + 1.
Proof. destruct b; unfold sum_of_buckets; cbn; lia. Qed.

Lemma sum_of_buckets_incr_TotalProcessed (st : Stats) :
  sum_of_buckets (incr_TotalProcessed st) = sum_of_buckets st.
Proof. reflexivity. Qed.

(* ===================================================================== *)
(** ** Rounding *)
(* ===================================================================== *)

Lemma round_half_even_close (q : Q) :
  (- (1 # 2) <= inject_Z (round_half_even q) - q)%Q /\
  (inject_Z (round_half_even q) - q <= 1 # 2)%Q.
Proof.
  unfold round_half_even.
  pose proof (Qfloor_le q) as Hlo.
  pose proof (Qlt_floor q) as Hhi.
  rewrite inject_Z_plus in Hhi.
  change (inject_Z 1) with 1%Q in Hhi.
  destruct (Qcompare_spec (q - inject_Z (Qfloor q)) (1 # 2)) as [E|E|E].
  - destruct (Z.even (Qfloor q)).
    + split; lra.
    + rewrite inject_Z_plus. change (inject_Z 1) with 1%Q. split; lra.
  - split; lra.
  - rewrite inject_Z_plus. change (inject_Z 1) with 1%Q. split; lra.
Qed.

Lemma Math_Round_2_rounds (q : Q) : rounded_to_2_places (Math_Round_2 q) q.
Proof.
  exists (round_half_even (q * 100)). unfold Math_Round_2.
  split; [reflexivity|].
  destruct (round_half_even_close (q * 100)) as [H1 H2].
  set (k := inject_Z (round_half_even (q * 100))) in *.
  assert (E : (k / 100 - q == (k - q * 100) / 100)%Q) by field.
  rewrite E. split.
  - apply Qle_shift_div_l; [reflexivity|]. lra.
  - apply Qle_shift_div_r; [reflexivity|]. lra.
Qed.

(* ===================================================================== *)
(** ** The reconciliation decisions *)
(* ===================================================================== *)


Lemma no_mutating_calls (t : list Event) :
  (forall e, In e t -> is_mutating_call e = false) ->
  filter is_mutating_call t = [].
Proof.
  induction t as [|e t IH]; intros H; [reflexivity|].
  cbn [filter]. rewrite (H e (or_introl eq_refl)).
  apply IH. intros e' He'. apply H. now right.
Qed.

(** C5. A department that passes the validator and the parser, dry-run
    being off, whose group name is borne by an object (the first lookup
    returns one) that is not a dynamic distribution group (the second
    lookup returns none): the outcome is [Skipped] with the type of the
    occupying recipient as reason, and the only cmdlets issued are the two
    lookups; nothing is created or updated. *)
Theorem C5_occupied_name_is_skipped {World : Type}
    (exchange : Call -> World -> (exn + option Recipient) * World)
    (Start_Sleep : Z -> World -> World)
    (MaxRetries Count : Z) (deptname : string) (s : @Script World)
    (existing : Recipient) (w1 : World)
    (Hgate : reaches_gate deptname = true)
    (Hany : existing_recipient exchange Start_Sleep
              (groupName_of (Get_DepartmentComponents deptname)) (world s)
            = (Some existing, w1))
    (Htyped : fst (existing_DDG exchange Start_Sleep
                     (groupName_of (Get_DepartmentComponents deptname)) w1)
              = None) :
  let groupName := groupName_of (Get_DepartmentComponents deptname) in
  exists t,
    process_department exchange Start_Sleep false MaxRetries Count deptname s
    = (inr tt,
       {| world := snd (existing_DDG exchange Start_Sleep groupName w1);
          stats :=
            {| Created := Created (stats s);
               Updated := Updated (stats s);
               Skipped := Skipped (stats s) + 1;
               ValidationErrors := ValidationErrors (stats s);
               ProcessingErrors := ProcessingErrors (stats s);
               TotalProcessed := TotalProcessed (stats s) + 1 |};
          processedDepartments :=
            (processedDepartments s
             ++ [ {| Department := deptname;
                     Status := "Skipped";
                     e_Error := None;
                     e_GroupName := None;
                     e_DisplayName := None;
                     e_Reason :=
                       Some ("Exists as "
                             ++ RecipientTypeDetails existing)%string
                  |} ])%list |},
       t) /\
    (forall c, In (EvCall c) t ->
               c = Get_Recipient groupName \/
               c = Get_DynamicDistributionGroup groupName) /\
    filter is_mutating_call t = [].
Proof.
  cbv zeta. unfold reaches_gate in Hgate.
  apply andb_true_iff in Hgate as [Hv Hp].
  unfold existing_recipient, existing_DDG, Invoke_ExchangeOperation in *.
  set (g := groupName_of (Get_DepartmentComponents deptname)) in *.
  rewrite run_process_department. cbv zeta. rewrite Hv, Hp. cbn [negb].
  unfold try_catch. rewrite run_reconcile. fold g. cbn [world counted].
  destruct (retry_loop Start_Sleep (cmdlet exchange (Get_Recipient g))
              "Check Existing Recipient" 2 1 (world s))
    as [[r1 w1'] t1] eqn:E1.
  injection Hany as Hr1 <-. rewrite Hr1.
  rewrite run_update_or_skip. cbn [world set_world].
  destruct (retry_loop Start_Sleep
              (cmdlet exchange (Get_DynamicDistributionGroup g))
              "Check Existing DDG" 2 1 w1')
    as [[r2 w2] t2] eqn:E2.
  cbn [fst] in Htyped. rewrite Htyped.
  assert (Hcalls : forall c,
             In (EvCall c)
               (processing_line Count deptname s
                :: parsed_line (Get_DepartmentComponents deptname)
                :: target_line (Get_DepartmentComponents deptname)
                :: t1 ++
                   EvOutput ("  Found existing recipient: " ++ g ++ " ("
                             ++ type_of existing ++ ")")
                   :: t2 ++
                   [EvOutput ("  SKIPPING: " ++ g ++ " already exists as "
                              ++ type_of existing)])%list ->
             c = Get_Recipient g \/ c = Get_DynamicDistributionGroup g).
  { intros c [H|[H|[H|H]]]; try discriminate.
    apply in_app_or in H as [H|[H|H]]; try discriminate.
    - left.
      pose proof (retry_calls_1 exchange Start_Sleep (Get_Recipient g)
                    "Check Existing Recipient" 2 (world s) (EvCall c)) as Hc.
      rewrite E1 in Hc. specialize (Hc H eq_refl). now injection Hc.
    - apply in_app_or in H as [H|[H|[]]]; try discriminate.
      right.
      pose proof (retry_calls_1 exchange Start_Sleep
                    (Get_DynamicDistributionGroup g)
                    "Check Existing DDG" 2 w1' (EvCall c)) as Hc.
      rewrite E2 in Hc. specialize (Hc H eq_refl). now injection Hc. }
  eexists. split; [reflexivity|]. split; [exact Hcalls|].
  apply no_mutating_calls. intros [| c | |] He; try reflexivity.
  destruct (Hcalls c He) as [-> | ->]; reflexivity.
Qed.

Lemma C5_witness :
  exists t,
    process_department Tenant.exchange Tenant.Start_Sleep false 3 1
      "12345 Finance - USA"
      {| world := mailbox_12345USA 1; stats := initial_stats;
         processedDepartments := [] |}
    = (inr tt,
       {| world := mailbox_12345USA 0;
          stats :=
            {| Created := 0; Updated := 0; Skipped := 1;
               ValidationErrors := 0; ProcessingErrors := 0;
               TotalProcessed := 1 |};
          processedDepartments :=
            [ {| Department := "12345 Finance - USA";
                 Status := "Skipped";
                 e_Error := None;
                 e_GroupName := None;
                 e_DisplayName := None;
                 e_Reason := Some "Exists as UserMailbox" |} ] |},
       t) /\
    (forall c, In (EvCall c) t ->
               c = Get_Recipient "12345USA" \/
               c = Get_DynamicDistributionGroup "12345USA") /\
    filter is_mutating_call t = [].
Proof.
  exact (C5_occupied_name_is_skipped Tenant.exchange Tenant.Start_Sleep 3 1
           "12345 Finance - USA"
           {| world := mailbox_12345USA 1; stats := initial_stats;
              processedDepartments := [] |}
           (mkRecipient "UserMailbox") (mailbox_12345USA 0)
           eq_refl eq_refl eq_refl).
Defined.

(** C7 (as amended). In dry-run mode a department that passes the validator
    and the parser is counted in [TotalProcessed] and announced, and that
    is all: no entry is appended to [$processedDepartments], no outcome
    counter moves, no cmdlet (lookup, create or update) is issued and the
    tenant is left as it was. *)
Theorem C7_dry_run_records_nothing {World : Type}
    (exchange : Call -> World -> (exn + option Recipient) * World)
    (Start_Sleep : Z -> World -> World)
    (MaxRetries Count : Z) (deptname : string) (s : @Script World)
    (Hgate : reaches_gate deptname = true) :
  exists s' t,
    process_department exchange Start_Sleep true MaxRetries Count deptname s
    = (inr tt, s', t) /\
    processedDepartments s' = processedDepartments s /\
    stats s' = incr_TotalProcessed (stats s) /\
    (forall b, read b (stats s') = read b (stats s)) /\
    world s' = world s /\
    calls t = [] /\
    In (EvOutput ("  WHAT-IF: Would process group "
                  ++ groupName_of (Get_DepartmentComponents deptname))) t.
Proof.
  unfold reaches_gate in Hgate. apply andb_true_iff in Hgate as [Hv Hp].
  rewrite run_process_department. cbv zeta. rewrite Hv, Hp. cbn [negb].
  do 2 eexists. split; [reflexivity|].
  split; [reflexivity|]. split; [reflexivity|].
  split; [intros b; apply read_incr_TotalProcessed|].
  split; [reflexivity|]. split; [reflexivity|].
  cbn. auto.
Qed.

Lemma C7_witness :
  exists s' t,
    process_department Tenant.exchange Tenant.Start_Sleep true 3 1
      "12345 Finance - USA"
      {| world := Tenant.empty; stats := initial_stats;
         processedDepartments := [] |}
    = (inr tt, s', t) /\
    processedDepartments s' = [] /\
    stats s' = incr_TotalProcessed initial_stats /\
    (forall b, read b (stats s') = read b initial_stats) /\
    world s' = Tenant.empty /\
    calls t = [] /\
    In (EvOutput "  WHAT-IF: Would process group 12345USA") t.
Proof.
  exact (C7_dry_run_records_nothing Tenant.exchange Tenant.Start_Sleep 3 1
           "12345 Finance - USA"
           {| world := Tenant.empty; stats := initial_stats;
              processedDepartments := [] |}
           eq_refl).
Defined.

(** C7, as stated, fails: in dry-run mode the department
    ["12345 Finance - USA"] passes the validator and the parser, and no
    outcome is recorded for it: no counter of outcomes moves and no entry
    bears its name. *)
Lemma C7_counterexample :
  reaches_gate "12345 Finance - USA" = true /\
  sum_of_buckets (stats (one_department "12345 Finance - USA" Tenant.empty))
  = 0 /\
  ~ (exists e,
        In e (processedDepartments
                (one_department "12345 Finance - USA" Tenant.empty)) /\
        Department e = "12345 Finance - USA").
Proof.
  split; [reflexivity|]. split; [reflexivity|].
  intros (e & H & _). vm_compute in H. exact H.
Qed.

(** C8 (as amended). Every department increments [TotalProcessed] by one.
    Unless dry-run mode is on and the department passes the validator and
    the parser, in which case no outcome counter moves, exactly one of
    [Created], [Updated], [Skipped], [ValidationErrors], [ProcessingErrors]
    increments by one. With dry-run mode off the five counters therefore
    add up to [TotalProcessed], the number of departments, after the
    loop. *)
Theorem C8_one_bucket_per_department {World : Type}
    (exchange : Call -> World -> (exn + option Recipient) * World)
    (Start_Sleep : Z -> World -> World)
    (WhatIf : bool) (MaxRetries Count : Z) (deptname : string)
    (s : @Script World) (depts : list string) (w : World) :
  (let s' := snd (fst (process_department exchange Start_Sleep WhatIf
                         MaxRetries Count deptname s)) in
   TotalProcessed (stats s') = TotalProcessed (stats s) + 1 /\
   if WhatIf && reaches_gate deptname
   then forall b, read b (stats s') = read b (stats s)
   else exists b, forall b',
       read b' (stats s')
       = read b' (stats s) + (if Bucket_eqb b b' then 1 else 0)) /\
  (let s' := snd (fst (run_loop exchange Start_Sleep false MaxRetries
                         depts w)) in
   sum_of_buckets (stats s') = TotalProcessed (stats s') /\
   TotalProcessed (stats s') = Z.of_nat (List.length depts)).
Proof.
  split.
  - cbv zeta.
    destruct (process_department_outcome exchange Start_Sleep WhatIf
                MaxRetries Count deptname s) as (s' & t & -> & H).
    cbn [fst snd].
    destruct (WhatIf && reaches_gate deptname).
    + subst s'. split; [reflexivity|]. intros b.
      apply read_incr_TotalProcessed.
    + destruct H as (b & e & w' & -> & _ & _). cbn [recorded stats counted].
      split; [now rewrite TotalProcessed_bump|].
      exists b. intros b'.
      now rewrite read_bump, read_incr_TotalProcessed.
  - cbv zeta. unfold run_loop.
    set (s0 := {| world := w; stats := initial_stats;
                  processedDepartments := [] |}).
    assert (G : forall ds (s1 : @Script World),
               sum_of_buckets (stats s1) = TotalProcessed (stats s1) ->
               let s' := snd (fst (process_departments exchange Start_Sleep
                                     false MaxRetries
                                     (Z.of_nat (List.length depts)) ds s1)) in
               sum_of_buckets (stats s') = TotalProcessed (stats s') /\
               TotalProcessed (stats s')
               = TotalProcessed (stats s1) + Z.of_nat (List.length ds)).
    { induction ds as [|d ds IH]; intros s1 H1; cbv zeta.
      - cbn. split; [assumption | lia].
      - cbn [process_departments]. unfold bind.
        destruct (process_department_outcome exchange Start_Sleep false
                    MaxRetries (Z.of_nat (List.length depts)) d s1)
          as (s2 & t2 & -> & (b & e & w' & -> & _ & _)).
        match goal with
        | |- context [process_departments _ _ _ _ _ ds ?x] =>
            specialize (IH x); destruct (process_departments _ _ _ _ _ ds x)
              as [[r3 s3] t3]
        end.
        cbn [fst snd recorded stats counted] in *.
        rewrite sum_of_buckets_bump, TotalProcessed_bump in IH.
        cbn [incr_TotalProcessed TotalProcessed] in IH.
        rewrite sum_of_buckets_incr_TotalProcessed in IH.
        destruct (IH ltac:(lia)) as [IH1 IH2].
        split; [assumption|]. cbn [List.length]. lia. }
    destruct (G depts s0 eq_refl) as [G1 G2]. split; [assumption|].
    rewrite G2. reflexivity.
Qed.

(** C8, as stated, fails: after the valid department
    ["12345 Finance - USA"] is processed in dry-run mode,
    [TotalProcessed] is 1 and the five outcome counters add up to 0. *)
Lemma C8_counterexample :
  let st := stats (one_department "12345 Finance - USA" Tenant.empty) in
  TotalProcessed st = 1 /\ sum_of_buckets st = 0 /\
  sum_of_buckets st <> TotalProcessed st.
Proof. cbv zeta. repeat split. vm_compute. discriminate. Qed.

(* ===================================================================== *)
(** ** The counters against the recorded outcomes, and the report *)
(* ===================================================================== *)

(** Each counter is the number of recorded entries with its statuses. *)
Lemma counters_match_entries {World : Type}
    (exchange : Call -> World -> (exn + option Recipient) * World)
    (Start_Sleep : Z -> World -> World)
    (WhatIf : bool) (MaxRetries : Z) (depts : list string) (w : World) :
  let s := snd (fst (run_loop exchange Start_Sleep WhatIf MaxRetries depts w)) in
  forall b,
    read b (stats s) = count_status (statuses_of b) (processedDepartments s).
Proof.
  cbv zeta. unfold run_loop.
  destruct (process_departments_invariant exchange Start_Sleep
              (fun s => forall b,
                   read b (stats s)
                   = count_status (statuses_of b) (processedDepartments s))
              WhatIf MaxRetries (Z.of_nat (List.length depts)))
    with (depts := depts)
         (s := {| world := w; stats := initial_stats;
                  processedDepartments := [] |})
    as (s' & t & -> & H).
  - intros d s Hs.
    destruct (process_department_outcome exchange Start_Sleep WhatIf
                MaxRetries (Z.of_nat (List.length depts)) d s)
      as (s1 & t1 & -> & H1).
    cbn [fst snd].
    destruct (WhatIf && reaches_gate d).
    + subst s1. intros b. cbn [counted stats processedDepartments].
      rewrite read_incr_TotalProcessed. apply Hs.
    + destruct H1 as (b & e & w' & -> & _ & Hst). intros b'.
      cbn [recorded counted stats processedDepartments].
      rewrite read_bump, read_incr_TotalProcessed, count_status_snoc.
      rewrite (has_status_of b b' e Hst), Hs. reflexivity.
  - intros b. now destruct b.
  - exact H.
Qed.

(** The same department twice on an empty tenant: created, then updated. *)
Example created_then_updated :
  map Status
    (processedDepartments
       (snd (fst (run_loop Tenant.exchange Tenant.Start_Sleep false 3
                    ["12345 Finance - USA"; "12345 Finance - USA"]
                    Tenant.empty))))
  = ["Created"; "Updated"].
Proof. reflexivity. Qed.

(** C2 (as amended). In the report [totalErrors] is
    [ValidationErrors + ProcessingErrors]. [ValidationErrors] counts the
    departments recorded as [ValidationError] or [ParsingError] (a
    department whose parse fails increments [ValidationErrors]);
    [ProcessingErrors] counts those recorded as [CreateError], [UpdateError]
    or [UnexpectedError]. With [TotalProcessed > 0] the two rates are the
    exact percentages rounded to two decimal places; with
    [TotalProcessed = 0] both are 0. The quotient of the rates is taken
    over the rationals. *)
Theorem C2_error_totals {World : Type}
    (exchange : Call -> World -> (exn + option Recipient) * World)
    (Start_Sleep : Z -> World -> World)
    (WhatIf : bool) (MaxRetries : Z) (depts : list string) (w : World) :
  let s := snd (fst (run_loop exchange Start_Sleep WhatIf MaxRetries depts w)) in
  let st := stats s in
  let rep := Report st in
  totalErrors rep = ValidationErrors st + ProcessingErrors st /\
  ValidationErrors st
  = count_status ["ValidationError"; "ParsingError"] (processedDepartments s) /\
  ProcessingErrors st
  = count_status ["CreateError"; "UpdateError"; "UnexpectedError"]
      (processedDepartments s) /\
  (TotalProcessed st > 0 ->
   rounded_to_2_places (successRate rep)
     (inject_Z (Created st + Updated st) / inject_Z (TotalProcessed st) * 100) /\
   rounded_to_2_places (errorRate rep)
     (inject_Z (totalErrors rep) / inject_Z (TotalProcessed st) * 100)) /\
  (TotalProcessed st = 0 -> successRate rep = 0%Q /\ errorRate rep = 0%Q).
Proof.
  cbv zeta.
  pose proof (counters_match_entries exchange Start_Sleep WhatIf MaxRetries
                depts w) as H. cbv zeta in H.
  set (s := snd (fst (run_loop exchange Start_Sleep WhatIf MaxRetries depts w)))
    in *.
  split; [reflexivity|].
  split; [exact (H BValidationErrors)|].
  split; [exact (H BProcessingErrors)|].
  unfold Report. cbn [successRate errorRate totalErrors]. split.
  - intros Hpos. apply Z.gtb_gt in Hpos. rewrite Hpos.
    split; apply Math_Round_2_rounds.
  - intros ->. split; reflexivity.
Qed.

Lemma C2_witness :
  (let st := stats (snd (fst (run_loop Tenant.exchange Tenant.Start_Sleep false 3
                                ["12345 Finance - USA"; "bad"; "12346 Sales - USA"]
                                Tenant.empty))) in
   rounded_to_2_places (successRate (Report st))
     (inject_Z (Created st + Updated st) / inject_Z (TotalProcessed st) * 100) /\
   rounded_to_2_places (errorRate (Report st))
     (inject_Z (totalErrors (Report st)) / inject_Z (TotalProcessed st) * 100)) /\
  (let st := stats (snd (fst (run_loop Tenant.exchange Tenant.Start_Sleep false 3
                                [] Tenant.empty))) in
   successRate (Report st) = 0%Q /\ errorRate (Report st) = 0%Q).
Proof.
  split.
  - exact (proj1 (proj2 (proj2 (proj2
             (C2_error_totals Tenant.exchange Tenant.Start_Sleep false 3
                ["12345 Finance - USA"; "bad"; "12346 Sales - USA"]
                Tenant.empty)))) eq_refl).
  - exact (proj2 (proj2 (proj2 (proj2
             (C2_error_totals Tenant.exchange Tenant.Start_Sleep false 3
                [] Tenant.empty)))) eq_refl).
Defined.

(** C2, as stated, fails: ["12345 X - ABC"] passes the validator and is
    rejected by the parser; the loop records it as [ParsingError] and
    increments [ValidationErrors], while [ProcessingErrors] stays 0. *)
Lemma C2_counterexample :
  let s := snd (fst (run_loop Tenant.exchange Tenant.Start_Sleep false 3
                       ["12345 X - ABC"] Tenant.empty)) in
  IsValid (Test_DepartmentFormat "12345 X - ABC") = true /\
  Success (Get_DepartmentComponents "12345 X - ABC") = false /\
  map Status (processedDepartments s) = ["ParsingError"] /\
  ValidationErrors (stats s) = 1 /\
  ProcessingErrors (stats s) = 0 /\
  ProcessingErrors (stats s) <> 1.
Proof. cbv zeta. repeat split. vm_compute. discriminate. Qed.

(** The aggregate scenario: four created, two updated, two validation
    failures and two failed creations out of ten. *)
Example report_of_ten :
  let rep := Report {| Created := 4; Updated := 2; Skipped := 0;
                       ValidationErrors := 2; ProcessingErrors := 2;
                       TotalProcessed := 10 |} in
  successCount rep = 6 /\ totalErrors rep = 4 /\
  (successRate rep == 60)%Q /\ (errorRate rep == 40)%Q /\ exitCode rep = 1.
Proof. cbv zeta. repeat split. Qed.

(* ===================================================================== *)
(** ** A lookup that fails *)
(* ===================================================================== *)

(** C3. The name ["12345USA"] is held by a mailbox and the service fails
    for the two attempts of the first lookup. The loop does not record a
    lookup error: it takes the missing [Result] for an absent recipient,
    issues [New-DynamicDistributionGroup] (three attempts) and records
    [CreateError]. *)
Theorem C3_failed_lookup_goes_on_to_create :
  let run := run_loop Tenant.exchange Tenant.Start_Sleep false 3
               ["12345 Finance - USA"] (mailbox_12345USA 2) in
  let s := snd (fst run) in
  let t := snd run in
  fails_from Tenant.Start_Sleep lookup_12345USA 1 (mailbox_12345USA 2) 2 = true /\
  map Status (processedDepartments s) = ["CreateError"] /\
  ProcessingErrors (stats s) = 1 /\
  Skipped (stats s) = 0 /\
  filter is_mutating_call t
  = repeat (EvCall (New_DynamicDistributionGroup "12345USA" "12345USA"
                      "Financ - USA" (New_RecipientFilter "12345" "USA")
                      "MailboxUsers, MailUsers")) 3.
Proof. cbv zeta. repeat split. Qed.

(* ===================================================================== *)
(** ** More on the validator and the parser *)
(* ===================================================================== *)

Lemma length_substring (s : string) :
  forall n m, (n + m <= String.length s)%nat ->
              String.length (String.substring n m s) = m.
Proof.
  induction s as [|c s IH]; intros n m H; simpl in H.
  - assert (n = 0%nat) by lia. assert (m = 0%nat) by lia. subst. reflexivity.
  - destruct n as [|n].
    + destruct m as [|m]; [reflexivity|]. simpl. rewrite IH; [reflexivity|lia].
    + simpl. apply IH. lia.
Qed.

Lemma Substring_inr (s t : string) (a l : Z) :
  Substring s a l = inr t ->
  0 <= a /\ 0 <= l /\ a + l <= Length s /\
  t = String.substring (Z.to_nat a) (Z.to_nat l) s /\
  String.length t = Z.to_nat l.
Proof.
  unfold Substring.
  destruct ((a <? 0) || (l <? 0) || (Length s <? a + l)) eqn:E; [discriminate|].
  rewrite !orb_false_iff in E. destruct E as [[E1 E2] E3].
  apply Z.ltb_ge in E1, E2, E3. intros [= <-].
  repeat split; try lia.
  apply length_substring. unfold Length in E3. lia.
Qed.

Lemma Substring_inl (s : string) (a l : Z) (e : exn) :
  Substring s a l = inl e ->
  e = Substring_out_of_range /\ (a < 0 \/ l < 0 \/ Length s < a + l).
Proof.
  unfold Substring.
  destruct ((a <? 0) || (l <? 0) || (Length s <? a + l)) eqn:E; [|discriminate].
  intros [= <-]. split; [reflexivity|].
  rewrite !orb_true_iff in E. destruct E as [[E|E]|E]; apply Z.ltb_lt in E; auto.
Qed.

(** [^p{n}$] on a string of [n] characters: all of them are in [p]. *)
Lemma match_anchored_Rep_exact (p : ascii -> bool) (n : nat) (s : string) :
  String.length s = n ->
  match_anchored (Rep n (Class p)) s = all_in p s.
Proof.
  intros Hl. destruct (all_in p s) eqn:Ha.
  - apply match_anchored_iff. left. now apply lang_Rep_class.
  - destruct (match_anchored (Rep n (Class p)) s) eqn:Hm; [|reflexivity].
    apply match_anchored_iff in Hm as [Hm | (s' & -> & Hm)];
      apply lang_Rep_class in Hm as [Hm1 Hm2].
    + congruence.
    + rewrite String_length_append in Hl. simpl in Hl. lia.
Qed.

Lemma TrimStart_first (s : string) :
  is_space_at (first_char (TrimStart s)) = false.
Proof.
  induction s as [|c s IH]; simpl; [reflexivity|].
  destruct (is_space c) eqn:E; [assumption | simpl; assumption].
Qed.

Lemma TrimEnd_first (s : string) :
  is_space_at (first_char s) = false ->
  is_space_at (first_char (TrimEnd s)) = false.
Proof.
  destruct s as [|c s]; simpl; [reflexivity|]. intros E.
  destruct (TrimEnd s); [rewrite E|]; simpl; assumption.
Qed.

Lemma TrimEnd_last (s : string) :
  is_space_at (last_char (TrimEnd s)) = false.
Proof.
  induction s as [|c s IH]; simpl; [reflexivity|].
  destruct (TrimEnd s) as [|c' t] eqn:E.
  - destruct (is_space c) eqn:Ec; simpl; [reflexivity | assumption].
  - exact IH.
Qed.

Lemma TrimStart_Length (s : string) : Length (TrimStart s) <= Length s.
Proof.
  induction s as [|c s IH]; simpl; [lia|].
  destruct (is_space c); rewrite ?Length_cons; lia.
Qed.

Lemma TrimEnd_Length (s : string) : Length (TrimEnd s) <= Length s.
Proof.
  induction s as [|c s IH]; simpl; [lia|].
  destruct (TrimEnd s) as [|c' t].
  - destruct (is_space c); rewrite ?Length_cons;
      change (Length "") with 0 in *; pose proof (Length_nonneg s); lia.
  - rewrite !Length_cons in *. lia.
Qed.

Lemma Trim_Length (s : string) : Length (Trim s) <= Length s.
Proof.
  unfold Trim. pose proof (TrimEnd_Length (TrimStart s)).
  pose proof (TrimStart_Length s). lia.
Qed.

(** What a successful parse went through. *)
Lemma parse_body_inr (s : string) (p : Parsed) :
  parse_body s = inr p ->
  14 <= Length s /\
  deptNum p = String.substring 0 5 s /\
  all_in is_digit (deptNum p) = true /\
  countryCode p = String.substring (Z.to_nat (Length s - 3)) 3 s /\
  all_in is_AZ_ignorecase (countryCode p) = true /\
  deptName p = Trim (String.substring 6 (Z.to_nat (Length s - 13)) s) /\
  all_space (deptName p) = false.
Proof.
  unfold parse_body.
  destruct (Substring s 0 5) as [e|d] eqn:E1; simpl; [discriminate|].
  destruct (match_anchored number_pattern d) eqn:M1; simpl; [|discriminate].
  destruct (Substring s (Length s - 3) 3) as [e|c] eqn:E2; simpl; [discriminate|].
  destruct (match_anchored country_pattern c) eqn:M2; simpl; [|discriminate].
  destruct (Length s - 7 - 6 <=? 0) eqn:En; simpl; [discriminate|].
  destruct (Substring s 6 (Length s - 7 - 6)) as [e|raw] eqn:E3; simpl;
    [discriminate|].
  unfold IsNullOrWhiteSpace.
  destruct (all_space (Trim raw)) eqn:Eb; simpl; [discriminate|].
  intros [= <-]. simpl. apply Z.leb_gt in En.
  apply Substring_inr in E1 as (_ & _ & _ & -> & L1).
  apply Substring_inr in E2 as (_ & _ & _ & -> & L2).
  apply Substring_inr in E3 as (_ & _ & _ & -> & _).
  unfold number_pattern in M1. unfold country_pattern in M2.
  rewrite match_anchored_Rep_exact in M1 by exact L1.
  rewrite match_anchored_Rep_exact in M2 by exact L2.
  replace (Length s - 7 - 6) with (Length s - 13) in Eb |- * by lia.
  repeat split; try assumption; lia.
Qed.

Lemma all_space_TrimStart (s : string) : all_space (TrimStart s) = all_space s.
Proof.
  induction s as [|c s IH]; simpl; [reflexivity|].
  destruct (is_space c) eqn:E; simpl; [assumption | now rewrite E].
Qed.

Lemma all_space_TrimEnd (s : string) : all_space (TrimEnd s) = all_space s.
Proof.
  induction s as [|c s IH]; simpl; [reflexivity|].
  destruct (TrimEnd s) as [|c' t] eqn:E.
  - simpl in IH. rewrite <- IH, andb_true_r.
    destruct (is_space c) eqn:Ec; simpl; [reflexivity | now rewrite Ec].
  - change (all_space (String c (String c' t)))
      with (is_space c && all_space (String c' t)). now rewrite IH.
Qed.

Lemma all_space_Trim (s : string) : all_space (Trim s) = all_space s.
Proof. unfold Trim. now rewrite all_space_TrimEnd, all_space_TrimStart. Qed.

Lemma last_char_append (a b : string) :
  b <> "" -> last_char (a ++ b) = last_char b.
Proof.
  intros Hb. induction a as [|c a IH]; simpl; [reflexivity|].
  destruct (a ++ b) eqn:E; [|assumption].
  apply append_eq_empty in E as [_ ->]. contradiction.
Qed.

Lemma letter_is_no_line_feed (c : ascii) :
  is_AZ_ignorecase c = true -> is_newline c = false.
Proof.
  unfold is_AZ_ignorecase, in_range, is_newline. intros H.
  apply Z.eqb_neq. apply orb_true_iff in H as [H|H];
    apply andb_true_iff in H as [H1 H2];
    apply Z.leb_le in H1, H2; lia.
Qed.

(** Five digits, a middle part, three letters and a final line feed: the
    last three characters are two letters and the line feed, and the
    country check throws. *)
Lemma parse_body_line_feed (d mid c : string) :
  String.length d = 5%nat -> all_in is_digit d = true ->
  String.length c = 3%nat -> all_in is_AZ_ignorecase c = true ->
  parse_body (d ++ mid ++ c ++ String "010" "") = inl invalid_country.
Proof.
  intros Hd Hda Hc Hca.
  destruct c as [|c1 [|c2 [|c3 [|]]]]; try discriminate.
  set (s := d ++ mid ++ String c1 (String c2 (String c3 "")) ++ String "010" "").
  assert (Ls : Length s = 9 + Length mid).
  { unfold s. rewrite !Length_append, (Length_String_length _ _ Hd).
    rewrite !Length_cons. change (Length "") with 0. lia. }
  pose proof (Length_nonneg mid) as Hm.
  unfold parse_body.
  assert (E1 : Substring s 0 5 = inr d).
  { unfold Substring.
    replace ((0 <? 0) || (5 <? 0) || (Length s <? 0 + 5)) with false
      by (symmetry; rewrite !orb_false_iff; repeat split;
          apply Z.ltb_ge; lia).
    f_equal. change (Z.to_nat 5) with 5%nat. rewrite <- Hd.
    apply substring_prefix. }
  rewrite E1. simpl bind_exn.
  unfold number_pattern. rewrite match_anchored_Rep_exact by exact Hd.
  rewrite Hda. simpl throw_if.
  assert (E2 : Substring s (Length s - 3) 3
               = inr (String c2 (String c3 (String "010" "")))).
  { unfold Substring.
    replace ((Length s - 3 <? 0) || (3 <? 0) || (Length s <? Length s - 3 + 3))
      with false
      by (symmetry; rewrite !orb_false_iff; repeat split;
          apply Z.ltb_ge; lia).
    f_equal. change (Z.to_nat 3) with 3%nat.
    replace s with ((d ++ mid ++ String c1 "")
                    ++ String c2 (String c3 (String "010" "")))
      by (unfold s; now rewrite !append_assoc).
    replace (Z.to_nat (Length _ - 3))
      with (String.length (d ++ mid ++ String c1 "")).
    - now rewrite substring_skip.
    - rewrite !Length_append, (Length_String_length _ _ Hd), !Length_cons.
      change (Length "") with 0.
      rewrite !String_length_append, Hd. unfold Length. simpl String.length.
      lia. }
  rewrite E2. simpl bind_exn.
  unfold country_pattern. rewrite match_anchored_Rep_exact by reflexivity.
  simpl all_in. change (is_AZ_ignorecase "010") with false.
  rewrite !andb_false_r. reflexivity.
Qed.

(** X1. A string accepted by [Test-DepartmentFormat] never fails the
    number check of the parser and never takes a substring out of range.
    When it ends with a line feed ([$] accepts one) the parser rejects it
    with the country-code message; otherwise the parse succeeds or fails
    with one of the two empty-name messages. *)
Theorem validated_parse_outcomes (s : string)
    (Hvalid : IsValid (Test_DepartmentFormat s) = true) :
  if ends_with_line_feed s
  then Get_DepartmentComponents s = parse_failure invalid_country
  else Success (Get_DepartmentComponents s) = true \/
       Get_DepartmentComponents s = parse_failure empty_name_detected \/
       Get_DepartmentComponents s = parse_failure empty_after_parsing.
Proof.
  apply Test_DepartmentFormat_valid in Hvalid as [Hlen Hm].
  apply match_anchored_iff in Hm as [Hm | (s' & -> & Hm)];
    apply department_pattern_shape in Hm
      as (d & mid & c & -> & Hd & Hda & Hmid & Hc & Hca).
  - assert (Hnl : ends_with_line_feed (d ++ mid ++ c) = false).
    { unfold ends_with_line_feed.
      rewrite <- append_assoc, last_char_append
        by (destruct c; [discriminate | congruence]).
      destruct c as [|c1 [|c2 [|c3 [|]]]]; try discriminate.
      simpl in Hca |- *. rewrite andb_true_r in Hca.
      apply andb_true_iff in Hca as [_ Hca].
      apply andb_true_iff in Hca as [_ Hca].
      now apply letter_is_no_line_feed. }
    rewrite Hnl. unfold Get_DepartmentComponents.
    rewrite parse_body_shape by assumption.
    set (s := d ++ mid ++ c) in *.
    destruct (Length s - 7 - 6 <=? 0) eqn:En; simpl throw_if.
    { right. left. reflexivity. }
    apply Z.leb_gt in En.
    destruct (Substring s 6 (Length s - 7 - 6)) as [e|raw] eqn:E3.
    { apply Substring_inl in E3 as [_ E3]. lia. }
    simpl bind_exn.
    destruct (IsNullOrWhiteSpace (Trim raw)); simpl throw_if.
    + right. right. reflexivity.
    + left. reflexivity.
  - assert (Hnl : ends_with_line_feed ((d ++ mid ++ c) ++ String "010" "")
                  = true).
    { unfold ends_with_line_feed. rewrite last_char_append by discriminate.
      reflexivity. }
    rewrite Hnl. unfold Get_DepartmentComponents.
    replace ((d ++ mid ++ c) ++ String "010" "")
      with (d ++ mid ++ c ++ String "010" "")
      by (now rewrite !append_assoc).
    now rewrite parse_body_line_feed.
Qed.

Lemma validated_parse_outcomes_witness :
  (Success (Get_DepartmentComponents "12345  X - ABC") = true \/
   Get_DepartmentComponents "12345  X - ABC"
     = parse_failure empty_name_detected \/
   Get_DepartmentComponents "12345  X - ABC"
     = parse_failure empty_after_parsing) /\
  Get_DepartmentComponents ("12345 Finance - USA" ++ String "010" "")
  = parse_failure invalid_country.
Proof.
  split.
  - exact (validated_parse_outcomes "12345  X - ABC" eq_refl).
  - exact (validated_parse_outcomes ("12345 Finance - USA" ++ String "010" "")
             eq_refl).
Defined.

Lemma parsed_components_facts (s : string)
    (Hparsed : Success (Get_DepartmentComponents s) = true) :
  exists num name cc,
    Get_DepartmentComponents s
    = {| Success := true; Number := Some num; Name := Some name;
         CountryCode := Some cc; Error := None |} /\
    num = String.substring 0 5 s /\
    String.length num = 5%nat /\ all_in is_digit num = true /\
    cc = String.substring (Z.to_nat (Length s - 3)) 3 s /\
    String.length cc = 3%nat /\ all_in is_AZ_ignorecase cc = true /\
    name <> "" /\
    is_space_at (first_char name) = false /\
    is_space_at (last_char name) = false /\
    Length name <= Length s - 13 /\
    Length (groupName_of (Get_DepartmentComponents s)) = 8.
Proof.
  unfold Get_DepartmentComponents in *.
  destruct (parse_body s) as [e|p] eqn:E; [discriminate|].
  apply parse_body_inr in E as (L & En & Hn & Ec & Hc & Em & Hb).
  assert (Ln : String.length (deptNum p) = 5%nat)
    by (rewrite En; apply length_substring; unfold Length in L; lia).
  assert (Lc : String.length (countryCode p) = 3%nat)
    by (rewrite Ec; apply length_substring; unfold Length in L |- *; lia).
  exists (deptNum p), (deptName p), (countryCode p).
  split; [reflexivity|]. repeat split; try assumption.
  - intros E0. rewrite E0 in Hb. discriminate.
  - rewrite Em. unfold Trim. apply TrimEnd_first, TrimStart_first.
  - rewrite Em. unfold Trim. apply TrimEnd_last.
  - rewrite Em.
    pose proof (Trim_Length
                  (String.substring 6 (Z.to_nat (Length s - 13)) s)) as Ht.
    assert (Lr : Length (String.substring 6 (Z.to_nat (Length s - 13)) s)
                 = Length s - 13).
    { unfold Length at 1. rewrite length_substring;
        unfold Length in L |- *; lia. }
    lia.
  - unfold groupName_of. cbn [Number CountryCode str].
    rewrite Length_append, (Length_String_length _ _ Ln),
      (Length_String_length _ _ Lc). reflexivity.
Qed.

(** X2. Whenever the parser succeeds, on any input: [Number] is the first
    five characters, all digits; [CountryCode] is the last three, all
    letters; [Name] is not empty, neither starts nor ends with white space
    and is at most [Length - 13] long; the group name has eight
    characters. *)
Theorem parsed_components_are_well_formed (s : string)
    (Hparsed : Success (Get_DepartmentComponents s) = true) :
  exists num name cc,
    Get_DepartmentComponents s
    = {| Success := true; Number := Some num; Name := Some name;
         CountryCode := Some cc; Error := None |} /\
    num = String.substring 0 5 s /\
    String.length num = 5%nat /\ all_in is_digit num = true /\
    cc = String.substring (Z.to_nat (Length s - 3)) 3 s /\
    String.length cc = 3%nat /\ all_in is_AZ_ignorecase cc = true /\
    name <> "" /\
    is_space_at (first_char name) = false /\
    is_space_at (last_char name) = false /\
    Length name <= Length s - 13 /\
    Length (groupName_of (Get_DepartmentComponents s)) = 8.
Proof. exact (parsed_components_facts s Hparsed). Qed.

Lemma parsed_components_are_well_formed_witness :
  exists num name cc,
    Get_DepartmentComponents "12345   Human  Resources  - usa"
    = {| Success := true; Number := Some num; Name := Some name;
         CountryCode := Some cc; Error := None |} /\
    num = "12345" /\
    String.length num = 5%nat /\ all_in is_digit num = true /\
    cc = "usa" /\
    String.length cc = 3%nat /\ all_in is_AZ_ignorecase cc = true /\
    name <> "" /\
    is_space_at (first_char name) = false /\
    is_space_at (last_char name) = false /\
    Length name <= 31 - 13 /\
    Length (groupName_of
              (Get_DepartmentComponents "12345   Human  Resources  - usa"))
    = 8.
Proof.
  exact (parsed_components_are_well_formed "12345   Human  Resources  - usa"
           eq_refl).
Defined.

(** X3. On the canonical form [NNNNN text - CCC] (single spaces), with a
    [text] of at least two characters that is not blank apart from its
    last character, the parse succeeds with the number, the country code,
    and as name the trimmed [text] without its last character. *)
Theorem canonical_name_loses_last_character (d text c : string)
    (Hd : String.length d = 5%nat) (Hdigits : all_in is_digit d = true)
    (Hc : String.length c = 3%nat)
    (Hletters : all_in is_AZ_ignorecase c = true)
    (Htext : 2 <= Length text)
    (Hblank : all_space (String.substring 0 (String.length text - 1) text)
              = false) :
  Get_DepartmentComponents (d ++ " " ++ text ++ " - " ++ c)
  = {| Success := true; Number := Some d;
       Name := Some (Trim (String.substring 0 (String.length text - 1) text));
       CountryCode := Some c; Error := None |}.
Proof.
  unfold Get_DepartmentComponents.
  rewrite parse_body_canonical by assumption.
  replace (Length text - 1 <=? 0) with false
    by (symmetry; apply Z.leb_gt; lia).
  cbv zeta. cbn [throw_if]. unfold IsNullOrWhiteSpace.
  rewrite all_space_Trim, Hblank. reflexivity.
Qed.

Lemma canonical_name_loses_last_character_witness :
  Get_DepartmentComponents ("12345" ++ " " ++ "Finance" ++ " - " ++ "USA")
  = {| Success := true; Number := Some "12345"; Name := Some "Financ";
       CountryCode := Some "USA"; Error := None |}.
Proof.
  exact (canonical_name_loses_last_character "12345" "Finance" "USA"
           eq_refl eq_refl eq_refl eq_refl ltac:(discriminate) eq_refl).
Defined.

(** X4. The parser takes a substring out of range exactly on inputs
    shorter than five characters, and reports it as a failure like its own
    checks: from five characters on, a failed parse carries one of its
    four messages. *)
Theorem parse_failures_by_length (s : string) :
  (Length s < 5 ->
   Get_DepartmentComponents s = parse_failure Substring_out_of_range) /\
  (5 <= Length s ->
   Success (Get_DepartmentComponents s) = true \/
   exists msg,
     In msg [invalid_number; invalid_country; empty_name_detected;
             empty_after_parsing] /\
     Get_DepartmentComponents s = parse_failure msg).
Proof.
  unfold Get_DepartmentComponents, parse_body. split; intros HL.
  - destruct (Substring s 0 5) as [e|d] eqn:E1.
    + apply Substring_inl in E1 as [-> _]. reflexivity.
    + apply Substring_inr in E1. lia.
  - destruct (Substring s 0 5) as [e|d] eqn:E1;
      [apply Substring_inl in E1; lia|].
    cbn [bind_exn].
    destruct (match_anchored number_pattern d); cbn [throw_if negb];
      [|right; exists invalid_number; simpl; intuition].
    destruct (Substring s (Length s - 3) 3) as [e|c] eqn:E2;
      [apply Substring_inl in E2; lia|].
    cbn [bind_exn].
    destruct (match_anchored country_pattern c); cbn [throw_if negb];
      [|right; exists invalid_country; simpl; intuition].
    destruct (Length s - 7 - 6 <=? 0) eqn:En; cbn [throw_if negb];
      [right; exists empty_name_detected; simpl; intuition|].
    apply Z.leb_gt in En.
    destruct (Substring s 6 (Length s - 7 - 6)) as [e|raw] eqn:E3;
      [apply Substring_inl in E3; lia|].
    cbn [bind_exn].
    destruct (IsNullOrWhiteSpace (Trim raw)); cbn [throw_if negb];
      [right; exists empty_after_parsing; simpl; intuition|].
    left. reflexivity.
Qed.

Lemma parse_failures_by_length_witness :
  Get_DepartmentComponents "" = parse_failure Substring_out_of_range /\
  (Success (Get_DepartmentComponents "1234X - USA") = true \/
   exists msg,
     In msg [invalid_number; invalid_country; empty_name_detected;
             empty_after_parsing] /\
     Get_DepartmentComponents "1234X - USA" = parse_failure msg).
Proof.
  split.
  - exact (proj1 (parse_failures_by_length "") ltac:(reflexivity)).
  - exact (proj2 (parse_failures_by_length "1234X - USA")
             ltac:(discriminate)).
Defined.

Lemma append_same_length (a a' b b' : string) :
  String.length a = String.length a' ->
  a ++ b = a' ++ b' -> a = a' /\ b = b'.
Proof.
  revert a'. induction a as [|x a IH]; intros [|x' a'] HL H;
    try discriminate; simpl in *.
  - auto.
  - injection H as -> H. injection HL as HL.
    destruct (IH a' HL H) as [-> ->]. auto.
Qed.

(** X5. Two departments that parse get the same group name exactly when
    they have the same number and the same country code, whatever their
    names; and they get the same recipient filter exactly when they get
    the same group name. *)
Theorem same_group_iff_same_number_and_country (s1 s2 : string)
    (H1 : Success (Get_DepartmentComponents s1) = true)
    (H2 : Success (Get_DepartmentComponents s2) = true) :
  let c1 := Get_DepartmentComponents s1 in
  let c2 := Get_DepartmentComponents s2 in
  (groupName_of c1 = groupName_of c2 <->
   Number c1 = Number c2 /\ CountryCode c1 = CountryCode c2) /\
  (New_RecipientFilter (str (Number c1)) (str (CountryCode c1))
   = New_RecipientFilter (str (Number c2)) (str (CountryCode c2)) <->
   groupName_of c1 = groupName_of c2).
Proof.
  cbv zeta.
  destruct (parsed_components_facts s1 H1)
    as (n1 & m1 & k1 & -> & _ & Ln1 & _ & _ & Lk1 & _).
  destruct (parsed_components_facts s2 H2)
    as (n2 & m2 & k2 & -> & _ & Ln2 & _ & _ & Lk2 & _).
  unfold groupName_of. cbn [Number CountryCode str].
  assert (G : n1 ++ k1 = n2 ++ k2 <-> Some n1 = Some n2 /\ Some k1 = Some k2).
  { split.
    - intros E. apply append_same_length in E as [-> ->]; [auto | congruence].
    - intros [[= ->] [= ->]]. reflexivity. }
  split; [exact G|]. rewrite G. unfold New_RecipientFilter. split.
  - intros E.
    apply append_same_length in E as [_ E]; [|reflexivity].
    apply append_same_length in E as [_ E]; [|reflexivity].
    apply append_same_length in E as [-> E]; [|congruence].
    apply append_same_length in E as [_ E]; [|reflexivity].
    apply append_same_length in E as [_ E]; [|reflexivity].
    apply append_same_length in E as [-> _]; [|congruence].
    auto.
  - intros [[= ->] [= ->]]. reflexivity.
Qed.

Lemma same_group_iff_same_number_and_country_witness :
  (groupName_of (Get_DepartmentComponents "12345 Finance - USA")
   = groupName_of (Get_DepartmentComponents "12345 Marketing - USA") <->
   Number (Get_DepartmentComponents "12345 Finance - USA")
   = Number (Get_DepartmentComponents "12345 Marketing - USA") /\
   CountryCode (Get_DepartmentComponents "12345 Finance - USA")
   = CountryCode (Get_DepartmentComponents "12345 Marketing - USA")) /\
  groupName_of (Get_DepartmentComponents "12345 Finance - USA")
  = groupName_of (Get_DepartmentComponents "12345 Marketing - USA").
Proof.
  split.
  - exact (proj1 (same_group_iff_same_number_and_country
                    "12345 Finance - USA" "12345 Marketing - USA"
                    eq_refl eq_refl)).
  - reflexivity.
Defined.

(* ===================================================================== *)
(** ** More on the retry executor *)
(* ===================================================================== *)

Lemma outputs_app (t1 t2 : list Event) :
  outputs (t1 ++ t2) = (outputs t1 + outputs t2)%nat.
Proof. unfold outputs. now rewrite filter_app, length_app. Qed.

Lemma outputs_calls (cs : list Call) : outputs (map EvCall cs) = 0%nat.
Proof. unfold outputs. induction cs; simpl; auto. Qed.

Lemma total_sleep_app (t1 t2 : list Event) :
  total_sleep (t1 ++ t2) = total_sleep t1 + total_sleep t2.
Proof.
  unfold total_sleep. induction t1 as [|e t1 IH]; simpl; [reflexivity|].
  rewrite IH. lia.
Qed.

Lemma total_sleep_calls (cs : list Call) : total_sleep (map EvCall cs) = 0.
Proof. unfold total_sleep. induction cs; simpl; auto. Qed.

Lemma total_sleep_timeline (name : string) (n : nat) :
  forall a, total_sleep (timeline name a (S n))
            = Z.of_nat n * (2 * a + Z.of_nat n + 1).
Proof.
  induction n as [|n IH]; intros a.
  - reflexivity.
  - change (timeline name a (S (S n)))
      with (EvAttempt name a :: EvSleep (2 * (a + 1))
            :: timeline name (a + 1) (S n)).
    unfold total_sleep in *. cbn [fold_right seconds].
    rewrite IH. lia.
Qed.

Section RetryRuns.

Context {World T : Type}.
Variable Start_Sleep : Z -> World -> World.
Variable Operation : ScriptBlock World T.
Variable OperationName : string.
Variable MaxRetries : Z.

Local Abbreviation loop :=
  (retry_loop Start_Sleep Operation OperationName MaxRetries).

(** What a run of the loop from [attempt] amounts to. *)
Record run_facts (attempt : Z) (w : World)
    (r : option (OperationResult T)) (w' : World) (t : list Event) : Prop := {
  run_schedule : schedule t = timeline OperationName attempt (attempts t);
  run_sleep : total_sleep t = total_sleep (schedule t);
  run_bound : Z.of_nat (attempts t) <= Z.max 0 (MaxRetries + 1 - attempt);
  run_outputs :
    outputs t = (attempts t - (if Success_of r then 1 else 0))%nat;
  run_result :
    match r with
    | None => attempt > MaxRetries /\ t = [] /\ w' = w
    | Some x =>
        attempt <= MaxRetries /\ (1 <= attempts t)%nat /\
        fails_from Start_Sleep Operation attempt w (attempts t - 1) = true /\
        ((exists result cs,
             x = success_of result /\
             Operation (world_from Start_Sleep Operation attempt w
                          (attempts t - 1))
             = (inr result, w', cs)) \/
         (exists msg cs,
             x = failure_of msg /\
             attempt + Z.of_nat (attempts t) - 1 = MaxRetries /\
             Operation (world_from Start_Sleep Operation attempt w
                          (attempts t - 1))
             = (inl msg, w', cs)))
    end
}.

Lemma run_facts_done (attempt : Z) (w : World) :
  attempt > MaxRetries -> run_facts attempt w None w [].
Proof.
  intros H. split; [reflexivity | reflexivity | cbn; lia | reflexivity | auto].
Qed.

Lemma retry_loop_run (n : nat) :
  forall attempt w,
    MaxRetries + 1 - attempt <= Z.of_nat n ->
    exists r w' t,
      loop attempt w = (r, w', t) /\ run_facts attempt w r w' t.
Proof.
  induction n as [|n IH]; intros attempt w Hn.
  - exists None, w, [].
    split; [apply retry_loop_done | apply run_facts_done]; lia.
  - destruct (Z_le_gt_dec attempt MaxRetries) as [Hle|Hgt].
    2:{ exists None, w, [].
        split; [apply retry_loop_done | apply run_facts_done]; lia. }
    destruct (Operation w) as [[[msg|result] w1] cs] eqn:Hop.
    + destruct (Z.eq_dec attempt MaxRetries) as [E|E].
      * do 3 eexists. split; [apply (retry_loop_last _ _ _ _ _ _ _ _ _ E Hop)|].
        assert (A : attempts
                      (EvAttempt OperationName attempt :: map EvCall cs ++
                       [EvOutput (failed_attempt_line attempt OperationName msg)])
                    = 1%nat).
        { change (EvAttempt OperationName attempt :: ?l)
            with ([EvAttempt OperationName attempt] ++ l)%list.
          now rewrite !attempts_app, attempts_calls. }
        split; rewrite ?A.
        -- change (EvAttempt OperationName attempt :: ?l)
             with ([EvAttempt OperationName attempt] ++ l)%list.
           now rewrite !schedule_app, schedule_calls.
        -- change (EvAttempt OperationName attempt :: ?l)
             with ([EvAttempt OperationName attempt] ++ l)%list.
           rewrite !schedule_app, schedule_calls, !total_sleep_app,
             total_sleep_calls. reflexivity.
        -- cbn. lia.
        -- change (EvAttempt OperationName attempt :: ?l)
             with ([EvAttempt OperationName attempt] ++ l)%list.
           now rewrite !outputs_app, outputs_calls.
        -- split; [lia|]. split; [lia|]. split; [reflexivity|].
           right. exists msg, cs. cbn [world_from Nat.sub].
           repeat split; try assumption. lia.
      * destruct (IH (attempt + 1) (Start_Sleep (2 * (attempt + 1)) w1)
                    ltac:(lia)) as (r & w' & t2 & E2 & F).
        exists r, w'. eexists. split.
        { rewrite (retry_loop_again _ _ _ _ attempt w w1 msg cs)
            by (lia || assumption).
          rewrite E2. reflexivity. }
        destruct F as [Fs Fz Fb Fo Fr].
        destruct r as [x|]; [|lia].
        destruct Fr as (_ & Fm & Ff & Fx).
        destruct (attempts t2) as [|m2] eqn:Em; [lia|].
        assert (A : attempts
                      (EvAttempt OperationName attempt :: map EvCall cs ++
                       [EvOutput (failed_attempt_line attempt OperationName msg);
                        EvSleep (2 * (attempt + 1))] ++ t2)
                    = S (S m2)).
        { change (EvAttempt OperationName attempt :: ?l)
            with ([EvAttempt OperationName attempt] ++ l)%list.
          rewrite !attempts_app, attempts_calls, Em. reflexivity. }
        split; rewrite ?A.
        -- rewrite schedule_failed_attempt, Fs. reflexivity.
        -- rewrite schedule_failed_attempt.
           change (EvAttempt OperationName attempt :: ?l)
             with ([EvAttempt OperationName attempt] ++ l)%list.
           rewrite !total_sleep_app, total_sleep_calls, Fz.
           unfold total_sleep. cbn [fold_right seconds app]. lia.
        -- lia.
        -- change (EvAttempt OperationName attempt :: ?l)
             with ([EvAttempt OperationName attempt] ++ l)%list.
           rewrite !outputs_app, outputs_calls, Fo.
           destruct (Success_of (Some x)); cbn; lia.
        -- split; [lia|]. split; [lia|].
           cbn [Nat.sub] in *. rewrite Nat.sub_0_r in *.
           cbn [fails_from world_from]. rewrite Hop. cbn [fst snd].
           split; [exact Ff|].
           destruct Fx as [(result & cs' & -> & Hw) | (m & cs' & -> & Hm & Hw)].
           ++ left. now exists result, cs'.
           ++ right. exists m, cs'. repeat split; try assumption. lia.
    + do 3 eexists.
      split; [apply (retry_loop_success _ _ _ _ _ _ _ _ _ Hle Hop)|].
      assert (A : attempts (EvAttempt OperationName attempt :: map EvCall cs)
                  = 1%nat).
      { change (EvAttempt OperationName attempt :: ?l)
          with ([EvAttempt OperationName attempt] ++ l)%list.
        now rewrite !attempts_app, attempts_calls. }
      split; rewrite ?A.
      * change (EvAttempt OperationName attempt :: ?l)
          with ([EvAttempt OperationName attempt] ++ l)%list.
        now rewrite !schedule_app, schedule_calls.
      * change (EvAttempt OperationName attempt :: ?l)
          with ([EvAttempt OperationName attempt] ++ l)%list.
        rewrite !schedule_app, schedule_calls, !total_sleep_app,
          total_sleep_calls. reflexivity.
      * cbn. lia.
      * change (EvAttempt OperationName attempt :: ?l)
          with ([EvAttempt OperationName attempt] ++ l)%list.
        now rewrite !outputs_app, outputs_calls.
      * split; [lia|]. split; [lia|]. split; [reflexivity|].
        left. exists result, cs. cbn [world_from Nat.sub]. auto.
Qed.

End RetryRuns.

(** X6. Whatever the operation does, a run of the executor is attempts
    1, 2, ..., [m] with [m <= MaxRetries], each but the last followed by
    one sleep of twice the number of the next attempt. The seconds slept
    are [m * m + m - 2] in all: at most [MaxRetries * MaxRetries +
    MaxRetries - 2] (10 seconds for the default of three attempts). *)
Theorem executor_schedule_and_total_backoff {World T : Type}
    (Start_Sleep : Z -> World -> World) (Operation : ScriptBlock World T)
    (OperationName : string) (MaxRetries : Z) (w : World) :
  let t := snd (Invoke_ExchangeOperation Start_Sleep Operation OperationName
                  MaxRetries w) in
  let m := Z.of_nat (attempts t) in
  schedule t = timeline OperationName 1 (attempts t) /\
  m <= Z.max 0 MaxRetries /\
  total_sleep t = Z.max 0 (m * m + m - 2) /\
  total_sleep t <= Z.max 0 (MaxRetries * MaxRetries + MaxRetries - 2).
Proof.
  cbv zeta. unfold Invoke_ExchangeOperation.
  destruct (retry_loop_run Start_Sleep Operation OperationName MaxRetries
              (Z.to_nat MaxRetries) 1 w ltac:(lia))
    as (r & w' & t & -> & [Fs Fz Fb _ _]).
  cbn [snd].
  assert (Hb : Z.of_nat (attempts t) <= Z.max 0 MaxRetries) by lia.
  assert (Ht : total_sleep t
               = Z.max 0 (Z.of_nat (attempts t) * Z.of_nat (attempts t)
                          + Z.of_nat (attempts t) - 2)).
  { rewrite Fz, Fs. destruct (attempts t) as [|k]; [reflexivity|].
    rewrite total_sleep_timeline. nia. }
  repeat split; try assumption.
  rewrite Ht. nia.
Qed.

(** X7. Every attempt that throws is reported by exactly one line, and
    nothing else is written: a success at attempt [k] leaves [k - 1] lines,
    a failure leaves as many lines as attempts. *)
Theorem executor_reports_each_failed_attempt {World T : Type}
    (Start_Sleep : Z -> World -> World) (Operation : ScriptBlock World T)
    (OperationName : string) (MaxRetries : Z) (w : World) :
  let run := Invoke_ExchangeOperation Start_Sleep Operation OperationName
               MaxRetries w in
  let t := snd run in
  outputs t
  = (attempts t - (if Success_of (returned (fst (fst run))) then 1 else 0))%nat.
Proof.
  cbv zeta. unfold Invoke_ExchangeOperation.
  destruct (retry_loop_run Start_Sleep Operation OperationName MaxRetries
              (Z.to_nat MaxRetries) 1 w ltac:(lia))
    as (r & w' & t & -> & [_ _ _ Fo _]).
  exact Fo.
Qed.

(** X8. What the executor returns says what happened. Nothing: no attempt
    was allowed. A success: its [Result] is what attempt [k] returned, the
    attempts before [k] threw, and [k] is the number of attempts made. A
    failure: all [MaxRetries] attempts were made and threw, and [Error] is
    the message of the last one. The tenant left is the one the last
    attempt left. *)
Theorem executor_result_explained {World T : Type}
    (Start_Sleep : Z -> World -> World) (Operation : ScriptBlock World T)
    (OperationName : string) (MaxRetries : Z) (w : World) :
  let run := Invoke_ExchangeOperation Start_Sleep Operation OperationName
               MaxRetries w in
  let k := attempts (snd run) in
  match returned (fst (fst run)) with
  | None => MaxRetries <= 0 /\ k = 0%nat /\ snd (fst run) = w
  | Some x =>
      (1 <= k)%nat /\ Z.of_nat k <= MaxRetries /\
      fails_from Start_Sleep Operation 1 w (k - 1) = true /\
      snd (fst run) = world_after_attempt Start_Sleep Operation w k /\
      if op_Success x
      then x = success_of (Result x) /\
           outcome_of_attempt Start_Sleep Operation w k = inr (Result x)
      else Z.of_nat k = MaxRetries /\
           exists msg, x = failure_of msg /\
                       outcome_of_attempt Start_Sleep Operation w k = inl msg
  end.
Proof.
  cbv zeta. unfold Invoke_ExchangeOperation.
  destruct (retry_loop_run Start_Sleep Operation OperationName MaxRetries
              (Z.to_nat MaxRetries) 1 w ltac:(lia))
    as (r & w' & t & -> & [_ _ Fb _ Fr]).
  cbn [fst snd returned]. destruct r as [x|].
  - destruct Fr as (Hle & Hk & Hf & Hx).
    unfold outcome_of_attempt, world_after_attempt.
    split; [assumption|]. split; [lia|]. split; [assumption|].
    destruct Hx as [(result & cs & -> & Hop) | (msg & cs & -> & Hm & Hop)];
      rewrite Hop; cbn [fst snd success_of failure_of op_Success Result].
    + auto.
    + split; [reflexivity|]. split; [lia|]. now exists msg.
  - destruct Fr as (Hgt & -> & ->). repeat split. lia.
Qed.

Section CmdletRuns.

Context {World : Type}.
Variable exchange : Call -> World -> (exn + option Recipient) * World.
Variable Start_Sleep : Z -> World -> World.

Lemma calls_app (t1 t2 : list Event) :
  calls (t1 ++ t2) = (calls t1 ++ calls t2)%list.
Proof. apply filter_app. Qed.

Lemma retry_cmdlet_calls (c : Call) (name : string) (MaxRetries : Z) (n : nat) :
  forall attempt w,
    MaxRetries + 1 - attempt <= Z.of_nat n ->
    let t := snd (retry_loop Start_Sleep (cmdlet exchange c) name MaxRetries
                    attempt w) in
    calls t = repeat (EvCall c) (attempts t).
Proof.
  induction n as [|n IH]; intros attempt w Hn; cbv zeta.
  - now rewrite retry_loop_done by lia.
  - destruct (Z_le_gt_dec attempt MaxRetries) as [Hle|Hgt];
      [|now rewrite retry_loop_done by lia].
    destruct (cmdlet exchange c w) as [[[msg|result] w1] cs] eqn:Hop;
      assert (Hcs : cs = [c])
        by (unfold cmdlet in Hop; destruct (exchange c w);
            now injection Hop as _ _ <-);
      subst cs.
    + destruct (Z.eq_dec attempt MaxRetries) as [E|E].
      * rewrite (retry_loop_last _ _ _ _ _ _ _ _ _ E Hop). reflexivity.
      * rewrite (retry_loop_again _ _ _ _ attempt w w1 msg [c])
          by (lia || assumption).
        specialize (IH (attempt + 1) (Start_Sleep (2 * (attempt + 1)) w1)
                      ltac:(lia)). cbv zeta in IH.
        destruct (retry_loop _ _ _ _ (attempt + 1) _) as [[r w2] t2].
        cbn [snd] in *.
        change (EvAttempt name attempt :: ?l)
          with ([EvAttempt name attempt] ++ l)%list.
        rewrite !calls_app, !attempts_app, IH. reflexivity.
    + rewrite (retry_loop_success _ _ _ _ _ _ _ _ _ Hle Hop). reflexivity.
Qed.

End CmdletRuns.

(** X9. Run through the executor, a cmdlet is issued once per attempt and
    nothing else is: at most [MaxRetries] times, and not at all when
    [MaxRetries <= 0]. *)
Theorem cmdlet_issued_once_per_attempt {World : Type}
    (exchange : Call -> World -> (exn + option Recipient) * World)
    (Start_Sleep : Z -> World -> World)
    (c : Call) (OperationName : string) (MaxRetries : Z) (w : World) :
  let t := snd (Invoke_ExchangeOperation Start_Sleep (cmdlet exchange c)
                  OperationName MaxRetries w) in
  calls t = repeat (EvCall c) (attempts t) /\
  Z.of_nat (List.length (calls t)) <= Z.max 0 MaxRetries.
Proof.
  cbv zeta.
  pose proof (retry_cmdlet_calls exchange Start_Sleep c OperationName
                MaxRetries (Z.to_nat MaxRetries) 1 w ltac:(lia)) as Hc.
  cbv zeta in Hc. unfold Invoke_ExchangeOperation.
  destruct (retry_loop_run Start_Sleep (cmdlet exchange c) OperationName
              MaxRetries (Z.to_nat MaxRetries) 1 w ltac:(lia))
    as (r & w' & t & E & [_ _ Fb _ _]).
  rewrite E in *. cbn [snd] in *.
  split; [assumption|]. rewrite Hc, repeat_length. lia.
Qed.

(* ===================================================================== *)
(** ** More on one department *)
(* ===================================================================== *)

Lemma filter_filter_implied {A} (f g : A -> bool) (l : list A) :
  (forall x, f x = true -> g x = true) ->
  filter f (filter g l) = filter f l.
Proof.
  intros H. induction l as [|x l IH]; [reflexivity|]. cbn [filter].
  destruct (g x) eqn:Eg; cbn [filter].
  - now rewrite IH.
  - destruct (f x) eqn:Ef; [|assumption].
    apply H in Ef. congruence.
Qed.

Lemma mutating_of_calls (t : list Event) :
  filter is_mutating_call t = filter is_mutating_call (calls t).
Proof.
  unfold calls. symmetry. apply filter_filter_implied.
  now intros [| | |].
Qed.

Lemma mutating_repeat (c : Call) (k : nat) :
  filter is_mutating_call (repeat (EvCall c) k)
  = if mutating c then repeat (EvCall c) k else [].
Proof.
  induction k as [|k IH]; cbn [repeat filter is_mutating_call].
  - now destruct (mutating c).
  - rewrite IH. now destruct (mutating c).
Qed.

Lemma mutating_cons_output (line : string) (t : list Event) :
  filter is_mutating_call (EvOutput line :: t) = filter is_mutating_call t.
Proof. reflexivity. Qed.

Ltac mutating_norm :=
  repeat (rewrite filter_app || rewrite mutating_cons_output);
  cbn [filter].

Lemma calls_outputs_only (t : list Event) :
  Forall (fun e => is_output e = true) t -> calls t = [] /\ attempts t = 0%nat.
Proof.
  unfold calls, attempts.
  induction 1 as [|e t He _ [IH1 IH2]]; [auto|].
  destruct e; try discriminate. cbn [filter is_call is_attempt]. auto.
Qed.

Section DepartmentFacts.

Context {World : Type}.
Variable exchange : Call -> World -> (exn + option Recipient) * World.
Variable Start_Sleep : Z -> World -> World.

Local Abbreviation retry c name MaxRetries w :=
  (retry_loop Start_Sleep (cmdlet exchange c) name MaxRetries 1 w).

(** The mutating cmdlets of a run of the executor on [{ cmdlet c }]. *)
Lemma retry_mutating (c : Call) (name : string) (MaxRetries : Z) (w : World) :
  exists k,
    Z.of_nat k <= Z.max 0 MaxRetries /\
    filter is_mutating_call (snd (retry c name MaxRetries w))
    = if mutating c then repeat (EvCall c) k else [].
Proof.
  pose proof (retry_cmdlet_calls exchange Start_Sleep c name MaxRetries
                (Z.to_nat MaxRetries) 1 w ltac:(lia)) as Hc.
  cbv zeta in Hc.
  destruct (retry_loop_run Start_Sleep (cmdlet exchange c) name MaxRetries
              (Z.to_nat MaxRetries) 1 w ltac:(lia))
    as (r & w' & t & E & [_ _ Fb _ _]).
  rewrite E in *. cbn [snd] in *.
  exists (attempts t). split; [lia|].
  now rewrite mutating_of_calls, Hc, mutating_repeat.
Qed.

Lemma reconcile_cases (MaxRetries : Z)
    (deptname groupName displayName recipientFilter : string) (s : Script) :
  exists b e w' t,
    reconcile exchange Start_Sleep MaxRetries deptname groupName displayName
      recipientFilter s
    = (inr tt, recorded b e w' s, t) /\
    reconcile_entry deptname groupName displayName b e /\
    exists k,
      Z.of_nat k <= Z.max 0 MaxRetries /\
      (filter is_mutating_call t
       = repeat (EvCall (New_DynamicDistributionGroup groupName groupName
                           displayName recipientFilter
                           "MailboxUsers, MailUsers")) k \/
       filter is_mutating_call t
       = repeat (EvCall (Set_DynamicDistributionGroup groupName displayName
                           recipientFilter)) k).
Proof.
  rewrite run_reconcile.
  destruct (retry_mutating (Get_Recipient groupName)
              "Check Existing Recipient" 2 (world s)) as (k1 & _ & M1).
  destruct (retry (Get_Recipient groupName) _ _ _) as [[r1 w1] t1].
  cbn [snd mutating] in M1.
  destruct (Result_of r1) as [obj|].
  - rewrite run_update_or_skip. cbn [world set_world].
    destruct (retry_mutating (Get_DynamicDistributionGroup groupName)
                "Check Existing DDG" 2 w1) as (k2 & _ & M2).
    destruct (retry (Get_DynamicDistributionGroup groupName) _ _ _)
      as [[r2 w2] t2].
    cbn [snd mutating] in M2.
    destruct (Result_of r2).
    + destruct (retry_mutating
                  (Set_DynamicDistributionGroup groupName displayName
                     recipientFilter) "Update DDG" MaxRetries w2)
        as (k3 & B3 & M3).
      destruct (retry (Set_DynamicDistributionGroup _ _ _) _ _ _)
        as [[r3 w3] t3].
      cbn [snd mutating] in M3.
      destruct (Success_of r3); do 4 eexists;
        (split; [reflexivity|]);
        (split; [unfold reconcile_entry; eauto 10|]);
        exists k3; (split; [assumption|]); right;
        mutating_norm; rewrite M1, M2, M3; cbn [app];
        now rewrite app_nil_r.
    + do 4 eexists. split; [reflexivity|].
      split; [unfold reconcile_entry; eauto 10|].
      exists 0%nat. split; [lia|]. left.
      mutating_norm. rewrite M1, M2. reflexivity.
  - rewrite run_create. cbn [world set_world].
    destruct (retry_mutating
                (New_DynamicDistributionGroup groupName groupName displayName
                   recipientFilter "MailboxUsers, MailUsers")
                "Create DDG" MaxRetries w1) as (k3 & B3 & M3).
    destruct (retry (New_DynamicDistributionGroup _ _ _ _ _) _ _ _)
      as [[r3 w3] t3].
    cbn [snd mutating] in M3.
    destruct (Success_of r3); do 4 eexists;
      (split; [reflexivity|]);
      (split; [unfold reconcile_entry; eauto 10|]);
      exists k3; (split; [assumption|]); left;
      mutating_norm; rewrite M1, M3; cbn [app];
      now rewrite app_nil_r.
Qed.

Lemma reconcile_entry_well_formed (deptname : string) (b : Bucket) (e : Entry) :
  reaches_gate deptname = true ->
  reconcile_entry deptname
    (groupName_of (Get_DepartmentComponents deptname))
    (displayName_of (Get_DepartmentComponents deptname)) b e ->
  Department e = deptname /\ well_formed_entry e /\
  In (Status e) (statuses_of b) /\ b <> BValidationErrors.
Proof.
  intros Hg [(-> & ->) | [(-> & ->) | [(-> & ty & ->) | (-> & err & [-> | ->])]]];
    (split; [reflexivity|]); (split; [|split; [cbn; auto | discriminate]]);
    unfold well_formed_entry; cbn.
  - left. auto 10.
  - left. auto 10.
  - right. left. repeat split; eauto.
  - do 4 right. auto 10.
  - do 4 right. auto 10.
Qed.

(** One department, case by case. *)
Lemma process_department_cases (WhatIf : bool) (MaxRetries Count : Z)
    (deptname : string) (s : Script) :
  let c := Get_DepartmentComponents deptname in
  exists s' t,
    process_department exchange Start_Sleep WhatIf MaxRetries Count deptname s
    = (inr tt, s', t) /\
    if negb (reaches_gate deptname) then
      exists e,
        s' = recorded BValidationErrors e (world s) (counted s) /\
        Department e = deptname /\ well_formed_entry e /\
        In (Status e) ["ValidationError"; "ParsingError"] /\
        Forall (fun x => is_output x = true) t
    else if WhatIf then
      s' = counted s /\ Forall (fun x => is_output x = true) t
    else
      exists b e w',
        s' = recorded b e w' (counted s) /\
        reconcile_entry deptname (groupName_of c) (displayName_of c) b e /\
        exists k,
          Z.of_nat k <= Z.max 0 MaxRetries /\
          (filter is_mutating_call t
           = repeat (EvCall (New_DynamicDistributionGroup (groupName_of c)
                               (groupName_of c) (displayName_of c)
                               (New_RecipientFilter (str (Number c))
                                  (str (CountryCode c)))
                               "MailboxUsers, MailUsers")) k \/
           filter is_mutating_call t
           = repeat (EvCall (Set_DynamicDistributionGroup (groupName_of c)
                               (displayName_of c)
                               (New_RecipientFilter (str (Number c))
                                  (str (CountryCode c))))) k).
Proof.
  cbv zeta. rewrite run_process_department. cbv zeta. unfold reaches_gate.
  destruct (IsValid (Test_DepartmentFormat deptname)) eqn:Hv; cbn [negb andb].
  2:{ do 2 eexists. split; [reflexivity|]. eexists. split; [reflexivity|].
      split; [reflexivity|]. split.
      - unfold well_formed_entry. cbn. rewrite Hv. right. right. left. auto 10.
      - split; [cbn; auto|]. repeat constructor. }
  destruct (Success (Get_DepartmentComponents deptname)) eqn:Hp; cbn [negb].
  2:{ do 2 eexists. split; [reflexivity|]. eexists. split; [reflexivity|].
      split; [reflexivity|]. split.
      - unfold well_formed_entry. cbn. rewrite Hv, Hp.
        right. right. right. left. auto 10.
      - split; [cbn; auto|]. repeat constructor. }
  destruct WhatIf.
  - do 2 eexists. split; [reflexivity|]. split; [reflexivity|].
    repeat constructor.
  - unfold try_catch.
    destruct (reconcile_cases MaxRetries deptname
                (groupName_of (Get_DepartmentComponents deptname))
                (displayName_of (Get_DepartmentComponents deptname))
                (New_RecipientFilter
                   (str (Number (Get_DepartmentComponents deptname)))
                   (str (CountryCode (Get_DepartmentComponents deptname))))
                (counted s))
      as (b & e & w' & t & -> & He & k & Hk & Hm).
    do 2 eexists. split; [reflexivity|]. exists b, e, w'.
    split; [reflexivity|]. split; [assumption|]. exists k.
    split; [assumption|]. exact Hm.
Qed.

End DepartmentFacts.



(** X11. The cmdlets of one department that change the tenant are all the
    same cmdlet: [New-DynamicDistributionGroup] or
    [Set-DynamicDistributionGroup], never both, on the group name, the
    display name and the filter computed from that department, issued at
    most [MaxRetries] times. *)
Theorem mutating_cmdlets_serve_own_group {World : Type}
    (exchange : Call -> World -> (exn + option Recipient) * World)
    (Start_Sleep : Z -> World -> World)
    (WhatIf : bool) (MaxRetries Count : Z) (deptname : string)
    (s : @Script World) :
  let c := Get_DepartmentComponents deptname in
  let t := snd (process_department exchange Start_Sleep WhatIf MaxRetries
                  Count deptname s) in
  exists k,
    Z.of_nat k <= Z.max 0 MaxRetries /\
    (filter is_mutating_call t
     = repeat (EvCall (New_DynamicDistributionGroup (groupName_of c)
                         (groupName_of c) (displayName_of c)
                         (New_RecipientFilter (str (Number c))
                            (str (CountryCode c)))
                         "MailboxUsers, MailUsers")) k \/
     filter is_mutating_call t
     = repeat (EvCall (Set_DynamicDistributionGroup (groupName_of c)
                         (displayName_of c)
                         (New_RecipientFilter (str (Number c))
                            (str (CountryCode c))))) k).
Proof.
  cbv zeta.
  destruct (process_department_cases exchange Start_Sleep WhatIf MaxRetries
              Count deptname s) as (s' & t & -> & H).
  cbn [snd].
  assert (Hout : Forall (fun x => is_output x = true) t ->
                 filter is_mutating_call t = []).
  { intros Ho. rewrite mutating_of_calls.
    now rewrite (proj1 (calls_outputs_only t Ho)). }
  destruct (negb (reaches_gate deptname)).
  - destruct H as (e & _ & _ & _ & _ & Ho).
    exists 0%nat. split; [lia|]. left. now apply Hout.
  - destruct WhatIf.
    + destruct H as [_ Ho]. exists 0%nat. split; [lia|]. left. now apply Hout.
    + destruct H as (b & e & w' & _ & _ & k & Hk & Hm). now exists k.
Qed.





(* ===================================================================== *)
(** ** More on the loop *)
(* ===================================================================== *)

Section LoopFacts.

Context {World : Type}.
Variable exchange : Call -> World -> (exn + option Recipient) * World.
Variable Start_Sleep : Z -> World -> World.

Lemma reaches_gate_negb (deptname : string) (WhatIf : bool) :
  (if negb (reaches_gate deptname) then true
   else if WhatIf then false else true) = leaves_entry WhatIf deptname.
Proof. unfold leaves_entry. now destruct (reaches_gate deptname), WhatIf. Qed.

Lemma process_departments_facts (WhatIf : bool) (MaxRetries Count : Z)
    (depts : list string) :
  forall s : @Script World,
  exists s' t new,
    process_departments exchange Start_Sleep WhatIf MaxRetries Count depts s
    = (inr tt, s', t) /\
    TotalProcessed (stats s')
    = TotalProcessed (stats s) + Z.of_nat (List.length depts) /\
    processedDepartments s' = (processedDepartments s ++ new)%list /\
    map Department new = filter (leaves_entry WhatIf) depts /\
    Forall well_formed_entry new /\
    (WhatIf = true ->
     world s' = world s /\ calls t = [] /\ attempts t = 0%nat /\
     Forall (fun e => In (Status e) ["ValidationError"; "ParsingError"]) new /\
     forall b, b <> BValidationErrors ->
               read b (stats s') = read b (stats s)).
Proof.
  induction depts as [|d rest IH]; intros s.
  - exists s, [], []. cbn. rewrite app_nil_r.
    repeat split; auto; lia.
  - cbn [process_departments]. unfold bind.
    destruct (process_department_cases exchange Start_Sleep WhatIf MaxRetries
                Count d s) as (s1 & t1 & -> & H1).
    destruct (IH s1) as (s' & t2 & new & -> & HT & HP & HM & HW & HD).
    cbn [filter List.length]. rewrite <- (reaches_gate_negb d WhatIf).
    destruct (negb (reaches_gate d)) eqn:Hg.
    + destruct H1 as (e & -> & He & Hwf & Hst & Hout).
      exists s', (t1 ++ t2)%list, (e :: new). split; [reflexivity|].
      cbn [recorded counted stats processedDepartments world] in *.
      rewrite TotalProcessed_bump in HT.
      cbn [incr_TotalProcessed TotalProcessed] in HT.
      split; [lia|]. split; [now rewrite HP, <- app_assoc|].
      split; [cbn [map]; now rewrite He, HM|].
      split; [now constructor|].
      intros HWI. destruct (HD HWI) as (Hw & Hc & Ha & Hs & Hr).
      destruct (calls_outputs_only t1 Hout) as [Hc1 Ha1].
      split; [assumption|].
      split; [now rewrite calls_app, Hc1, Hc|].
      split; [now rewrite attempts_app, Ha1, Ha|].
      split; [now constructor|].
      intros b Hb. rewrite (Hr b Hb), read_bump, read_incr_TotalProcessed.
      destruct b; cbn; try lia; congruence.
    + destruct WhatIf.
      * destruct H1 as [-> Hout].
        exists s', (t1 ++ t2)%list, new. split; [reflexivity|].
        cbn [counted stats processedDepartments world] in *.
        cbn [incr_TotalProcessed TotalProcessed] in HT.
        split; [lia|]. split; [assumption|]. split; [assumption|].
        split; [assumption|].
        intros HWI. destruct (HD HWI) as (Hw & Hc & Ha & Hs & Hr).
        destruct (calls_outputs_only t1 Hout) as [Hc1 Ha1].
        split; [assumption|].
        split; [now rewrite calls_app, Hc1, Hc|].
        split; [now rewrite attempts_app, Ha1, Ha|].
        split; [assumption|].
        intros b Hb. rewrite (Hr b Hb). apply read_incr_TotalProcessed.
      * destruct H1 as (b & e & w' & -> & He & _).
        apply negb_false_iff in Hg.
        destruct (reconcile_entry_well_formed d b e Hg He)
          as (Hd & Hwf & _ & _).
        exists s', (t1 ++ t2)%list, (e :: new). split; [reflexivity|].
        cbn [recorded counted stats processedDepartments world] in *.
        rewrite TotalProcessed_bump in HT.
        cbn [incr_TotalProcessed TotalProcessed] in HT.
        split; [lia|]. split; [now rewrite HP, <- app_assoc|].
        split; [cbn [map]; now rewrite Hd, HM|].
        split; [now constructor|].
        intros HWI. discriminate.
Qed.

End LoopFacts.

(** X14. The loop never stops early: whatever happens to a department,
    every department of the list is counted in [TotalProcessed], and the
    entries recorded are those of the departments in the order of the list
    (all of them when dry-run is off; in dry-run mode, those that fail the
    validator or the parser). *)
Theorem loop_processes_every_department_in_order {World : Type}
    (exchange : Call -> World -> (exn + option Recipient) * World)
    (Start_Sleep : Z -> World -> World)
    (WhatIf : bool) (MaxRetries : Z) (depts : list string) (w : World) :
  let run := run_loop exchange Start_Sleep WhatIf MaxRetries depts w in
  let s := snd (fst run) in
  fst (fst run) = inr tt /\
  TotalProcessed (stats s) = Z.of_nat (List.length depts) /\
  map Department (processedDepartments s)
  = filter (fun d => negb (WhatIf && reaches_gate d)) depts.
Proof.
  cbv zeta. unfold run_loop.
  destruct (process_departments_facts exchange Start_Sleep WhatIf MaxRetries
              (Z.of_nat (List.length depts)) depts
              {| world := w; stats := initial_stats;
                 processedDepartments := [] |})
    as (s' & t & new & -> & HT & HP & HM & _).
  cbn [fst snd stats processedDepartments app initial_stats TotalProcessed] in *.
  rewrite HP. repeat split; assumption.
Qed.

(** X15. Every entry the loop records is well formed for the department it
    names: [Created] and [Updated] carry the group name and the display
    name computed from that department and no error; [Skipped] carries a
    reason; [ValidationError] and [ParsingError] carry the message of the
    validator or of the parser; [CreateError] and [UpdateError] carry no
    group. No other status is ever recorded. *)
Theorem every_recorded_entry_is_well_formed {World : Type}
    (exchange : Call -> World -> (exn + option Recipient) * World)
    (Start_Sleep : Z -> World -> World)
    (WhatIf : bool) (MaxRetries : Z) (depts : list string) (w : World) :
  let s := snd (fst (run_loop exchange Start_Sleep WhatIf MaxRetries depts w)) in
  Forall well_formed_entry (processedDepartments s) /\
  Forall (fun e => In (Status e)
                     ["Created"; "Updated"; "Skipped"; "ValidationError";
                      "ParsingError"; "CreateError"; "UpdateError"])
    (processedDepartments s).
Proof.
  cbv zeta. unfold run_loop.
  destruct (process_departments_facts exchange Start_Sleep WhatIf MaxRetries
              (Z.of_nat (List.length depts)) depts
              {| world := w; stats := initial_stats;
                 processedDepartments := [] |})
    as (s' & t & new & -> & _ & HP & _ & HW & _).
  cbn [fst snd processedDepartments app] in *. rewrite HP.
  split; [assumption|].
  eapply Forall_impl; [|exact HW]. intros e He. unfold well_formed_entry in He.
  cbv zeta in He. cbn [In] in *.
  destruct He as [(H & _) | [(H & _) | [(H & _) | [(H & _) | (H & _)]]]];
    intuition.
Qed.

(** X16. A dry run is read-only from its first department to its last: the
    tenant is left as it was, the executor is never run, no cmdlet is
    issued, [Created], [Updated], [Skipped] and [ProcessingErrors] stay 0,
    and only validation and parsing failures are recorded. *)
Theorem dry_run_is_read_only {World : Type}
    (exchange : Call -> World -> (exn + option Recipient) * World)
    (Start_Sleep : Z -> World -> World)
    (MaxRetries : Z) (depts : list string) (w : World) :
  let run := run_loop exchange Start_Sleep true MaxRetries depts w in
  let s := snd (fst run) in
  world s = w /\
  calls (snd run) = [] /\ attempts (snd run) = 0%nat /\
  Created (stats s) = 0 /\ Updated (stats s) = 0 /\ Skipped (stats s) = 0 /\
  ProcessingErrors (stats s) = 0 /\
  map Department (processedDepartments s)
  = filter (fun d => negb (reaches_gate d)) depts /\
  Forall (fun e => In (Status e) ["ValidationError"; "ParsingError"])
    (processedDepartments s).
Proof.
  cbv zeta. unfold run_loop.
  destruct (process_departments_facts exchange Start_Sleep true MaxRetries
              (Z.of_nat (List.length depts)) depts
              {| world := w; stats := initial_stats;
                 processedDepartments := [] |})
    as (s' & t & new & -> & _ & HP & HM & _ & HD).
  destruct (HD eq_refl) as (Hw & Hc & Ha & Hs & Hr).
  cbn [fst snd world stats processedDepartments app] in *. rewrite HP.
  split; [assumption|]. split; [assumption|]. split; [assumption|].
  split; [exact (Hr BCreated ltac:(discriminate))|].
  split; [exact (Hr BUpdated ltac:(discriminate))|].
  split; [exact (Hr BSkipped ltac:(discriminate))|].
  split; [exact (Hr BProcessingErrors ltac:(discriminate))|].
  split; [|assumption]. exact HM.
Qed.

(* ===================================================================== *)
(** ** More on the report *)
(* ===================================================================== *)

Lemma recorded_statuses {World : Type}
    (exchange : Call -> World -> (exn + option Recipient) * World)
    (Start_Sleep : Z -> World -> World)
    (WhatIf : bool) (MaxRetries : Z) (depts : list string) (w : World) :
  Forall (fun e => In (Status e) seven_statuses)
    (processedDepartments
       (snd (fst (run_loop exchange Start_Sleep WhatIf MaxRetries depts w)))).
Proof.
  unfold run_loop.
  destruct (process_departments_facts exchange Start_Sleep WhatIf MaxRetries
              (Z.of_nat (List.length depts)) depts
              {| world := w; stats := initial_stats;
                 processedDepartments := [] |})
    as (s' & t & new & -> & _ & HP & _ & HW & _).
  cbn [fst snd processedDepartments app] in *. rewrite HP.
  eapply Forall_impl; [|exact HW]. intros e He. unfold well_formed_entry in He.
  cbv zeta in He. unfold seven_statuses. cbn [In] in *.
  destruct He as [(H & _) | [(H & _) | [(H & _) | [(H & _) | (H & _)]]]];
    intuition.
Qed.

(** On the statuses the loop writes, the two listings of the report select
    what the counters count. *)
Lemma listings_count (ps : list Entry) :
  Forall (fun e => In (Status e) seven_statuses) ps ->
  Z.of_nat (List.length (errorDepartments ps))
  = count_status (statuses_of BValidationErrors) ps
    + count_status (statuses_of BProcessingErrors) ps /\
  Z.of_nat (List.length (successDepartments ps))
  = count_status (statuses_of BCreated) ps
    + count_status (statuses_of BUpdated) ps.
Proof.
  unfold errorDepartments, successDepartments, count_status.
  induction 1 as [|e ps He _ [IH1 IH2]]; [split; reflexivity|].
  cbn [filter]. unfold has_status, in_ci in *.
  set (E := filter (fun e => contains_ci "Error" (Status e)) ps) in *.
  set (S := filter (fun e => existsb (eq_ci (Status e)) ["Created"; "Updated"])
              ps) in *.
  set (V := filter (fun e => existsb (String.eqb (Status e))
                               (statuses_of BValidationErrors)) ps) in *.
  set (P := filter (fun e => existsb (String.eqb (Status e))
                               (statuses_of BProcessingErrors)) ps) in *.
  set (C := filter (fun e => existsb (String.eqb (Status e))
                               (statuses_of BCreated)) ps) in *.
  set (U := filter (fun e => existsb (String.eqb (Status e))
                               (statuses_of BUpdated)) ps) in *.
  unfold seven_statuses in He. cbn [In] in He.
  destruct He as [H|[H|[H|[H|[H|[H|[H|[]]]]]]]]; rewrite <- H;
    vm_compute contains_ci; vm_compute existsb;
    cbn [List.length]; rewrite ?Nat2Z.inj_succ; lia.
Qed.

(** X17. The report agrees with itself after any run of the loop: the
    detailed error report lists as many entries as [totalErrors], the list
    of successful operations as many as [successCount], and the exit code
    is 0 exactly when there is nothing to list as an error. *)
Theorem report_listings_match_counters {World : Type}
    (exchange : Call -> World -> (exn + option Recipient) * World)
    (Start_Sleep : Z -> World -> World)
    (WhatIf : bool) (MaxRetries : Z) (depts : list string) (w : World) :
  let s := snd (fst (run_loop exchange Start_Sleep WhatIf MaxRetries depts w)) in
  let rep := Report (stats s) in
  Z.of_nat (List.length (errorDepartments (processedDepartments s)))
  = totalErrors rep /\
  Z.of_nat (List.length (successDepartments (processedDepartments s)))
  = successCount rep /\
  (exitCode rep = 0 <-> errorDepartments (processedDepartments s) = []).
Proof.
  cbv zeta.
  pose proof (counters_match_entries exchange Start_Sleep WhatIf MaxRetries
                depts w) as HC. cbv zeta in HC.
  pose proof (recorded_statuses exchange Start_Sleep WhatIf MaxRetries
                depts w) as HS.
  set (s := snd (fst (run_loop exchange Start_Sleep WhatIf MaxRetries depts w)))
    in *.
  destruct (listings_count _ HS) as [HE HO].
  rewrite <- (HC BValidationErrors), <- (HC BProcessingErrors) in HE.
  rewrite <- (HC BCreated), <- (HC BUpdated) in HO.
  cbn [read] in HE, HO. unfold Report. cbn [totalErrors successCount exitCode].
  split; [assumption|]. split; [assumption|].
  rewrite <- HE.
  destruct (errorDepartments (processedDepartments s)) as [|e l].
  - split; reflexivity.
  - cbn [List.length]. rewrite Nat2Z.inj_succ.
    destruct (Z.succ (Z.of_nat (List.length l)) =? 0) eqn:E.
    + apply Z.eqb_eq in E. lia.
    + split; discriminate.
Qed.

Lemma half_integer_bounds (k n : Z) :
  (- (1 # 2) <= inject_Z k)%Q -> (inject_Z k <= inject_Z n + (1 # 2))%Q ->
  0 <= k <= n.
Proof.
  intros H1 H2.
  unfold Qle, Qplus, inject_Z in H1, H2. cbn in H1, H2. lia.
Qed.

Lemma Math_Round_2_percentage (q : Q) :
  (0 <= q)%Q -> (q <= 100)%Q ->
  (0 <= Math_Round_2 q)%Q /\ (Math_Round_2 q <= 100)%Q.
Proof.
  intros H0 H1. unfold Math_Round_2.
  destruct (round_half_even_close (q * 100)) as [C1 C2].
  assert (B : 0 <= round_half_even (q * 100) <= 10000).
  { apply half_integer_bounds.
    - lra.
    - change (inject_Z 10000) with 10000%Q. lra. }
  destruct B as [B0 B1].
  rewrite Zle_Qle in B0, B1.
  change (inject_Z 0) with 0%Q in B0.
  change (inject_Z 10000) with 10000%Q in B1.
  split.
  - apply Qle_shift_div_l; [reflexivity | lra].
  - apply Qle_shift_div_r; [reflexivity | lra].
Qed.

Lemma exact_percentage (a b : Z) :
  0 <= a <= b -> 0 < b ->
  (0 <= inject_Z a / inject_Z b * 100)%Q /\
  (inject_Z a / inject_Z b * 100 <= 100)%Q.
Proof.
  intros [Ha Hab] Hb.
  assert (Qb : (0 < inject_Z b)%Q)
    by (change 0%Q with (inject_Z 0); now rewrite <- Zlt_Qlt).
  assert (Qa : (0 <= inject_Z a)%Q)
    by (change 0%Q with (inject_Z 0); now rewrite <- Zle_Qle).
  assert (Qab : (inject_Z a <= inject_Z b)%Q) by now rewrite <- Zle_Qle.
  assert (L : (0 <= inject_Z a / inject_Z b)%Q)
    by (apply Qle_shift_div_l; [assumption | lra]).
  assert (U : (inject_Z a / inject_Z b <= 1)%Q)
    by (apply Qle_shift_div_r; [assumption | lra]).
  split; lra.
Qed.

Lemma count_status_nonneg (l : list string) (ps : list Entry) :
  0 <= count_status l ps.
Proof. unfold count_status. lia. Qed.

(** The outcome counters never exceed [TotalProcessed]. *)
Lemma buckets_below_total {World : Type}
    (exchange : Call -> World -> (exn + option Recipient) * World)
    (Start_Sleep : Z -> World -> World)
    (WhatIf : bool) (MaxRetries : Z) (depts : list string) (w : World) :
  let s := snd (fst (run_loop exchange Start_Sleep WhatIf MaxRetries depts w)) in
  sum_of_buckets (stats s) <= TotalProcessed (stats s).
Proof.
  cbv zeta. unfold run_loop.
  destruct (process_departments_invariant exchange Start_Sleep
              (fun s => sum_of_buckets (stats s) <= TotalProcessed (stats s))
              WhatIf MaxRetries (Z.of_nat (List.length depts)))
    with (depts := depts)
         (s := {| world := w; stats := initial_stats;
                  processedDepartments := [] |})
    as (s' & t & -> & H).
  - intros d s Hs.
    destruct (process_department_outcome exchange Start_Sleep WhatIf
                MaxRetries (Z.of_nat (List.length depts)) d s)
      as (s1 & t1 & -> & H1).
    cbn [fst snd].
    destruct (WhatIf && reaches_gate d).
    + subst s1. cbn [counted stats].
      rewrite sum_of_buckets_incr_TotalProcessed.
      cbn [incr_TotalProcessed TotalProcessed]. lia.
    + destruct H1 as (b & e & w' & -> & _ & _).
      cbn [recorded counted stats].
      rewrite sum_of_buckets_bump, TotalProcessed_bump,
        sum_of_buckets_incr_TotalProcessed.
      cbn [incr_TotalProcessed TotalProcessed]. lia.
  - cbn. lia.
  - exact H.
Qed.

(** X18. After any run of the loop the two rates of the report are
    percentages: each lies between 0 and 100, the counters are not
    negative, and successes and errors together do not exceed the
    departments processed. *)
Theorem rates_are_percentages {World : Type}
    (exchange : Call -> World -> (exn + option Recipient) * World)
    (Start_Sleep : Z -> World -> World)
    (WhatIf : bool) (MaxRetries : Z) (depts : list string) (w : World) :
  let s := snd (fst (run_loop exchange Start_Sleep WhatIf MaxRetries depts w)) in
  let rep := Report (stats s) in
  0 <= successCount rep /\ 0 <= totalErrors rep /\ 0 <= Skipped (stats s) /\
  successCount rep + totalErrors rep + Skipped (stats s)
  <= TotalProcessed (stats s) /\
  (0 <= successRate rep)%Q /\ (successRate rep <= 100)%Q /\
  (0 <= errorRate rep)%Q /\ (errorRate rep <= 100)%Q.
Proof.
  cbv zeta.
  pose proof (counters_match_entries exchange Start_Sleep WhatIf MaxRetries
                depts w) as HC. cbv zeta in HC.
  pose proof (buckets_below_total exchange Start_Sleep WhatIf MaxRetries
                depts w) as HB. cbv zeta in HB.
  set (s := snd (fst (run_loop exchange Start_Sleep WhatIf MaxRetries depts w)))
    in *.
  pose proof (HC BCreated) as H1. pose proof (HC BUpdated) as H2.
  pose proof (HC BSkipped) as H3. pose proof (HC BValidationErrors) as H4.
  pose proof (HC BProcessingErrors) as H5. cbn [read] in *.
  pose proof (count_status_nonneg (statuses_of BCreated) (processedDepartments s)).
  pose proof (count_status_nonneg (statuses_of BUpdated) (processedDepartments s)).
  pose proof (count_status_nonneg (statuses_of BSkipped) (processedDepartments s)).
  pose proof (count_status_nonneg (statuses_of BValidationErrors)
                (processedDepartments s)).
  pose proof (count_status_nonneg (statuses_of BProcessingErrors)
                (processedDepartments s)).
  unfold sum_of_buckets in HB. unfold Report.
  cbn [successCount totalErrors successRate errorRate].
  split; [lia|]. split; [lia|]. split; [lia|]. split; [lia|].
  destruct (TotalProcessed (stats s) >? 0) eqn:E.
  - apply Z.gtb_gt in E.
    destruct (exact_percentage (Created (stats s) + Updated (stats s))
                (TotalProcessed (stats s)) ltac:(lia) ltac:(lia)) as [A1 A2].
    destruct (exact_percentage
                (ValidationErrors (stats s) + ProcessingErrors (stats s))
                (TotalProcessed (stats s)) ltac:(lia) ltac:(lia)) as [B1 B2].
    destruct (Math_Round_2_percentage _ A1 A2) as [R1 R2].
    destruct (Math_Round_2_percentage _ B1 B2) as [R3 R4].
    auto.
  - repeat split; discriminate.
Qed.

(* ===================================================================== *)
(** ** The listing of departments *)
(* ===================================================================== *)

Lemma ForallOrdPairs_snoc {A} (R : A -> A -> Prop) (l : list A) (x : A) :
  ForallOrdPairs R l -> (forall u, In u l -> R u x) ->
  ForallOrdPairs R (l ++ [x]).
Proof.
  induction 1 as [|a l Ha Hl IH]; intros Hx; cbn [app].
  - repeat constructor.
  - constructor.
    + apply Forall_app. split; [assumption|].
      constructor; [apply Hx; now left | constructor].
    + apply IH. intros u Hu. apply Hx. now right.
Qed.

(** What [Select-Object -Unique] keeps, whatever the comparison is. *)
Lemma Select_Unique_from_facts (host : Comparisons) (l : list string) :
  forall uniques,
    (exists rest,
        Select_Unique_from host uniques l = (uniques ++ rest)%list /\
        incl rest l) /\
    (ForallOrdPairs (fun kept later => unique_comparer host later kept = false)
       uniques ->
     ForallOrdPairs (fun kept later => unique_comparer host later kept = false)
       (Select_Unique_from host uniques l)) /\
    (forall x, In x l ->
       exists kept,
         In kept (Select_Unique_from host uniques l) /\
         (kept = x \/ unique_comparer host x kept = true)).
Proof.
  induction l as [|x l IH]; intros uniques; cbn [Select_Unique_from].
  - split; [exists []; split; [now rewrite app_nil_r | easy]|].
    split; [auto | intros x []].
  - destruct (existsb (unique_comparer host x) uniques) eqn:E.
    + destruct (IH uniques) as ((rest & Hr & Hi) & Hp & Hc).
      split; [exists rest; split; [assumption | now apply incl_tl]|].
      split; [assumption|].
      intros y [<-|Hy]; [|now apply Hc].
      apply existsb_exists in E as (u & Hu & Hxu).
      exists u. split; [|now right]. rewrite Hr. apply in_or_app. now left.
    + destruct (IH (uniques ++ [x])%list) as ((rest & Hr & Hi) & Hp & Hc).
      split.
      { exists (x :: rest). split; [now rewrite Hr, <- app_assoc|].
        intros y [<-|Hy]; [now left | right; now apply Hi]. }
      split.
      { intros HU. apply Hp. apply ForallOrdPairs_snoc; [assumption|].
        intros u Hu.
        destruct (unique_comparer host x u) eqn:Exu; [|reflexivity].
        assert (existsb (unique_comparer host x) uniques = true)
          by (apply existsb_exists; now exists u).
        congruence. }
      intros y [<-|Hy]; [|now apply Hc].
      exists x. split; [|now left]. rewrite Hr.
      apply in_or_app. left. apply in_or_app. right. now left.
Qed.

Lemma Select_Unique_nil (host : Comparisons) (l : list string) :
  Select_Unique host l = [] <-> l = [].
Proof.
  split; [|now intros ->].
  destruct l as [|x l]; [reflexivity|]. unfold Select_Unique.
  cbn [Select_Unique_from existsb app].
  destruct (Select_Unique_from_facts host l [x]) as ((rest & -> & _) & _).
  discriminate.
Qed.

(** X19. Whatever the comparisons of the host are, of the departments
    handed to the loop none compares equal to one kept before it, none
    compares equal to the empty string, and each is the department of a
    recipient returned whose type matches [UserMailbox|MailUser];
    conversely the department of every such recipient that does not
    compare equal to the empty string is handed to the loop, or compares
    equal to one that is. *)
Theorem listed_departments_are_distinct_and_wanted
    (host : Comparisons) (rs : list ListedRecipient) :
  let depts := departments_of host rs in
  ForallOrdPairs (fun kept later => unique_comparer host later kept = false)
    depts /\
  (forall d,
      In d depts ->
      op_eq host d "" = false /\
      exists r,
        In r rs /\ Listed_Department r = Some d /\
        match_UserMailbox_or_MailUser (Listed_RecipientTypeDetails r) = true) /\
  (forall r d,
      In r rs -> Listed_Department r = Some d ->
      op_eq host d "" = false ->
      match_UserMailbox_or_MailUser (Listed_RecipientTypeDetails r) = true ->
      exists kept,
        In kept depts /\ (kept = d \/ unique_comparer host d kept = true)).
Proof.
  cbv zeta. unfold departments_of, Select_Unique.
  set (wanted := map (fun r => str (Listed_Department r))
                   (filter (Where_Object host) rs)).
  destruct (Select_Unique_from_facts host wanted [])
    as ((rest & Hr & Hi) & Hp & Hc).
  split; [apply Hp; constructor|]. split.
  - intros d Hd. rewrite Hr in Hd. cbn [app] in Hd. apply Hi in Hd.
    unfold wanted in Hd. apply in_map_iff in Hd as (r & <- & Hin).
    apply filter_In in Hin as [Hin Hw]. unfold Where_Object in Hw.
    destruct (Listed_Department r) as [d|] eqn:Ed; [|discriminate].
    apply andb_true_iff in Hw as [Hne Hty]. apply negb_true_iff in Hne.
    cbn [str]. split; [assumption|]. now exists r.
  - intros r d Hin Ed Hne Hty. apply Hc. unfold wanted.
    apply in_map_iff. exists r. rewrite Ed. split; [reflexivity|].
    apply filter_In. split; [assumption|]. unfold Where_Object.
    rewrite Ed, Hne, Hty. reflexivity.
Qed.

Example departments_of_the_office :
  departments_of plain Office.staff = ["12345 Finance - USA"; "bad"].
Proof. reflexivity. Qed.

(* ===================================================================== *)
(** ** The whole script *)
(* ===================================================================== *)

Lemma count_steps_app (p : Step -> bool) (l1 l2 : list Step) :
  count_steps p (l1 ++ l2) = (count_steps p l1 + count_steps p l2)%nat.
Proof. unfold count_steps. now rewrite filter_app, length_app. Qed.

Lemma count_steps_Ran (p : Step -> bool) (t : list Event) :
  count_steps p (map Ran t)
  = List.length (filter (fun e => p (Ran e)) t).
Proof.
  unfold count_steps. induction t as [|e t IH]; [reflexivity|].
  cbn [map filter]. destruct (p (Ran e)); cbn [List.length]; now rewrite IH.
Qed.

Lemma count_steps_Ran_none (p : Step -> bool) (t : list Event) :
  (forall e, p (Ran e) = false) -> count_steps p (map Ran t) = 0%nat.
Proof.
  intros H. rewrite count_steps_Ran.
  induction t as [|e t IH]; [reflexivity|]. cbn [filter]. now rewrite H.
Qed.

Lemma count_calls_Ran (t : list Event) :
  count_steps ran_call (map Ran t) = List.length (calls t).
Proof. apply count_steps_Ran. Qed.

Lemma count_attempts_Ran (t : list Event) :
  count_steps ran_attempt (map Ran t) = attempts t.
Proof. apply count_steps_Ran. Qed.

Section BlockRuns.

Context {World T : Type}.
Variable Start_Sleep : Z -> World -> World.
Variable Operation : ScriptBlock World T.
Variable OperationName : string.
Variable MaxRetries : Z.

Lemma fails_from_S (i : nat) :
  forall a w,
    fails_from Start_Sleep Operation a w (S i) = true ->
    fails_from Start_Sleep Operation a w i = true /\
    exists msg w' cs,
      Operation (world_from Start_Sleep Operation a w i) = (inl msg, w', cs).
Proof.
  induction i as [|i IH]; intros a w H.
  - cbn [fails_from world_from] in *.
    destruct (Operation w) as [[[msg|r] w1] cs]; [|discriminate].
    split; [reflexivity|]. now exists msg, w1, cs.
  - cbn [fails_from] in H.
    destruct (Operation w) as [[[msg|r] w1] cs] eqn:Hop; [|discriminate].
    apply IH in H as [H1 H2].
    cbn [fails_from world_from]. rewrite Hop. cbn [fst snd]. auto.
Qed.

(** A block that issues no cmdlet of the loop leaves none in the run. *)
Lemma retry_block_no_calls (n : nat) :
  (forall w, snd (Operation w) = []) ->
  forall attempt w,
    MaxRetries + 1 - attempt <= Z.of_nat n ->
    calls (snd (retry_loop Start_Sleep Operation OperationName MaxRetries
                  attempt w)) = [].
Proof.
  intros Hno. induction n as [|n IH]; intros attempt w Hn.
  - now rewrite retry_loop_done by lia.
  - destruct (Z_le_gt_dec attempt MaxRetries) as [Hle|Hgt];
      [|now rewrite retry_loop_done by lia].
    pose proof (Hno w) as Hcs.
    destruct (Operation w) as [[[msg|result] w1] cs] eqn:Hop;
      cbn [snd] in Hcs; subst cs.
    + destruct (Z.eq_dec attempt MaxRetries) as [E|E].
      * rewrite (retry_loop_last _ _ _ _ _ _ _ _ _ E Hop). reflexivity.
      * rewrite (retry_loop_again _ _ _ _ attempt w w1 msg [])
          by (lia || assumption).
        specialize (IH (attempt + 1) (Start_Sleep (2 * (attempt + 1)) w1)
                      ltac:(lia)).
        destruct (retry_loop _ _ _ _ (attempt + 1) _) as [[r w2] t2].
        cbn [snd] in *. exact IH.
    + rewrite (retry_loop_success _ _ _ _ _ _ _ _ _ Hle Hop). reflexivity.
Qed.

(** All the attempts allowed throw: the executor returns the failure of
    the last one after [MaxRetries] attempts. *)
Lemma invoke_exhausted (w : World) :
  1 <= MaxRetries ->
  fails_from Start_Sleep Operation 1 w (Z.to_nat MaxRetries) = true ->
  exists msg t,
    outcome_of_attempt Start_Sleep Operation w (Z.to_nat MaxRetries)
    = inl msg /\
    Invoke_ExchangeOperation Start_Sleep Operation OperationName MaxRetries w
    = (inr (Some (failure_of msg)),
       world_after_attempt Start_Sleep Operation w (Z.to_nat MaxRetries), t) /\
    attempts t = Z.to_nat MaxRetries.
Proof.
  intros HM Hf. unfold outcome_of_attempt, world_after_attempt.
  destruct (Z.to_nat MaxRetries) as [|i] eqn:Ei; [lia|].
  apply fails_from_S in Hf as (Hf & msg & w' & cs & Hop).
  destruct (retry_loop_exhausts Start_Sleep Operation OperationName
              MaxRetries i 1 w w' msg cs ltac:(lia) Hf Hop) as (t & Ht & Ha).
  exists msg, t. replace (S i - 1)%nat with i by lia. rewrite Hop.
  cbn [fst snd]. split; [reflexivity|].
  unfold Invoke_ExchangeOperation. now rewrite Ht.
Qed.

End BlockRuns.

Lemma count_steps_log (p : Step -> bool) (lines : list string) :
  (forall l, p (Ran (EvOutput l)) = false) -> count_steps p (log lines) = 0%nat.
Proof.
  intros H. unfold count_steps, log.
  induction lines as [|l ls IH]; [reflexivity|]. cbn [map filter]. now rewrite H.
Qed.

Lemma calls_summary_report (show_rate : Q -> string)
    (completed_at : string) (Count : Z) (st : Stats)
    (ps : list Entry) :
  calls (summary_report show_rate completed_at Count st ps) = [] /\
  attempts (summary_report show_rate completed_at Count st ps)
  = 0%nat.
Proof.
  apply calls_outputs_only. unfold summary_report.
  repeat (apply Forall_app; split);
    try (destruct (_ >? 0)); repeat constructor;
    apply Forall_map, Forall_forall; reflexivity.
Qed.

(** The exit code of line 437 after any run of the loop. *)
Lemma loop_exit_code {World : Type}
    (exchange : Call -> World -> (exn + option Recipient) * World)
    (Start_Sleep : Z -> World -> World)
    (WhatIf : bool) (MaxRetries : Z) (depts : list string) (w : World) :
  let s := snd (fst (run_loop exchange Start_Sleep WhatIf MaxRetries depts w)) in
  (exitCode (Report (stats s)) = 0 \/ exitCode (Report (stats s)) = 1) /\
  (exitCode (Report (stats s)) = 0
   <-> errorDepartments (processedDepartments s) = []).
Proof.
  cbv zeta.
  pose proof (counters_match_entries exchange Start_Sleep WhatIf MaxRetries
                depts w) as HC. cbv zeta in HC.
  pose proof (recorded_statuses exchange Start_Sleep WhatIf MaxRetries
                depts w) as HS.
  set (s := snd (fst (run_loop exchange Start_Sleep WhatIf MaxRetries depts w)))
    in *.
  destruct (listings_count _ HS) as [HE _].
  rewrite <- (HC BValidationErrors), <- (HC BProcessingErrors) in HE.
  cbn [read] in HE. unfold Report. cbn [exitCode].
  split; [destruct (_ =? 0); auto|].
  rewrite <- HE.
  destruct (errorDepartments (processedDepartments s)) as [|e l].
  - split; reflexivity.
  - cbn [List.length]. rewrite Nat2Z.inj_succ.
    destruct (Z.succ (Z.of_nat (List.length l)) =? 0) eqn:E.
    + apply Z.eqb_eq in E. lia.
    + split; discriminate.
Qed.

Lemma elements_pipeline_value {A} (l : list A) :
  elements (pipeline_value l) = l.
Proof. now destruct l. Qed.

(** One [p] in a list: the places around it are determined. *)
Lemma split_at_only (p : Step -> bool) (x y : Step) :
  p x = true -> p y = true ->
  forall A B pre post,
    count_steps p A = 0%nat -> count_steps p B = 0%nat ->
    (A ++ x :: B = pre ++ y :: post)%list -> pre = A /\ post = B.
Proof.
  intros Hx Hy. unfold count_steps.
  induction A as [|a A IH]; intros B pre post HA HB E.
  - destruct pre as [|z pre]; cbn [app] in E.
    + injection E as _ <-. auto.
    + injection E as -> E. exfalso.
      assert (H : List.length (filter p (pre ++ y :: post)) <> 0%nat).
      { rewrite filter_app, length_app. cbn [filter]. rewrite Hy.
        cbn [List.length]. lia. }
      rewrite <- E in H. contradiction.
  - cbn [filter] in HA. destruct (p a) eqn:Ha; [discriminate|].
    destruct pre as [|z pre]; cbn [app] in E.
    + injection E as -> _. congruence.
    + injection E as <- E. destruct (IH B pre post HA HB E) as [-> ->]. auto.
Qed.

Section MainFacts.

Context {World : Type}.
Variable exchange : Call -> World -> (exn + option Recipient) * World.
Variable Start_Sleep : Z -> World -> World.
Variable Connect_ExchangeOnline : string -> World -> (exn + unit) * World.
Variable Get_Recipient_Unlimited : World -> (exn + list ListedRecipient) * World.
Variable host : Comparisons.
Variable Disconnect_ExchangeOnline : World -> (exn + unit) * World.
Variable show_rate : Q -> string.
Variable completed_at : string.
Variable logFile : string.

Local Abbreviation script_main :=
  (main exchange Start_Sleep Connect_ExchangeOnline Get_Recipient_Unlimited
     host Disconnect_ExchangeOnline show_rate completed_at logFile).
Local Abbreviation connect :=
  (connection Start_Sleep Connect_ExchangeOnline).
Local Abbreviation list_departments :=
  (listing Start_Sleep Get_Recipient_Unlimited host).

Lemma connection_no_calls (Org : string) (MaxRetries : Z) (w : World) :
  calls (snd (connect Org MaxRetries w)) = [].
Proof.
  unfold connection, Invoke_ExchangeOperation.
  pose proof (retry_block_no_calls Start_Sleep
                (connection_block Connect_ExchangeOnline Org)
                "Exchange Connection" MaxRetries (Z.to_nat MaxRetries)) as H.
  destruct (retry_loop _ _ _ _ _ _) as [[r w'] t] eqn:E. cbn [snd].
  specialize (H ltac:(intros w0; unfold connection_block;
                      destruct (Connect_ExchangeOnline Org w0) as [[|] ?];
                      reflexivity) 1 w ltac:(lia)).
  now rewrite E in H.
Qed.

Lemma listing_no_calls (MaxRetries : Z) (w : World) :
  calls (snd (list_departments MaxRetries w)) = [].
Proof.
  unfold listing, Invoke_ExchangeOperation.
  pose proof (retry_block_no_calls Start_Sleep
                (departments_block Get_Recipient_Unlimited host)
                "Get Departments" MaxRetries (Z.to_nat MaxRetries)) as H.
  destruct (retry_loop _ _ _ _ _ _) as [[r w'] t] eqn:E. cbn [snd].
  specialize (H ltac:(intros w0; unfold departments_block;
                      destruct (Get_Recipient_Unlimited w0) as [[|] ?];
                      reflexivity) 1 w ltac:(lia)).
  now rewrite E in H.
Qed.

(** The script when the connection is not a success. *)
Lemma main_without_connection (Org : string) (WhatIf : bool) (LogPath : string)
    (MaxRetries : Z) (w : World) :
  Success_of (returned (fst (fst (connect Org MaxRetries w)))) = false ->
  let out := script_main Org WhatIf LogPath MaxRetries w in
  exit_code out = 1 /\ script out = None /\
  tenant out = snd (fst (connect Org MaxRetries w)) /\
  count_steps is_Disconnected (steps out) = 0%nat /\
  count_steps ran_call (steps out) = 0%nat /\
  count_steps ran_attempt (steps out)
  = attempts (snd (connect Org MaxRetries w)) /\
  In (Ran (EvOutput
             (fatal_connection_line MaxRetries
                (Error_of (returned (fst (fst (connect Org MaxRetries w))))))))
    (steps out).
Proof.
  intros Hc. cbv zeta. unfold main.
  pose proof (connection_no_calls Org MaxRetries w) as Hcalls.
  unfold connection in *.
  destruct (Invoke_ExchangeOperation _ _ _ _ _) as [[r1 w1] t1].
  cbn [fst snd] in *. rewrite Hc. cbn [negb exit_code script tenant steps].
  split; [reflexivity|]. split; [reflexivity|]. split; [reflexivity|].
  rewrite !count_steps_app, !count_calls_Ran, !count_attempts_Ran, Hcalls,
    !(count_steps_Ran_none is_Disconnected) by reflexivity.
  split; [destruct (negb (LogPath =? "")%string); reflexivity|].
  split; [destruct (negb (LogPath =? "")%string); reflexivity|].
  split; [destruct (negb (LogPath =? "")%string); cbn; lia|].
  apply in_or_app. right. apply in_or_app. right.
  apply in_or_app. left. now left.
Qed.

Ltac count_steps_norm :=
  rewrite ?count_steps_app, ?count_calls_Ran, ?count_attempts_Ran;
  repeat (rewrite (count_steps_Ran_none is_Disconnected) by reflexivity);
  repeat (rewrite (count_steps_Ran_none is_Transcript_started) by reflexivity);
  repeat (rewrite (count_steps_Ran_none is_Transcript_stopped) by reflexivity);
  repeat (rewrite count_steps_log by reflexivity).

(** The script when the connection is a success and the listing is not. *)
Lemma main_without_listing (Org : string) (WhatIf : bool) (LogPath : string)
    (MaxRetries : Z) (w : World) :
  Success_of (returned (fst (fst (connect Org MaxRetries w)))) = true ->
  let w1 := snd (fst (connect Org MaxRetries w)) in
  Success_of (returned (fst (fst (list_departments MaxRetries w1)))) = false ->
  let out := script_main Org WhatIf LogPath MaxRetries w in
  exit_code out = 1 /\ script out = None /\
  tenant out
  = snd (Disconnect_ExchangeOnline
           (snd (fst (list_departments MaxRetries w1)))) /\
  count_steps is_Disconnected (steps out) = 1%nat /\
  count_steps ran_call (steps out) = 0%nat /\
  count_steps ran_attempt (steps out)
  = (attempts (snd (connect Org MaxRetries w))
     + attempts (snd (list_departments MaxRetries w1)))%nat /\
  In (Ran (EvOutput
             (fatal_departments_line
                (Error_of
                   (returned (fst (fst (list_departments MaxRetries w1))))))))
    (steps out).
Proof.
  intros Hc. cbv zeta. intros Hl. unfold main.
  pose proof (connection_no_calls Org MaxRetries w) as Hcalls.
  pose proof (listing_no_calls MaxRetries
                (snd (fst (connect Org MaxRetries w)))) as Hcalls2.
  unfold connection, listing in *.
  destruct (Invoke_ExchangeOperation _ (connection_block _ _) _ _ _)
    as [[r1 w1] t1].
  cbn [fst snd] in *. rewrite Hc. cbn [negb].
  destruct (Invoke_ExchangeOperation _ (departments_block _ _) _ _ _)
    as [[r2 w2] t2].
  cbn [fst snd] in *. rewrite Hl. cbn [negb].
  destruct (Disconnect_ExchangeOnline w2) as [d w3].
  cbn [exit_code script tenant steps snd].
  split; [reflexivity|]. split; [reflexivity|]. split; [reflexivity|].
  count_steps_norm. rewrite Hcalls, Hcalls2.
  repeat split;
    try (destruct (negb (LogPath =? "")%string); cbn; lia).
  rewrite !in_app_iff. cbn [log map In]. tauto.
Qed.

(** The script when the listing is a success and holds no department. *)
Lemma main_without_departments (Org : string) (WhatIf : bool)
    (LogPath : string) (MaxRetries : Z) (w : World) :
  Success_of (returned (fst (fst (connect Org MaxRetries w)))) = true ->
  let w1 := snd (fst (connect Org MaxRetries w)) in
  Success_of (returned (fst (fst (list_departments MaxRetries w1)))) = true ->
  elements (Result_of (returned (fst (fst (list_departments MaxRetries w1)))))
  = [] ->
  let out := script_main Org WhatIf LogPath MaxRetries w in
  exit_code out = 0 /\ script out = None /\
  tenant out
  = snd (Disconnect_ExchangeOnline
           (snd (fst (list_departments MaxRetries w1)))) /\
  count_steps is_Disconnected (steps out) = 1%nat /\
  count_steps ran_call (steps out) = 0%nat /\
  In (Ran (EvOutput
             "No departments found with valid recipients. Exiting gracefully."))
    (steps out).
Proof.
  intros Hc. cbv zeta. intros Hl He. unfold main.
  pose proof (connection_no_calls Org MaxRetries w) as Hcalls.
  pose proof (listing_no_calls MaxRetries
                (snd (fst (connect Org MaxRetries w)))) as Hcalls2.
  unfold connection, listing in *.
  destruct (Invoke_ExchangeOperation _ (connection_block _ _) _ _ _)
    as [[r1 w1] t1].
  cbn [fst snd] in *. rewrite Hc. cbn [negb].
  destruct (Invoke_ExchangeOperation _ (departments_block _ _) _ _ _)
    as [[r2 w2] t2].
  cbn [fst snd] in *. rewrite Hl, He. cbn [negb List.length Z.of_nat Z.eqb].
  destruct (Disconnect_ExchangeOnline w2) as [d w3].
  cbn [exit_code script tenant steps snd].
  split; [reflexivity|]. split; [reflexivity|]. split; [reflexivity|].
  count_steps_norm. rewrite Hcalls, Hcalls2.
  repeat split;
    try (destruct (negb (LogPath =? "")%string); cbn; lia).
  rewrite !in_app_iff. cbn [log map In]. tauto.
Qed.

(** The script when there are departments to process. *)
Lemma main_with_departments (Org : string) (WhatIf : bool)
    (LogPath : string) (MaxRetries : Z) (w : World) :
  Success_of (returned (fst (fst (connect Org MaxRetries w)))) = true ->
  let w1 := snd (fst (connect Org MaxRetries w)) in
  let listed := list_departments MaxRetries w1 in
  Success_of (returned (fst (fst listed))) = true ->
  let depts := elements (Result_of (returned (fst (fst listed)))) in
  depts <> [] ->
  let ran := run_loop exchange Start_Sleep WhatIf MaxRetries depts
               (snd (fst listed)) in
  let s := snd (fst ran) in
  let out := script_main Org WhatIf LogPath MaxRetries w in
  exit_code out = exitCode (Report (stats s)) /\ script out = Some s /\
  tenant out = snd (Disconnect_ExchangeOnline (world s)) /\
  count_steps is_Disconnected (steps out) = 1%nat /\
  filter ran_call (steps out) = map Ran (calls (snd ran)) /\
  incl (map Ran
          (summary_report show_rate completed_at
             (Z.of_nat (List.length depts)) (stats s)
             (processedDepartments s)))
    (steps out).
Proof.
  intros Hc. cbv zeta. intros Hl He. unfold main.
  pose proof (connection_no_calls Org MaxRetries w) as Hcalls.
  pose proof (listing_no_calls MaxRetries
                (snd (fst (connect Org MaxRetries w)))) as Hcalls2.
  unfold connection, listing in *.
  destruct (Invoke_ExchangeOperation _ (connection_block _ _) _ _ _)
    as [[r1 w1] t1].
  cbn [fst snd] in *. rewrite Hc. cbn [negb].
  destruct (Invoke_ExchangeOperation _ (departments_block _ _) _ _ _)
    as [[r2 w2] t2].
  cbn [fst snd] in *. rewrite Hl. cbn [negb].
  destruct (elements (Result_of (returned r2))) as [|d0 ds] eqn:Ed;
    [congruence|].
  replace (Z.of_nat (List.length (d0 :: ds)) =? 0) with false
    by (symmetry; apply Z.eqb_neq; cbn [List.length]; lia).
  destruct (run_loop _ _ _ _ _ _) as [[r3 s] t3]. cbn [fst snd].
  destruct (Disconnect_ExchangeOnline (world s)) as [d w4].
  cbn [exit_code script tenant steps fst snd].
  split; [reflexivity|]. split; [reflexivity|]. split; [reflexivity|].
  split.
  { count_steps_norm.
    destruct (negb (LogPath =? "")%string); cbn; lia. }
  split.
  { assert (F : forall t, filter ran_call (map Ran t) = map Ran (calls t)).
    { induction t as [|e t IH]; [reflexivity|]. unfold calls in *.
      cbn [map filter ran_call]. destruct (is_call e); cbn [map];
        now rewrite IH. }
    assert (L : forall ls, filter ran_call (log ls) = []).
    { induction ls as [|l ls IH]; [reflexivity|]. exact IH. }
    rewrite !filter_app, !F, !L, Hcalls, Hcalls2,
      (proj1 (calls_summary_report _ _ _ _ _)).
    destruct (negb (LogPath =? "")%string); cbn [filter map app ran_call];
      now rewrite ?app_nil_r. }
  intros x Hx. rewrite !in_app_iff. tauto.
Qed.

Lemma invoke_without_retries {T} (Operation : ScriptBlock World T)
    (OperationName : string) (MaxRetries : Z) (w : World) :
  MaxRetries <= 0 ->
  Invoke_ExchangeOperation Start_Sleep Operation OperationName MaxRetries w
  = (inr None, w, []).
Proof.
  intros H. unfold Invoke_ExchangeOperation.
  now rewrite retry_loop_done by lia.
Qed.

Lemma connected_needs_retries (Org : string) (MaxRetries : Z) (w : World) :
  Success_of (returned (fst (fst (connect Org MaxRetries w)))) = true ->
  1 <= MaxRetries.
Proof.
  intros H. destruct (Z_le_gt_dec 1 MaxRetries) as [|Hgt]; [assumption|].
  unfold connection in H. rewrite invoke_without_retries in H by lia.
  discriminate.
Qed.

(** The listing when [Get-Recipient] answers at the first attempt. *)
Lemma listing_at_first_attempt (MaxRetries : Z) (w1 w2 : World)
    (rs : list ListedRecipient) :
  1 <= MaxRetries ->
  Get_Recipient_Unlimited w1 = (inr rs, w2) ->
  list_departments MaxRetries w1
  = (inr (Some (success_of (pipeline_value (departments_of host rs)))), w2,
     [EvAttempt "Get Departments" 1]).
Proof.
  intros HM HG. unfold listing, Invoke_ExchangeOperation.
  rewrite (retry_loop_success Start_Sleep
             (departments_block Get_Recipient_Unlimited host) "Get Departments"
             MaxRetries 1 w1 w2 (pipeline_value (departments_of host rs)) []);
    [reflexivity | assumption |].
  unfold departments_block. now rewrite HG.
Qed.

(** X20. With [-MaxRetries 0] or less the executor never runs
    [Connect-ExchangeOnline]: the script reports a failed connection with
    an empty error text and exits with 1, the tenant untouched, no
    session to disconnect and no department processed. *)
Theorem no_retries_means_no_connection (Org : string) (WhatIf : bool)
    (LogPath : string) (MaxRetries : Z) (w : World) :
  MaxRetries <= 0 ->
  let out := script_main Org WhatIf LogPath MaxRetries w in
  exit_code out = 1 /\ tenant out = w /\ script out = None /\
  count_steps ran_attempt (steps out) = 0%nat /\
  count_steps ran_call (steps out) = 0%nat /\
  count_steps is_Disconnected (steps out) = 0%nat /\
  In (Ran (EvOutput (fatal_connection_line MaxRetries None))) (steps out).
Proof.
  intros HM.
  assert (E : connect Org MaxRetries w = (inr None, w, []))
    by (apply invoke_without_retries; assumption).
  destruct (main_without_connection Org WhatIf LogPath MaxRetries w)
    as (H1 & H2 & H3 & H4 & H5 & H6 & H7);
    [now rewrite E|].
  rewrite E in H3, H6, H7. cbn [fst snd returned Error_of] in *.
  cbv zeta. auto 10.
Qed.

(** X21. When [Connect-ExchangeOnline] throws at every attempt allowed,
    the script makes exactly [MaxRetries] attempts, none of them for the
    listing, reports as fatal the message thrown by the last attempt and
    exits with 1, in the tenant that attempt left; it issues no cmdlet of
    the loop and does not disconnect. *)
Theorem failed_connection_is_fatal (Org : string) (WhatIf : bool)
    (LogPath : string) (MaxRetries : Z) (w : World) :
  1 <= MaxRetries ->
  fails_from Start_Sleep (connection_block Connect_ExchangeOnline Org) 1 w
    (Z.to_nat MaxRetries) = true ->
  let out := script_main Org WhatIf LogPath MaxRetries w in
  exit_code out = 1 /\ script out = None /\
  tenant out
  = world_after_attempt Start_Sleep
      (connection_block Connect_ExchangeOnline Org) w (Z.to_nat MaxRetries) /\
  count_steps ran_attempt (steps out) = Z.to_nat MaxRetries /\
  count_steps (ran_attempt_of "Get Departments") (steps out) = 0%nat /\
  count_steps ran_call (steps out) = 0%nat /\
  count_steps is_Disconnected (steps out) = 0%nat /\
  exists msg,
    outcome_of_attempt Start_Sleep
      (connection_block Connect_ExchangeOnline Org) w (Z.to_nat MaxRetries)
    = inl msg /\
    In (Ran (EvOutput (fatal_connection_line MaxRetries (Some msg))))
      (steps out).
Proof.
  intros HM Hf.
  destruct (invoke_exhausted Start_Sleep
              (connection_block Connect_ExchangeOnline Org)
              "Exchange Connection" MaxRetries w HM Hf)
    as (msg & t & Hlast & E & Ha).
  fold (connect Org MaxRetries w) in E.
  destruct (main_without_connection Org WhatIf LogPath MaxRetries w)
    as (H1 & H2 & H3 & H4 & H5 & H6 & H7);
    [now rewrite E|].
  rewrite E in H3, H6, H7.
  cbn [fst snd returned Error_of failure_of op_Error] in *.
  cbv zeta. split; [assumption|]. split; [assumption|].
  split; [assumption|]. split; [congruence|]. split.
  { unfold main. fold (connect Org MaxRetries w). rewrite E.
    cbn [returned Success_of failure_of op_Success negb steps].
    rewrite !count_steps_app.
    assert (T : count_steps (ran_attempt_of "Get Departments") (map Ran t)
                = 0%nat).
    { clear - E HM. unfold connection, Invoke_ExchangeOperation in E.
      destruct (retry_loop_run Start_Sleep
                  (connection_block Connect_ExchangeOnline Org)
                  "Exchange Connection" MaxRetries (Z.to_nat MaxRetries) 1 w
                  ltac:(lia)) as (r & w1 & t1 & E1 & F).
      rewrite E1 in E. injection E as -> _ ->.
      pose proof (run_schedule _ _ _ _ _ _ _ _ _ F) as HS.
      rewrite count_steps_Ran.
      assert (G : forall n a,
                 filter (fun e => ran_attempt_of "Get Departments" (Ran e))
                   (timeline "Exchange Connection" a n) = []).
      { induction n as [|n IH]; intros a; [reflexivity|].
        destruct n as [|n]; [reflexivity|]. specialize (IH (a + 1)).
        change (timeline "Exchange Connection" a (S (S n)))
          with (EvAttempt "Exchange Connection" a :: EvSleep (2 * (a + 1))
                :: timeline "Exchange Connection" (a + 1) (S n)).
        exact IH. }
      assert (K : forall l : list Event,
                 filter (fun e => ran_attempt_of "Get Departments" (Ran e)) l
                 = filter (fun e => ran_attempt_of "Get Departments" (Ran e))
                     (schedule l)).
      { unfold schedule. induction l as [|e l IH]; [reflexivity|].
        destruct e; cbn [filter ran_attempt_of is_attempt is_sleep orb];
          try exact IH.
        destruct (String.eqb _ _); [f_equal|]; exact IH. }
      now rewrite K, HS, G. }
    rewrite T. rewrite !count_steps_log by reflexivity.
    destruct (negb (LogPath =? "")%string); reflexivity. }
  split; [assumption|]. split; [assumption|]. now exists msg.
Qed.

(** X22. When the connection succeeds and [Get-Recipient] throws at every
    attempt allowed, the script reports as fatal the message thrown by the
    last attempt of the listing, disconnects exactly once, in the tenant
    that attempt left, and exits with 1; no department is processed and no
    cmdlet of the loop is issued. *)
Theorem failed_listing_disconnects_and_fails (Org : string) (WhatIf : bool)
    (LogPath : string) (MaxRetries : Z) (w : World) :
  Success_of (returned (fst (fst (connect Org MaxRetries w)))) = true ->
  let w1 := snd (fst (connect Org MaxRetries w)) in
  let Get_Departments := departments_block Get_Recipient_Unlimited host in
  fails_from Start_Sleep Get_Departments 1 w1 (Z.to_nat MaxRetries) = true ->
  let out := script_main Org WhatIf LogPath MaxRetries w in
  exit_code out = 1 /\ script out = None /\
  tenant out
  = snd (Disconnect_ExchangeOnline
           (world_after_attempt Start_Sleep Get_Departments w1
              (Z.to_nat MaxRetries))) /\
  count_steps is_Disconnected (steps out) = 1%nat /\
  count_steps ran_call (steps out) = 0%nat /\
  count_steps ran_attempt (steps out)
  = (attempts (snd (connect Org MaxRetries w)) + Z.to_nat MaxRetries)%nat /\
  exists msg,
    outcome_of_attempt Start_Sleep Get_Departments w1 (Z.to_nat MaxRetries)
    = inl msg /\
    In (Ran (EvOutput (fatal_departments_line (Some msg)))) (steps out).
Proof.
  intros Hc. cbv zeta. intros Hf.
  pose proof (connected_needs_retries Org MaxRetries w Hc) as HM.
  destruct (invoke_exhausted Start_Sleep
              (departments_block Get_Recipient_Unlimited host)
              "Get Departments" MaxRetries _ HM Hf)
    as (msg & t & Hlast & E & Ha).
  fold (list_departments MaxRetries (snd (fst (connect Org MaxRetries w)))) in E.
  destruct (main_without_listing Org WhatIf LogPath MaxRetries w Hc)
    as (H1 & H2 & H3 & H4 & H5 & H6 & H7);
    [now rewrite E|].
  rewrite E in H3, H6, H7.
  cbn [fst snd returned Error_of failure_of op_Error] in *.
  split; [assumption|]. split; [assumption|]. split; [assumption|].
  split; [assumption|]. split; [assumption|]. split; [congruence|].
  now exists msg.
Qed.

(** X23. When the connection succeeds and the first [Get-Recipient] returns
    no recipient with a department and a mailbox or mail user type, the
    script exits with 0 after disconnecting once: it runs no loop and
    issues no cmdlet of the loop. *)
Theorem nothing_listed_exits_gracefully (Org : string) (WhatIf : bool)
    (LogPath : string) (MaxRetries : Z) (w w2 : World)
    (rs : list ListedRecipient) :
  Success_of (returned (fst (fst (connect Org MaxRetries w)))) = true ->
  Get_Recipient_Unlimited (snd (fst (connect Org MaxRetries w)))
  = (inr rs, w2) ->
  filter (Where_Object host) rs = [] ->
  let out := script_main Org WhatIf LogPath MaxRetries w in
  exit_code out = 0 /\ script out = None /\
  tenant out = snd (Disconnect_ExchangeOnline w2) /\
  count_steps is_Disconnected (steps out) = 1%nat /\
  count_steps ran_call (steps out) = 0%nat /\
  In (Ran (EvOutput
             "No departments found with valid recipients. Exiting gracefully."))
    (steps out).
Proof.
  intros Hc HG Hrs.
  pose proof (connected_needs_retries Org MaxRetries w Hc) as HM.
  pose proof (listing_at_first_attempt MaxRetries _ w2 rs HM HG) as E.
  assert (D : departments_of host rs = [])
    by (unfold departments_of; now rewrite Hrs).
  rewrite D in E.
  destruct (main_without_departments Org WhatIf LogPath MaxRetries w Hc)
    as (H1 & H2 & H3 & H4 & H5 & H6);
    try (rewrite E; reflexivity).
  rewrite E in H3. cbv zeta. cbn [fst snd] in H3. auto 10.
Qed.

(** X24. When the connection succeeds and the first [Get-Recipient] returns
    recipients of which some pass the filter, the script runs the loop on
    their distinct departments in the tenant the listing left, issues no
    other cmdlet than the loop's, disconnects once in the tenant the loop
    left, and exits with 0 exactly when no entry with an error status was
    recorded, with 1 otherwise. *)
Theorem full_run_exit_code (Org : string) (WhatIf : bool)
    (LogPath : string) (MaxRetries : Z) (w w2 : World)
    (rs : list ListedRecipient) :
  Success_of (returned (fst (fst (connect Org MaxRetries w)))) = true ->
  Get_Recipient_Unlimited (snd (fst (connect Org MaxRetries w)))
  = (inr rs, w2) ->
  filter (Where_Object host) rs <> [] ->
  let ran := run_loop exchange Start_Sleep WhatIf MaxRetries
               (departments_of host rs) w2 in
  let s := snd (fst ran) in
  let out := script_main Org WhatIf LogPath MaxRetries w in
  script out = Some s /\
  tenant out = snd (Disconnect_ExchangeOnline (world s)) /\
  TotalProcessed (stats s) = Z.of_nat (List.length (departments_of host rs)) /\
  filter ran_call (steps out) = map Ran (calls (snd ran)) /\
  count_steps is_Disconnected (steps out) = 1%nat /\
  (exit_code out = 0 \/ exit_code out = 1) /\
  (exit_code out = 0 <-> errorDepartments (processedDepartments s) = []).
Proof.
  intros Hc HG Hrs.
  pose proof (connected_needs_retries Org MaxRetries w Hc) as HM.
  pose proof (listing_at_first_attempt MaxRetries _ w2 rs HM HG) as E.
  assert (D : departments_of host rs <> []).
  { unfold departments_of. rewrite Select_Unique_nil.
    destruct (filter (Where_Object host) rs) as [|r l]; [congruence|].
    discriminate. }
  destruct (main_with_departments Org WhatIf LogPath MaxRetries w Hc)
    as (H1 & H2 & H3 & H4 & H5 & H6);
    try (rewrite E; cbn [fst snd returned Success_of success_of op_Success
                         Result_of Result];
         rewrite ?elements_pipeline_value; auto).
  rewrite E in H1, H2, H3, H5.
  cbn [fst snd returned Result_of success_of Result] in H1, H2, H3, H5.
  rewrite elements_pipeline_value in H1, H2, H3, H5.
  cbv zeta.
  destruct (loop_exit_code exchange Start_Sleep WhatIf MaxRetries
              (departments_of host rs) w2) as [L1 L2].
  split; [assumption|]. split; [assumption|].
  split.
  { unfold run_loop.
    destruct (process_departments_facts exchange Start_Sleep WhatIf MaxRetries
                (Z.of_nat (List.length (departments_of host rs))) (departments_of host rs)
                {| world := w2; stats := initial_stats;
                   processedDepartments := [] |})
      as (s' & t & new & -> & HT & _).
    cbn [fst snd]. rewrite HT. reflexivity. }
  split; [assumption|]. split; [assumption|].
  rewrite H1. split; assumption.
Qed.

(** X25. On every path to [exit] the transcript is stopped exactly when
    it was started, which is when [-LogPath] is not empty; the session is
    disconnected exactly once when the connection succeeded and never when
    it did not; and the exit code is 0 or 1. *)
Theorem transcript_and_session_are_closed (Org : string) (WhatIf : bool)
    (LogPath : string) (MaxRetries : Z) (w : World) :
  let out := script_main Org WhatIf LogPath MaxRetries w in
  count_steps is_Transcript_started (steps out)
  = (if String.eqb LogPath "" then 0 else 1)%nat /\
  count_steps is_Transcript_stopped (steps out)
  = count_steps is_Transcript_started (steps out) /\
  count_steps is_Disconnected (steps out)
  = (if Success_of (returned (fst (fst (connect Org MaxRetries w))))
     then 1 else 0)%nat /\
  (exit_code out = 0 \/ exit_code out = 1).
Proof.
  cbv zeta. unfold main, connection.
  destruct (Invoke_ExchangeOperation _ (connection_block _ _) _ _ _)
    as [[r1 w1] t1].
  cbn [fst snd]. destruct (Success_of (returned r1)); cbn [negb].
  2:{ cbn [steps exit_code]. count_steps_norm.
      destruct (LogPath =? "")%string; cbn; auto. }
  destruct (Invoke_ExchangeOperation _ (departments_block _ _) _ _ _)
    as [[r2 w2] t2].
  destruct (Success_of (returned r2)); cbn [negb].
  2:{ destruct (Disconnect_ExchangeOnline w2) as [d w3].
      cbn [steps exit_code]. count_steps_norm.
      destruct (LogPath =? "")%string; cbn; auto. }
  destruct (Z.of_nat (List.length (elements (Result_of (returned r2)))) =? 0).
  { destruct (Disconnect_ExchangeOnline w2) as [d w3].
    cbn [steps exit_code]. count_steps_norm.
    destruct (LogPath =? "")%string; cbn; auto. }
  pose proof (loop_exit_code exchange Start_Sleep WhatIf MaxRetries
                (elements (Result_of (returned r2))) w2) as [L _].
  destruct (run_loop _ _ _ _ _ _) as [[r3 s] t3]. cbn [fst snd] in L.
  destruct (Disconnect_ExchangeOnline (world s)) as [d w4].
  cbn [steps exit_code]. count_steps_norm.
  destruct (LogPath =? "")%string; cbn; auto.
Qed.

(** X26. With [-WhatIf] the whole script, from the connection to the
    disconnect, issues no cmdlet of the loop at all: nothing is looked up,
    created or updated on any path. *)
Theorem whole_script_dry_run_issues_no_cmdlet (Org : string)
    (LogPath : string) (MaxRetries : Z) (w : World) :
  let out := script_main Org true LogPath MaxRetries w in
  count_steps ran_call (steps out) = 0%nat /\
  match script out with
  | Some s =>
      Created (stats s) = 0 /\ Updated (stats s) = 0 /\ Skipped (stats s) = 0
  | None => True
  end.
Proof.
  cbv zeta. unfold main.
  pose proof (connection_no_calls Org MaxRetries w) as Hcalls.
  pose proof (listing_no_calls MaxRetries
                (snd (fst (connect Org MaxRetries w)))) as Hcalls2.
  unfold connection, listing in *.
  destruct (Invoke_ExchangeOperation _ (connection_block _ _) _ _ _)
    as [[r1 w1] t1].
  cbn [fst snd] in *. destruct (Success_of (returned r1)); cbn [negb].
  2:{ cbn [steps script]. count_steps_norm. rewrite Hcalls.
      destruct (LogPath =? "")%string; cbn; auto. }
  destruct (Invoke_ExchangeOperation _ (departments_block _ _) _ _ _)
    as [[r2 w2] t2].
  cbn [fst snd] in *. destruct (Success_of (returned r2)); cbn [negb].
  2:{ destruct (Disconnect_ExchangeOnline w2) as [d w3].
      cbn [steps script]. count_steps_norm. rewrite Hcalls, Hcalls2.
      destruct (LogPath =? "")%string; cbn; auto. }
  destruct (Z.of_nat (List.length (elements (Result_of (returned r2)))) =? 0).
  { destruct (Disconnect_ExchangeOnline w2) as [d w3].
    cbn [steps script]. count_steps_norm. rewrite Hcalls, Hcalls2.
    destruct (LogPath =? "")%string; cbn; auto. }
  unfold run_loop.
  destruct (process_departments_facts exchange Start_Sleep true MaxRetries
              (Z.of_nat (List.length (elements (Result_of (returned r2)))))
              (elements (Result_of (returned r2)))
              {| world := w2; stats := initial_stats;
                 processedDepartments := [] |})
    as (s' & t & new & -> & _ & _ & _ & _ & HD).
  destruct (HD eq_refl) as (_ & Hc & _ & _ & Hr).
  destruct (Disconnect_ExchangeOnline (world s')) as [d w4].
  cbn [steps script]. count_steps_norm.
  rewrite Hcalls, Hcalls2, Hc,
    (proj1 (calls_summary_report _ _ _ _ _)).
  split; [destruct (LogPath =? "")%string; cbn; auto|].
  pose proof (Hr BCreated ltac:(discriminate)) as R1.
  pose proof (Hr BUpdated ltac:(discriminate)) as R2.
  pose proof (Hr BSkipped ltac:(discriminate)) as R3.
  cbn [read stats initial_stats Created Updated Skipped] in R1, R2, R3. auto.
Qed.

(** X27. Nothing is attempted once the session is closed: whatever comes
    after a disconnect in a run of the script is no attempt of the
    executor and no cmdlet, and before it there is no other disconnect. *)
Theorem nothing_runs_after_the_disconnect (Org : string) (WhatIf : bool)
    (LogPath : string) (MaxRetries : Z) (w : World)
    (pre post : list Step) :
  steps (script_main Org WhatIf LogPath MaxRetries w)
  = (pre ++ Disconnected :: post)%list ->
  count_steps ran_attempt post = 0%nat /\
  count_steps ran_call post = 0%nat /\
  count_steps is_Disconnected pre = 0%nat /\
  count_steps is_Disconnected post = 0%nat.
Proof.
  assert (K : forall A B : list Step,
             count_steps is_Disconnected A = 0%nat ->
             count_steps is_Disconnected B = 0%nat ->
             count_steps ran_attempt B = 0%nat ->
             count_steps ran_call B = 0%nat ->
             (A ++ Disconnected :: B)%list = (pre ++ Disconnected :: post)%list ->
             count_steps ran_attempt post = 0%nat /\
             count_steps ran_call post = 0%nat /\
             count_steps is_Disconnected pre = 0%nat /\
             count_steps is_Disconnected post = 0%nat).
  { intros A B HA HB H1 H2 E.
    destruct (split_at_only is_Disconnected Disconnected Disconnected
                eq_refl eq_refl A B pre post HA HB E) as [-> ->]. auto. }
  unfold main.
  destruct (Invoke_ExchangeOperation _ (connection_block _ _) _ _ _)
    as [[r1 w1] t1].
  destruct (Success_of (returned r1)); cbn [negb].
  2:{ cbn [steps]. intros E. exfalso.
      assert (H : count_steps is_Disconnected (pre ++ Disconnected :: post)
                  <> 0%nat).
      { rewrite count_steps_app. unfold count_steps at 2. cbn. lia. }
      rewrite <- E in H. apply H. count_steps_norm.
      destruct (negb (LogPath =? "")%string); reflexivity. }
  destruct (Invoke_ExchangeOperation _ (departments_block _ _) _ _ _)
    as [[r2 w2] t2].
  destruct (Success_of (returned r2)); cbn [negb].
  2:{ destruct (Disconnect_ExchangeOnline w2) as [d w3]. cbn [steps].
      rewrite !app_assoc. rewrite <- !app_assoc.
      rewrite !(app_assoc _ _ ([Disconnected] ++ _)). cbn [app].
      apply K; rewrite <- ?app_assoc; count_steps_norm;
        destruct (negb (LogPath =? "")%string); reflexivity. }
  destruct (Z.of_nat (List.length (elements (Result_of (returned r2)))) =? 0).
  { destruct (Disconnect_ExchangeOnline w2) as [d w3]. cbn [steps].
    rewrite !(app_assoc _ _ ([Disconnected] ++ _)). cbn [app].
    apply K; rewrite <- ?app_assoc; count_steps_norm;
      destruct (negb (LogPath =? "")%string); reflexivity. }
  destruct (run_loop _ _ _ _ _ _) as [[r3 s] t3].
  destruct (Disconnect_ExchangeOnline (world s)) as [d w4]. cbn [steps].
  rewrite !(app_assoc _ _ ([Disconnected] ++ _)). cbn [app].
  apply K; rewrite <- ?app_assoc; count_steps_norm;
    destruct (negb (LogPath =? "")%string); reflexivity.
Qed.

End MainFacts.

(** Runs of the script in the office. *)
Lemma no_retries_means_no_connection_witness :
  let out := Office.run false "" 0 Tenant.empty in
  exit_code out = 1 /\ tenant out = Tenant.empty /\ script out = None /\
  count_steps ran_attempt (steps out) = 0%nat /\
  count_steps ran_call (steps out) = 0%nat /\
  count_steps is_Disconnected (steps out) = 0%nat /\
  In (Ran (EvOutput (fatal_connection_line 0 None))) (steps out).
Proof.
  exact (no_retries_means_no_connection Tenant.exchange Tenant.Start_Sleep
           Office.Connect_ExchangeOnline Office.Get_Recipient_Unlimited
           plain Office.Disconnect_ExchangeOnline (fun _ => "") ""
           "DDG_Automation.log" "contoso.onmicrosoft.com" false "" 0
           Tenant.empty ltac:(lia)).
Defined.

Lemma failed_connection_is_fatal_witness :
  let d := {| Tenant.recipients := []; Tenant.outage := 3 |} in
  let Connect :=
    connection_block Office.Connect_ExchangeOnline
      "contoso.onmicrosoft.com" in
  let out := Office.run false "" 3 d in
  exit_code out = 1 /\ script out = None /\
  tenant out = world_after_attempt Tenant.Start_Sleep Connect d 3 /\
  count_steps ran_attempt (steps out) = 3%nat /\
  count_steps (ran_attempt_of "Get Departments") (steps out) = 0%nat /\
  count_steps ran_call (steps out) = 0%nat /\
  count_steps is_Disconnected (steps out) = 0%nat /\
  exists msg,
    outcome_of_attempt Tenant.Start_Sleep Connect d 3 = inl msg /\
    In (Ran (EvOutput (fatal_connection_line 3 (Some msg)))) (steps out).
Proof.
  exact (failed_connection_is_fatal Tenant.exchange Tenant.Start_Sleep
           Office.Connect_ExchangeOnline Office.Get_Recipient_Unlimited
           plain Office.Disconnect_ExchangeOnline (fun _ => "") ""
           "DDG_Automation.log" "contoso.onmicrosoft.com" false "" 3
           {| Tenant.recipients := []; Tenant.outage := 3 |}
           ltac:(lia) eq_refl).
Defined.

Lemma failed_listing_disconnects_and_fails_witness :
  let d := {| Tenant.recipients := []; Tenant.outage := 1 |} in
  let Get_Departments :=
    departments_block Office.Get_Recipient_denied plain in
  let out := Office.run_with Office.Get_Recipient_denied false "" 2 d in
  exit_code out = 1 /\ script out = None /\
  tenant out
  = snd (Office.Disconnect_ExchangeOnline
           (world_after_attempt Tenant.Start_Sleep Get_Departments
              Tenant.empty 2)) /\
  count_steps is_Disconnected (steps out) = 1%nat /\
  count_steps ran_call (steps out) = 0%nat /\
  count_steps ran_attempt (steps out) = 4%nat /\
  exists msg,
    outcome_of_attempt Tenant.Start_Sleep Get_Departments Tenant.empty 2
    = inl msg /\
    In (Ran (EvOutput (fatal_departments_line (Some msg)))) (steps out).
Proof.
  exact (failed_listing_disconnects_and_fails Tenant.exchange
           Tenant.Start_Sleep
           Office.Connect_ExchangeOnline Office.Get_Recipient_denied
           plain Office.Disconnect_ExchangeOnline (fun _ => "") ""
           "DDG_Automation.log" "contoso.onmicrosoft.com" false "" 2
           {| Tenant.recipients := []; Tenant.outage := 1 |}
           eq_refl eq_refl).
Defined.

Lemma nothing_listed_exits_gracefully_witness :
  let out :=
    Office.run_with (Office.guarded Office.rooms) false "" 3 Tenant.empty in
  exit_code out = 0 /\ script out = None /\
  tenant out = Tenant.empty /\
  count_steps is_Disconnected (steps out) = 1%nat /\
  count_steps ran_call (steps out) = 0%nat /\
  In (Ran (EvOutput
             "No departments found with valid recipients. Exiting gracefully."))
    (steps out).
Proof.
  exact (nothing_listed_exits_gracefully Tenant.exchange Tenant.Start_Sleep
           Office.Connect_ExchangeOnline (Office.guarded Office.rooms)
           plain Office.Disconnect_ExchangeOnline (fun _ => "") ""
           "DDG_Automation.log" "contoso.onmicrosoft.com" false "" 3
           Tenant.empty Tenant.empty Office.rooms eq_refl eq_refl eq_refl).
Defined.

Lemma full_run_exit_code_witness :
  let ran :=
    run_loop Tenant.exchange Tenant.Start_Sleep false 3
      ["12345 Finance - USA"; "bad"] Tenant.empty in
  let s := snd (fst ran) in
  let out := Office.run false "" 3 Tenant.empty in
  script out = Some s /\
  tenant out = world s /\
  TotalProcessed (stats s) = 2 /\
  filter ran_call (steps out) = map Ran (calls (snd ran)) /\
  count_steps is_Disconnected (steps out) = 1%nat /\
  (exit_code out = 0 \/ exit_code out = 1) /\
  (exit_code out = 0 <-> errorDepartments (processedDepartments s) = []).
Proof.
  exact (full_run_exit_code Tenant.exchange Tenant.Start_Sleep
           Office.Connect_ExchangeOnline Office.Get_Recipient_Unlimited
           plain Office.Disconnect_ExchangeOnline (fun _ => "") ""
           "DDG_Automation.log" "contoso.onmicrosoft.com" false "" 3
           Tenant.empty Tenant.empty Office.staff eq_refl eq_refl
           ltac:(discriminate)).
Defined.

Lemma nothing_runs_after_the_disconnect_witness :
  let l :=
    steps (Office.run_with (Office.guarded Office.rooms) false "C:\Logs" 3
             Tenant.empty) in
  l = (firstn 10 l ++ Disconnected :: [Transcript_stopped])%list /\
  count_steps ran_attempt [Transcript_stopped] = 0%nat /\
  count_steps ran_call [Transcript_stopped] = 0%nat /\
  count_steps is_Disconnected (firstn 10 l) = 0%nat /\
  count_steps is_Disconnected [Transcript_stopped] = 0%nat.
Proof.
  cbv zeta. split; [reflexivity|].
  exact (nothing_runs_after_the_disconnect Tenant.exchange Tenant.Start_Sleep
           Office.Connect_ExchangeOnline (Office.guarded Office.rooms)
           plain Office.Disconnect_ExchangeOnline (fun _ => "") ""
           "DDG_Automation.log" "contoso.onmicrosoft.com" false "C:\Logs" 3
           Tenant.empty
           (firstn 10
              (steps (Office.run_with (Office.guarded Office.rooms) false
                        "C:\Logs" 3 Tenant.empty)))
           [Transcript_stopped] eq_refl).
Defined.
